(** * home-database: approval consensus, ledger materialisation and reports

    A shallow embedding of the Express/Mongoose back end of the repository:

    - [src/routes/personalExpenses.js]: the life cycle of a personal expense
      request (create, edit, submit, approve or reject, list approvals,
      cancel), the audit helper [createAudit], and the materialisation of an
      approved request into the ledger, which the approve handler inlines;
    - [src/routes/reports.js], first module: [buildRange] and the totals of
      [GET /api/reports/remaining]; second module (the router mounted at
      [/api/expenses]): [computeMonthlyTotals];
    - [src/middleware/roles.js]: [permit], and [authenticateToken] of the
      auth middleware that follows it in the file;
    - [src/unnamed/part_000] to [part_002] and [src/models]: the Mongoose
      schemas of the collections these routes touch.

    Modelling conventions.

    - A handler is a function [World -> Response * World]; [await] is
      sequencing.  The handler receives the time of the call ([new Date()])
      as an argument.
    - A JavaScript [Number] is a [JsNumber]: an exact rational, or one of
      [Infinity], [-Infinity], [NaN].  The rounding error of binary64
      arithmetic is not modelled.
    - An [ObjectId] is identified with its [String()] rendering (24 hex
      digits).  The primitives of the JavaScript runtime and of the ODM
      that the repository calls and does not define (validation and cast of
      an ObjectId, [Number] on a string, the regular expression on category
      names, the [Date] calendar) are the fields of the class [Runtime]:
      every statement holds for all of them.
    - The body of a request arrives typed: a field is absent, or holds a
      value of the type the schema gives it.  The amount of a decision,
      which the handler converts itself, is a [JsValue].
    - Writes to the primary collections succeed, apart from the duplicate
      key error of the unique index on approvals, which the source handles;
      the casts and validators of the ODM are not modelled.  Writes to the
      audit and notification collections, which the source guards with
      [try]/[catch], may fail: the world carries a schedule of outcomes for
      each.
    - [populate] is modelled where the source inspects its result (the
      approvers of a request); the text of notification bodies is left
      out. *)

From Stdlib Require Import List String Ascii Bool Arith ZArith QArith Qround Lia Lqa.
From Stdlib Require Import Setoid Morphisms.
Import ListNotations.
Open Scope string_scope.
Open Scope Z_scope.

Set Implicit Arguments.

(** ** JavaScript numbers *)

Inductive JsNumber : Type :=
| Fin (q : Q)
| PosInf
| NegInf
| NaN.

(** [Number.isNaN] *)
Definition Number_isNaN (n : JsNumber) : bool :=
  match n with NaN => true | _ => false end.

(** [Number.isFinite] *)
Definition Number_isFinite (n : JsNumber) : bool :=
  match n with Fin _ => true | _ => false end.

(** [a + b] *)
Definition js_add (a b : JsNumber) : JsNumber :=
  match a, b with
  | NaN, _ | _, NaN => NaN
  | PosInf, NegInf | NegInf, PosInf => NaN
  | PosInf, _ | _, PosInf => PosInf
  | NegInf, _ | _, NegInf => NegInf
  | Fin p, Fin q => Fin (p + q)
  end.

(** [a - b] *)
Definition js_sub (a b : JsNumber) : JsNumber :=
  match a, b with
  | NaN, _ | _, NaN => NaN
  | PosInf, PosInf | NegInf, NegInf => NaN
  | PosInf, _ | _, NegInf => PosInf
  | NegInf, _ | _, PosInf => NegInf
  | Fin p, Fin q => Fin (p - q)
  end.

(** [a / n] for an array length [n] *)
Definition js_div_length (a : JsNumber) (n : nat) : JsNumber :=
  match n with
  | O =>
      match a with
      | Fin p => if Qlt_le_dec 0 p then PosInf
                 else if Qlt_le_dec p 0 then NegInf else NaN
      | PosInf => PosInf
      | NegInf => NegInf
      | NaN => NaN
      end
  | S _ =>
      match a with
      | Fin p => Fin (p / inject_Z (Z.of_nat n))
      | other => other
      end
  end.

(** [Math.round]: the nearest integer, a tie going to the larger one. *)
Definition Math_round (a : JsNumber) : JsNumber :=
  match a with
  | Fin p => Fin (inject_Z (Qfloor (p + (1 # 2))))
  | other => other
  end.

(** [a === b] on numbers *)
Definition js_strict_eq (a b : JsNumber) : bool :=
  match a, b with
  | Fin p, Fin q => Qeq_bool p q
  | PosInf, PosInf => true
  | NegInf, NegInf => true
  | _, _ => false
  end.

(** Truthiness of a number: [0] and [NaN] are falsy. *)
Definition js_truthy (a : JsNumber) : bool :=
  match a with
  | Fin p => negb (Qeq_bool p 0)
  | NaN => false
  | _ => true
  end.

(** [a || 0] *)
Definition js_or0 (a : JsNumber) : JsNumber :=
  if js_truthy a then a else Fin 0.

(** [start <= d && d <= end] and [start <= d && d < end] on dates *)
Definition Date := Z.

Definition in_closed_range (start end_ d : Date) : bool :=
  (start <=? d) && (d <=? end_).

Definition in_half_open_range (start end_ d : Date) : bool :=
  (start <=? d) && (d <? end_).

(** Numeric equality of two numbers: [Qeq] on rationals. *)
Inductive js_equiv : JsNumber -> JsNumber -> Prop :=
| equiv_Fin p q : (p == q)%Q -> js_equiv (Fin p) (Fin q)
| equiv_PosInf : js_equiv PosInf PosInf
| equiv_NegInf : js_equiv NegInf NegInf
| equiv_NaN : js_equiv NaN NaN.

(** ** Values of a JSON body *)

Inductive JsValue : Type :=
| JUndefined
| JNull
| JNum (n : JsNumber)
| JStr (s : string)
| JBool (b : bool).

(** ** Strings: the regular expressions the routes use

    [new RegExp(`${pe._id}`, "i")] searches the rendering of an ObjectId,
    which has no metacharacter: a case-insensitive substring search.
    [/Approved personal expense/i] is a case-insensitive substring search,
    [/^\[Personal\]/] a prefix test. *)

Definition lower_ascii (c : ascii) : ascii :=
  let n := nat_of_ascii c in
  if ((65 <=? n) && (n <=? 90))%nat then ascii_of_nat (n + 32) else c.

Fixpoint lower (s : string) : string :=
  match s with
  | EmptyString => EmptyString
  | String c r => String (lower_ascii c) (lower r)
  end.

Fixpoint contains (needle hay : string) : bool :=
  if String.prefix needle hay then true
  else match hay with
       | EmptyString => false
       | String _ r => contains needle r
       end.

Definition icontains (needle hay : string) : bool :=
  contains (lower needle) (lower hay).

(** ** Data model (the Mongoose schemas) *)

Definition ObjectId := string.

Inductive Status : Type := draft | pending | approved | rejected | cancelled.

Definition Status_eqb (a b : Status) : bool :=
  match a, b with
  | draft, draft | pending, pending | approved, approved
  | rejected, rejected | cancelled, cancelled => true
  | _, _ => false
  end.

Inductive Decision : Type := approve | reject.

Definition Decision_eqb (a b : Decision) : bool :=
  match a, b with
  | approve, approve | reject, reject => true
  | _, _ => false
  end.

Record User : Type := mkUser {
  u_id : ObjectId;
  u_username : string;
  u_display_name : string;
  u_role : string
}.

Record ExpenseCategory : Type := mkCategory {
  cat_id : ObjectId;
  cat_name : string
}.

Record Attachment : Type := mkAttachment {
  att_filename : string;
  att_originalname : string;
  att_mime : string;
  att_size : nat;
  att_path : string
}.

Record PersonalExpense : Type := mkPersonalExpense {
  pe_id : ObjectId;
  pe_user : ObjectId;
  pe_title : string;
  pe_description : string;
  pe_category : option ObjectId;
  pe_amount_min : JsNumber;
  pe_amount_avg : JsNumber;
  pe_amount_max : JsNumber;
  pe_requested_amount : option JsNumber;
  pe_unit : option string;
  pe_start_date : option Date;
  pe_end_date : option Date;
  pe_status : Status;
  pe_attachments : list Attachment;
  pe_required_admins_count : nat;
  pe_approvals_count : nat;
  pe_approved_amount : option JsNumber;
  pe_approved_at : option Date;
  pe_createdAt : Date;
  pe_updatedAt : Date
}.

Record Approval : Type := mkApproval {
  ap_personal_expense : ObjectId;
  ap_admin_user : ObjectId;
  ap_decision : Decision;
  ap_comment : option string;
  ap_decided_at : Date;
  ap_approved_amount : option JsNumber
}.

Record ExpenseEntry : Type := mkExpenseEntry {
  ee_id : ObjectId;
  ee_record_id : option ObjectId;
  ee_category : option ObjectId;
  ee_title : option string;
  ee_amount_min : option JsNumber;
  ee_amount_avg : option JsNumber;
  ee_amount_max : option JsNumber;
  ee_actual_amount : option JsNumber;
  ee_unit : option string;
  ee_note : option string;
  ee_date : Date;
  ee_created_by : option ObjectId;
  ee_attachments : list Attachment
}.

Record IncomeEntry : Type := mkIncomeEntry {
  inc_source_name : string;
  inc_amount : JsNumber;
  inc_currency : string;
  inc_note : string;
  inc_date : Date;
  inc_created_by : option ObjectId
}.

Record Notification : Type := mkNotification {
  n_user : ObjectId;
  n_title : string;
  n_link : string;
  n_personal_expense : ObjectId;
  n_sender : ObjectId;
  n_decision : option Decision;
  n_approved_amount : option JsNumber
}.

(** The body of [POST /] and of [PUT /:id]: a field is [None] when the
    body leaves it undefined. *)
Record ExpenseBody : Type := mkExpenseBody {
  b_title : option string;
  b_description : option string;
  b_category : option string;
  b_amount_min : option JsNumber;
  b_amount_avg : option JsNumber;
  b_amount_max : option JsNumber;
  b_requested_amount : option JsNumber;
  b_start_date : option Date;
  b_end_date : option Date;
  b_attachments : option (list Attachment)
}.

(** The body of [POST /:id/approve]. *)
Record DecisionBody : Type := mkDecisionBody {
  b_decision : option string;
  b_comment : option string;
  b_approved_amount : JsValue
}.

(** The [meta] of an audit record. *)
Inductive AuditMeta : Type :=
| MetaEmpty
| MetaPayload (payload : ExpenseBody)
| MetaNotifyTo (notifyTo : ObjectId) (message : string)
| MetaDecision (comment : option string) (approved_amount : option JsNumber)
| MetaBy (by_ : ObjectId)
| MetaOwner (owner : ObjectId) (comment : option string)
| MetaApprovedFinal (approvers : list ObjectId) (finalApprovedAmount : JsNumber)
| MetaMaterialised (personal_expense expense_entry : ObjectId).

Record AuditLog : Type := mkAuditLog {
  al_entity_type : string;
  al_entity_id : ObjectId;
  al_action : string;
  al_performed_by : option ObjectId;
  al_meta : AuditMeta
}.

(** ** The world: the collections, and the outcomes of guarded writes *)

Record Database : Type := mkDatabase {
  users : list User;
  categories : list ExpenseCategory;
  personalExpenses : list PersonalExpense;
  approvals : list Approval;
  expenseEntries : list ExpenseEntry;
  incomeEntries : list IncomeEntry;
  notifications : list Notification;
  nextId : nat;
  (** the outcome of the coming [Notification.create] calls: [true] is a failure *)
  notificationFaults : list bool
}.

Record World : Type := mkWorld {
  db : Database;
  auditLogs : list AuditLog;
  (** the outcome of the coming [AuditLog.create] calls: [true] is a failure *)
  auditFaults : list bool
}.

(** ** Responses *)

Inductive Message : Type :=
| Text (s : string)
| StillPending (approved_by required : nat).

Record Totals : Type := mkTotals {
  t_start : Date;
  t_end : Date;
  totalIncome : JsNumber;
  totalGlobalExpenses : JsNumber;
  totalPersonalApproved : JsNumber;
  totalExpenses : JsNumber;
  remaining : JsNumber
}.

Record MonthlyTotals : Type := mkMonthlyTotals {
  m_start : Date;
  m_end : Date;
  incomeTotal : JsNumber;
  expenseTotalFromEntries : JsNumber;
  expenseTotalFromPersonal : JsNumber;
  m_totalExpenses : JsNumber;
  m_remaining : JsNumber
}.

Inductive Payload : Type :=
| OnlyMessage (message : Message)
| ItemOnly (item : option PersonalExpense)
| ItemMessage (item : option PersonalExpense) (message : Message)
| Decided (item : PersonalExpense) (approval : option Approval) (message : Message)
    (finalApprovedAmount : option JsNumber)
| ApprovalList (rows : list (Approval * option User))
| TotalsOf (totals : Totals).

Record Response : Type := mkResponse {
  res_status : nat;
  res_body : Payload
}.

Definition fail (code : nat) (message : string) : Response :=
  mkResponse code (OnlyMessage (Text message)).

(** The error taxonomy of the specification, read off the status code and
    the message of a response. *)
Inductive ErrorKind : Type :=
| Unauthenticated | Forbidden | NotOwner | NotFound
| InvalidState | ValidationError | ServerFault.

Definition invalid_state_messages : list string :=
  [ "only editable in draft state";
    "only draft can be submitted";
    "can only approve/reject pending items";
    "cannot cancel in current status" ].

Definition errorKind (r : Response) : option ErrorKind :=
  match res_status r, res_body r with
  | 401%nat, _ => Some Unauthenticated
  | 403%nat, OnlyMessage (Text m) =>
      if String.eqb m "not owner" then Some NotOwner else Some Forbidden
  | 404%nat, _ => Some NotFound
  | 400%nat, OnlyMessage (Text m) =>
      if existsb (String.eqb m) invalid_state_messages
      then Some InvalidState else Some ValidationError
  | 500%nat, _ => Some ServerFault
  | _, _ => None
  end.

(** ** The runtime: primitives the repository uses and does not define *)

Class Runtime : Type := {
  (** [mongoose.Types.ObjectId.isValid] *)
  ObjectId_isValid : string -> bool;
  (** the cast of a route parameter that [findById] performs *)
  castObjectId : string -> ObjectId;
  (** the identifier of the [n]-th document created *)
  genObjectId : nat -> ObjectId;
  (** [Number(s)] on a string *)
  StringToNumber : string -> JsNumber;
  (** [{ $regex: `^${category}$`, $options: "i" }] against a category name *)
  categoryNameMatches : string -> string -> bool;
  (** [d.getFullYear()], [d.getMonth()] *)
  getFullYear : Date -> Z;
  getMonth : Date -> Z;
  (** [new Date(year, monthIndex, day, hours, minutes, seconds, ms)] *)
  newDate : Z -> Z -> Z -> Z -> Z -> Z -> Z -> Date;
  (** [d.setHours(h, m, s, ms)] *)
  setHours : Date -> Z -> Z -> Z -> Z -> Date;
  (** [new Date(s)] on a query string *)
  parseDate : string -> Date;
  (** the year and the month (1 to 12) that [parseInt] reads in the two
      parts of a [YYYY-MM] string *)
  parseYearMonth : string -> Z * Z
}.

(** ** Field assignments *)

Definition set_pe_title v (pe : PersonalExpense) : PersonalExpense :=
  mkPersonalExpense (pe_id pe) (pe_user pe) v (pe_description pe) (pe_category pe) (pe_amount_min pe) (pe_amount_avg pe) (pe_amount_max pe) (pe_requested_amount pe) (pe_unit pe) (pe_start_date pe) (pe_end_date pe) (pe_status pe) (pe_attachments pe) (pe_required_admins_count pe) (pe_approvals_count pe) (pe_approved_amount pe) (pe_approved_at pe) (pe_createdAt pe) (pe_updatedAt pe).

Definition set_pe_description v (pe : PersonalExpense) : PersonalExpense :=
  mkPersonalExpense (pe_id pe) (pe_user pe) (pe_title pe) v (pe_category pe) (pe_amount_min pe) (pe_amount_avg pe) (pe_amount_max pe) (pe_requested_amount pe) (pe_unit pe) (pe_start_date pe) (pe_end_date pe) (pe_status pe) (pe_attachments pe) (pe_required_admins_count pe) (pe_approvals_count pe) (pe_approved_amount pe) (pe_approved_at pe) (pe_createdAt pe) (pe_updatedAt pe).

Definition set_pe_category v (pe : PersonalExpense) : PersonalExpense :=
  mkPersonalExpense (pe_id pe) (pe_user pe) (pe_title pe) (pe_description pe) v (pe_amount_min pe) (pe_amount_avg pe) (pe_amount_max pe) (pe_requested_amount pe) (pe_unit pe) (pe_start_date pe) (pe_end_date pe) (pe_status pe) (pe_attachments pe) (pe_required_admins_count pe) (pe_approvals_count pe) (pe_approved_amount pe) (pe_approved_at pe) (pe_createdAt pe) (pe_updatedAt pe).

Definition set_pe_amount_min v (pe : PersonalExpense) : PersonalExpense :=
  mkPersonalExpense (pe_id pe) (pe_user pe) (pe_title pe) (pe_description pe) (pe_category pe) v (pe_amount_avg pe) (pe_amount_max pe) (pe_requested_amount pe) (pe_unit pe) (pe_start_date pe) (pe_end_date pe) (pe_status pe) (pe_attachments pe) (pe_required_admins_count pe) (pe_approvals_count pe) (pe_approved_amount pe) (pe_approved_at pe) (pe_createdAt pe) (pe_updatedAt pe).

Definition set_pe_amount_avg v (pe : PersonalExpense) : PersonalExpense :=
  mkPersonalExpense (pe_id pe) (pe_user pe) (pe_title pe) (pe_description pe) (pe_category pe) (pe_amount_min pe) v (pe_amount_max pe) (pe_requested_amount pe) (pe_unit pe) (pe_start_date pe) (pe_end_date pe) (pe_status pe) (pe_attachments pe) (pe_required_admins_count pe) (pe_approvals_count pe) (pe_approved_amount pe) (pe_approved_at pe) (pe_createdAt pe) (pe_updatedAt pe).

Definition set_pe_amount_max v (pe : PersonalExpense) : PersonalExpense :=
  mkPersonalExpense (pe_id pe) (pe_user pe) (pe_title pe) (pe_description pe) (pe_category pe) (pe_amount_min pe) (pe_amount_avg pe) v (pe_requested_amount pe) (pe_unit pe) (pe_start_date pe) (pe_end_date pe) (pe_status pe) (pe_attachments pe) (pe_required_admins_count pe) (pe_approvals_count pe) (pe_approved_amount pe) (pe_approved_at pe) (pe_createdAt pe) (pe_updatedAt pe).

Definition set_pe_requested_amount v (pe : PersonalExpense) : PersonalExpense :=
  mkPersonalExpense (pe_id pe) (pe_user pe) (pe_title pe) (pe_description pe) (pe_category pe) (pe_amount_min pe) (pe_amount_avg pe) (pe_amount_max pe) v (pe_unit pe) (pe_start_date pe) (pe_end_date pe) (pe_status pe) (pe_attachments pe) (pe_required_admins_count pe) (pe_approvals_count pe) (pe_approved_amount pe) (pe_approved_at pe) (pe_createdAt pe) (pe_updatedAt pe).

Definition set_pe_start_date v (pe : PersonalExpense) : PersonalExpense :=
  mkPersonalExpense (pe_id pe) (pe_user pe) (pe_title pe) (pe_description pe) (pe_category pe) (pe_amount_min pe) (pe_amount_avg pe) (pe_amount_max pe) (pe_requested_amount pe) (pe_unit pe) v (pe_end_date pe) (pe_status pe) (pe_attachments pe) (pe_required_admins_count pe) (pe_approvals_count pe) (pe_approved_amount pe) (pe_approved_at pe) (pe_createdAt pe) (pe_updatedAt pe).

Definition set_pe_end_date v (pe : PersonalExpense) : PersonalExpense :=
  mkPersonalExpense (pe_id pe) (pe_user pe) (pe_title pe) (pe_description pe) (pe_category pe) (pe_amount_min pe) (pe_amount_avg pe) (pe_amount_max pe) (pe_requested_amount pe) (pe_unit pe) (pe_start_date pe) v (pe_status pe) (pe_attachments pe) (pe_required_admins_count pe) (pe_approvals_count pe) (pe_approved_amount pe) (pe_approved_at pe) (pe_createdAt pe) (pe_updatedAt pe).

Definition set_pe_attachments v (pe : PersonalExpense) : PersonalExpense :=
  mkPersonalExpense (pe_id pe) (pe_user pe) (pe_title pe) (pe_description pe) (pe_category pe) (pe_amount_min pe) (pe_amount_avg pe) (pe_amount_max pe) (pe_requested_amount pe) (pe_unit pe) (pe_start_date pe) (pe_end_date pe) (pe_status pe) v (pe_required_admins_count pe) (pe_approvals_count pe) (pe_approved_amount pe) (pe_approved_at pe) (pe_createdAt pe) (pe_updatedAt pe).

Definition set_pe_status v (pe : PersonalExpense) : PersonalExpense :=
  mkPersonalExpense (pe_id pe) (pe_user pe) (pe_title pe) (pe_description pe) (pe_category pe) (pe_amount_min pe) (pe_amount_avg pe) (pe_amount_max pe) (pe_requested_amount pe) (pe_unit pe) (pe_start_date pe) (pe_end_date pe) v (pe_attachments pe) (pe_required_admins_count pe) (pe_approvals_count pe) (pe_approved_amount pe) (pe_approved_at pe) (pe_createdAt pe) (pe_updatedAt pe).

Definition set_pe_approvals_count v (pe : PersonalExpense) : PersonalExpense :=
  mkPersonalExpense (pe_id pe) (pe_user pe) (pe_title pe) (pe_description pe) (pe_category pe) (pe_amount_min pe) (pe_amount_avg pe) (pe_amount_max pe) (pe_requested_amount pe) (pe_unit pe) (pe_start_date pe) (pe_end_date pe) (pe_status pe) (pe_attachments pe) (pe_required_admins_count pe) v (pe_approved_amount pe) (pe_approved_at pe) (pe_createdAt pe) (pe_updatedAt pe).

Definition set_pe_approved_amount v (pe : PersonalExpense) : PersonalExpense :=
  mkPersonalExpense (pe_id pe) (pe_user pe) (pe_title pe) (pe_description pe) (pe_category pe) (pe_amount_min pe) (pe_amount_avg pe) (pe_amount_max pe) (pe_requested_amount pe) (pe_unit pe) (pe_start_date pe) (pe_end_date pe) (pe_status pe) (pe_attachments pe) (pe_required_admins_count pe) (pe_approvals_count pe) v (pe_approved_at pe) (pe_createdAt pe) (pe_updatedAt pe).

Definition set_pe_approved_at v (pe : PersonalExpense) : PersonalExpense :=
  mkPersonalExpense (pe_id pe) (pe_user pe) (pe_title pe) (pe_description pe) (pe_category pe) (pe_amount_min pe) (pe_amount_avg pe) (pe_amount_max pe) (pe_requested_amount pe) (pe_unit pe) (pe_start_date pe) (pe_end_date pe) (pe_status pe) (pe_attachments pe) (pe_required_admins_count pe) (pe_approvals_count pe) (pe_approved_amount pe) v (pe_createdAt pe) (pe_updatedAt pe).

Definition set_pe_updatedAt v (pe : PersonalExpense) : PersonalExpense :=
  mkPersonalExpense (pe_id pe) (pe_user pe) (pe_title pe) (pe_description pe) (pe_category pe) (pe_amount_min pe) (pe_amount_avg pe) (pe_amount_max pe) (pe_requested_amount pe) (pe_unit pe) (pe_start_date pe) (pe_end_date pe) (pe_status pe) (pe_attachments pe) (pe_required_admins_count pe) (pe_approvals_count pe) (pe_approved_amount pe) (pe_approved_at pe) (pe_createdAt pe) v.

Definition set_categories v (d : Database) : Database :=
  mkDatabase (users d) v (personalExpenses d) (approvals d) (expenseEntries d) (incomeEntries d) (notifications d) (nextId d) (notificationFaults d).

Definition set_personalExpenses v (d : Database) : Database :=
  mkDatabase (users d) (categories d) v (approvals d) (expenseEntries d) (incomeEntries d) (notifications d) (nextId d) (notificationFaults d).

Definition set_approvals v (d : Database) : Database :=
  mkDatabase (users d) (categories d) (personalExpenses d) v (expenseEntries d) (incomeEntries d) (notifications d) (nextId d) (notificationFaults d).

Definition set_expenseEntries v (d : Database) : Database :=
  mkDatabase (users d) (categories d) (personalExpenses d) (approvals d) v (incomeEntries d) (notifications d) (nextId d) (notificationFaults d).

Definition set_notifications v (d : Database) : Database :=
  mkDatabase (users d) (categories d) (personalExpenses d) (approvals d) (expenseEntries d) (incomeEntries d) v (nextId d) (notificationFaults d).

Definition set_nextId v (d : Database) : Database :=
  mkDatabase (users d) (categories d) (personalExpenses d) (approvals d) (expenseEntries d) (incomeEntries d) (notifications d) v (notificationFaults d).

Definition set_notificationFaults v (d : Database) : Database :=
  mkDatabase (users d) (categories d) (personalExpenses d) (approvals d) (expenseEntries d) (incomeEntries d) (notifications d) (nextId d) v.

(** A write to the primary collections, inside a world. *)
Definition on_db (f : Database -> Database) (w : World) : World :=
  mkWorld (f (db w)) (auditLogs w) (auditFaults w).

(** ** routes/personalExpenses.js: helpers *)

(** [createAudit] (lines 19-37): [AuditLog.create] inside [try]/[catch]; a
    failure is logged to the console and goes no further. *)
Definition createAudit (entry : AuditLog) (w : World) : World :=
  match auditFaults w with
  | true :: rest => mkWorld (db w) (auditLogs w) rest
  | false :: rest => mkWorld (db w) (auditLogs w ++ [entry]) rest
  | [] => mkWorld (db w) (auditLogs w ++ [entry]) []
  end.

(** [Notification.create] inside [try]/[catch]. *)
Definition notify (n : Notification) (d : Database) : Database :=
  match notificationFaults d with
  | true :: rest => set_notificationFaults rest d
  | false :: rest =>
      set_notificationFaults rest (set_notifications (notifications d ++ [n]) d)
  | [] => set_notifications (notifications d ++ [n]) d
  end.

Section Routes.

Context {RT : Runtime}.

Definition isValidObjectId (id : string) : bool := ObjectId_isValid id.

(** [PersonalExpense.findById] on an ObjectId, and on a route parameter. *)
Definition findById_oid (d : Database) (id : ObjectId) : option PersonalExpense :=
  find (fun pe => String.eqb (pe_id pe) id) (personalExpenses d).

Definition findById (d : Database) (id : string) : option PersonalExpense :=
  findById_oid d (castObjectId id).

(** [pe.save()]: the stored document with this [_id] is replaced.  The
    schema option [timestamps] makes the ODM refresh [updatedAt] when it
    saves a modified document; the model refreshes it on every save. *)
Definition save (now : Date) (pe : PersonalExpense) (d : Database)
  : Database * PersonalExpense :=
  let pe' := set_pe_updatedAt now pe in
  (set_personalExpenses
     (map (fun o => if String.eqb (pe_id o) (pe_id pe') then pe' else o)
        (personalExpenses d)) d,
   pe').

Definition User_findById (d : Database) (id : ObjectId) : option User :=
  find (fun u => String.eqb (u_id u) id) (users d).

(** ** middleware *)

Inductive Credentials : Type :=
| NoToken
| InvalidToken
| TokenFor (id : ObjectId).

Definition authenticateToken (c : Credentials) (w : World)
  (next : User -> Response * World) : Response * World :=
  match c with
  | NoToken => (fail 401 "Token missing", w)
  | InvalidToken => (fail 401 "Invalid or expired token", w)
  | TokenFor id =>
      match User_findById (db w) id with
      | None => (fail 401 "User not found", w)
      | Some user => next user
      end
  end.

Definition permit (allowed : list string) (req_user : option User) (w : World)
  (next : User -> Response * World) : Response * World :=
  match req_user with
  | None => (fail 401 "Not authenticated", w)
  | Some user =>
      if existsb (String.eqb (u_role user)) allowed then next user
      else (fail 403 "Forbidden - insufficient role", w)
  end.

(** ** POST /api/personal-expenses (lines 152-240) *)

Definition js_truthy_string (s : option string) : bool :=
  match s with
  | Some (String _ _) => true
  | _ => false
  end.

Definition Category_findById (d : Database) (id : string) : option ExpenseCategory :=
  find (fun c => String.eqb (cat_id c) (castObjectId id)) (categories d).

Definition Category_findByName (d : Database) (name : string) : option ExpenseCategory :=
  find (fun c => categoryNameMatches name (cat_name c)) (categories d).

Definition Category_create (name : string) (d : Database) : Database * ExpenseCategory :=
  let cat := mkCategory (genObjectId (nextId d)) name in
  (set_nextId (S (nextId d)) (set_categories (categories d ++ [cat]) d), cat).

(** The category of a new request: an ObjectId of a stored category, or a
    name, which is created when no stored category bears it. *)
Definition resolveCategory (category : option string) (d : Database)
  : option (Database * option ObjectId) :=
  match category with
  | Some (String _ _ as c) =>
      if ObjectId_isValid c then
        match Category_findById d c with
        | Some catExists => Some (d, Some (cat_id catExists))
        | None => None
        end
      else
        match Category_findByName d c with
        | Some cat => Some (d, Some (cat_id cat))
        | None =>
            let (d1, cat) := Category_create c d in
            Some (d1, Some (cat_id cat))
        end
  | _ => Some (d, None)
  end.

Definition PersonalExpense_create (now : Date) (user : ObjectId)
  (title : string) (body : ExpenseBody) (categoryId : option ObjectId)
  (amount_min amount_avg amount_max : JsNumber) (d : Database)
  : Database * PersonalExpense :=
  let pe :=
    mkPersonalExpense (genObjectId (nextId d)) user title
      (match b_description body with Some s => s | None => "" end)
      categoryId amount_min amount_avg amount_max
      (b_requested_amount body) None
      (b_start_date body) (b_end_date body)
      draft
      (match b_attachments body with Some l => l | None => [] end)
      2%nat 0%nat None None now now in
  (set_nextId (S (nextId d)) (set_personalExpenses (personalExpenses d ++ [pe]) d),
   pe).

Definition postPersonalExpense (now : Date) (user : User) (body : ExpenseBody)
  (w : World) : Response * World :=
  match b_title body, b_amount_min body, b_amount_avg body, b_amount_max body with
  | Some (String _ _ as title), Some amount_min, Some amount_avg, Some amount_max =>
      match resolveCategory (b_category body) (db w) with
      | None => (fail 400 "category not found", w)
      | Some (d1, categoryId) =>
          let (d2, pe) :=
            PersonalExpense_create now (u_id user) title body categoryId
              amount_min amount_avg amount_max d1 in
          let w2 := on_db (fun _ => d2) w in
          let w3 :=
            createAudit
              (mkAuditLog "personal_expense" (pe_id pe) "create"
                 (Some (u_id user)) (MetaPayload body)) w2 in
          let populated := findById_oid (db w3) (pe_id pe) in
          (mkResponse 201 (ItemOnly populated), w3)
      end
  | _, _, _, _ => (fail 400 "title and amount_min/avg/max required", w)
  end.

(** ** PUT /api/personal-expenses/:id (lines 246-293) *)

Definition assign {A B : Type} (set : A -> B -> B) (v : option A) (o : B) : B :=
  match v with
  | Some x => set x o
  | None => o
  end.

(** [updatable.forEach(field => if (req.body[field] !== undefined)
    pe[field] = req.body[field])] *)
Definition applyUpdatable (body : ExpenseBody) (pe : PersonalExpense)
  : PersonalExpense :=
  let pe := assign set_pe_title (b_title body) pe in
  let pe := assign set_pe_description (b_description body) pe in
  let pe := assign (fun c => set_pe_category (Some (castObjectId c)))
              (b_category body) pe in
  let pe := assign set_pe_amount_min (b_amount_min body) pe in
  let pe := assign set_pe_amount_avg (b_amount_avg body) pe in
  let pe := assign set_pe_amount_max (b_amount_max body) pe in
  let pe := assign (fun v => set_pe_requested_amount (Some v))
              (b_requested_amount body) pe in
  let pe := assign (fun v => set_pe_start_date (Some v)) (b_start_date body) pe in
  let pe := assign (fun v => set_pe_end_date (Some v)) (b_end_date body) pe in
  assign set_pe_attachments (b_attachments body) pe.

Definition putPersonalExpense (now : Date) (user : User) (id : string)
  (body : ExpenseBody) (w : World) : Response * World :=
  if negb (isValidObjectId id) then (fail 404 "not found", w)
  else
    match findById (db w) id with
    | None => (fail 404 "not found", w)
    | Some pe =>
        if negb (String.eqb (pe_user pe) (u_id user))
        then (fail 403 "not owner", w)
        else if negb (Status_eqb (pe_status pe) draft)
        then (fail 400 "only editable in draft state", w)
        else
          let pe1 := applyUpdatable body pe in
          let (d1, pe2) := save now pe1 (db w) in
          let w1 := on_db (fun _ => d1) w in
          let w2 :=
            createAudit
              (mkAuditLog "personal_expense" (pe_id pe2) "update"
                 (Some (u_id user)) (MetaPayload body)) w1 in
          let populated := findById_oid (db w2) (pe_id pe2) in
          (mkResponse 200 (ItemOnly populated), w2)
    end.

(** ** POST /api/personal-expenses/:id/submit (lines 299-365) *)

Definition is_admin_role (u : User) : bool :=
  existsb (String.eqb (u_role u)) ["adminA"; "adminB"].

Definition notifyAdmins (user : User) (pe : PersonalExpense)
  (admins : list User) (w : World) : World :=
  fold_left
    (fun w a =>
       let w1 :=
         on_db
           (notify
              (mkNotification (u_id a) "New personal expense pending approval"
                 ("/personal/" ++ pe_id pe) (pe_id pe) (u_id user) None None))
           w in
       createAudit
         (mkAuditLog "notification" (pe_id pe) "notify_admin_new_pending"
            (Some (u_id user))
            (MetaNotifyTo (u_id a) "New personal expense pending")) w1)
    admins w.

Definition submitPersonalExpense (now : Date) (user : User) (id : string)
  (w : World) : Response * World :=
  if negb (isValidObjectId id) then (fail 404 "not found", w)
  else
    match findById (db w) id with
    | None => (fail 404 "not found", w)
    | Some pe =>
        if negb (String.eqb (pe_user pe) (u_id user))
        then (fail 403 "not owner", w)
        else if negb (Status_eqb (pe_status pe) draft)
        then (fail 400 "only draft can be submitted", w)
        else
          let pe1 := set_pe_status pending pe in
          let (d1, pe2) := save now pe1 (db w) in
          let w1 := on_db (fun _ => d1) w in
          let w2 :=
            createAudit
              (mkAuditLog "personal_expense" (pe_id pe2) "submit"
                 (Some (u_id user)) MetaEmpty) w1 in
          let admins := filter is_admin_role (users (db w2)) in
          let w3 := notifyAdmins user pe2 admins w2 in
          let populated := findById_oid (db w3) (pe_id pe2) in
          (mkResponse 200
             (ItemMessage populated (Text "submitted and admins notified")), w3)
    end.

(** ** POST /api/personal-expenses/:id/cancel (lines 708-736) *)

Definition cancelPersonalExpense (now : Date) (user : User) (id : string)
  (w : World) : Response * World :=
  if negb (isValidObjectId id) then (fail 404 "not found", w)
  else
    match findById (db w) id with
    | None => (fail 404 "not found", w)
    | Some pe =>
        if negb (String.eqb (pe_user pe) (u_id user))
        then (fail 403 "not owner", w)
        else if existsb (Status_eqb (pe_status pe)) [approved; rejected; cancelled]
        then (fail 400 "cannot cancel in current status", w)
        else
          let pe1 := set_pe_status cancelled pe in
          let (d1, pe2) := save now pe1 (db w) in
          let w1 := on_db (fun _ => d1) w in
          let w2 :=
            createAudit
              (mkAuditLog "personal_expense" (pe_id pe2) "cancelled"
                 (Some (u_id user)) MetaEmpty) w1 in
          (mkResponse 200 (ItemMessage (Some pe2) (Text "cancelled")), w2)
    end.

(** ** GET /api/personal-expenses/:id/approvals (lines 656-681) *)

(** [Approval.find(q).populate("admin_user", ...)] *)
Definition Approval_find_populated (q : Approval -> bool) (d : Database)
  : list (Approval * option User) :=
  map (fun a => (a, User_findById d (ap_admin_user a))) (filter q (approvals d)).

Definition getApprovals (user : User) (id : string) (w : World)
  : Response * World :=
  if negb (isValidObjectId id) then (fail 404 "not found", w)
  else
    match findById (db w) id with
    | None => (fail 404 "not found", w)
    | Some pe =>
        if negb (String.eqb (pe_user pe) (u_id user))
           && negb (existsb (String.eqb (u_role user))
                      ["adminA"; "adminB"; "superadmin"])
        then (fail 403 "forbidden", w)
        else
          (mkResponse 200
             (ApprovalList
                (Approval_find_populated
                   (fun a => String.eqb (ap_personal_expense a) (pe_id pe))
                   (db w))), w)
    end.

(** ** POST /api/personal-expenses/:id/approve (lines 373-651) *)

(** [Number(v)] *)
Definition ToNumber (v : JsValue) : JsNumber :=
  match v with
  | JUndefined => NaN
  | JNull => Fin 0
  | JNum n => n
  | JStr s => StringToNumber s
  | JBool b => if b then Fin 1 else Fin 0
  end.

(** [v === undefined || v === null] *)
Definition is_nullish (v : JsValue) : bool :=
  match v with
  | JUndefined | JNull => true
  | _ => false
  end.

(** [["approve", "reject"].includes(decision)], with the decision read *)
Definition parseDecision (decision : option string) : option Decision :=
  match decision with
  | Some s =>
      if String.eqb s "approve" then Some approve
      else if String.eqb s "reject" then Some reject
      else None
  | None => None
  end.

Definition same_vote (personal_expense admin_user : ObjectId) (a : Approval) : bool :=
  String.eqb (ap_personal_expense a) personal_expense
  && String.eqb (ap_admin_user a) admin_user.

(** [Approval.create]: the unique index on (personal_expense, admin_user)
    refuses a second row for the pair, with error code 11000 ([None]). *)
Definition Approval_create (a : Approval) (d : Database) : option Database :=
  if existsb (same_vote (ap_personal_expense a) (ap_admin_user a)) (approvals d)
  then None
  else Some (set_approvals (approvals d ++ [a]) d).

Fixpoint updateFirst {A : Type} (p : A -> bool) (f : A -> A) (l : list A)
  : list A * option A :=
  match l with
  | [] => ([], None)
  | x :: r =>
      if p x then (f x :: r, Some (f x))
      else let (r', found) := updateFirst p f r in (x :: r', found)
  end.

(** [Approval.findOneAndUpdate({ personal_expense, admin_user },
    { decision, comment, decided_at, approved_amount }, { new: true })];
    an undefined [comment] is not part of the update. *)
Definition Approval_findOneAndUpdate (personal_expense admin_user : ObjectId)
  (decision : Decision) (comment : option string) (decided_at : Date)
  (approved_amount : option JsNumber) (d : Database)
  : Database * option Approval :=
  let (rows, found) :=
    updateFirst (same_vote personal_expense admin_user)
      (fun a =>
         mkApproval (ap_personal_expense a) (ap_admin_user a) decision
           (match comment with Some c => Some c | None => ap_comment a end)
           decided_at approved_amount)
      (approvals d) in
  (set_approvals rows d, found).

(** The [try]/[catch] around [Approval.create] (lines 419-440): create, or
    update on a duplicate key. *)
Definition recordApproval (now : Date) (pe : PersonalExpense) (user : User)
  (decision : Decision) (comment : option string)
  (approved_amount : option JsNumber) (d : Database)
  : Database * option Approval :=
  let fresh :=
    mkApproval (pe_id pe) (u_id user) decision
      (Some (match comment with Some c => c | None => "" end))
      now approved_amount in
  match Approval_create fresh d with
  | Some d1 => (d1, Some fresh)
  | None =>
      Approval_findOneAndUpdate (pe_id pe) (u_id user) decision comment now
        approved_amount d
  end.

(** [Approval.countDocuments({ personal_expense, decision: "approve" })] *)
Definition is_approve_of (personal_expense : ObjectId) (a : Approval) : bool :=
  String.eqb (ap_personal_expense a) personal_expense
  && Decision_eqb (ap_decision a) approve.

Definition countApprove (personal_expense : ObjectId) (d : Database) : nat :=
  List.length (filter (is_approve_of personal_expense) (approvals d)).

(** A JavaScript [Set] of strings, in insertion order. *)
Definition Set_add (s : list string) (x : string) : list string :=
  if existsb (String.eqb x) s then s else s ++ [x].

Definition Set_of (l : list string) : list string := fold_left Set_add l [].

(** [new Set(approvals.map(a => a.admin_user ? String(a.admin_user._id) : null)
    .filter(Boolean))]: [populate] leaves [admin_user] null when no user has
    the identifier, and [filter(Boolean)] removes the nulls (the rendering of
    an ObjectId is never the empty string). *)
Definition uniqueApprovers (approvals : list (Approval * option User))
  : list string :=
  Set_of
    (flat_map (fun a => match snd a with
                        | Some admin_user => [u_id admin_user]
                        | None => []
                        end) approvals).

(** [approvals.map(a => a.approved_amount != null ? Number(a.approved_amount)
    : null).filter(v => v != null)] *)
Definition providedAmounts (approvals : list (Approval * option User))
  : list JsNumber :=
  flat_map (fun a => match ap_approved_amount (fst a) with
                     | Some v => [v]
                     | None => []
                     end) approvals.

(** The amount a request is approved for (lines 519-542). *)
Definition finalApprovedAmount (approvals : list (Approval * option User))
  (pe : PersonalExpense) : JsNumber :=
  let provided := providedAmounts approvals in
  match provided with
  | first :: _ =>
      if forallb (fun v => js_strict_eq v first) provided
      then first
      else
        let sum := fold_left (fun s v => js_add s v) provided (Fin 0) in
        Math_round (js_div_length sum (List.length provided))
  | [] =>
      match pe_requested_amount pe with
      | Some requested => requested
      | None => js_or0 (pe_amount_avg pe)
      end
  end.

(** The note that tags a ledger entry with the request it comes from, and
    the search the materialiser runs for it. *)
Definition materialisedNote (id : ObjectId) : string :=
  "Approved personal expense (id: " ++ id ++ ")".

Definition noteMentions (id : ObjectId) (e : ExpenseEntry) : bool :=
  match ee_note e with
  | Some note => icontains id note
  | None => false
  end.

Definition ExpenseEntry_create (mk : ObjectId -> ExpenseEntry) (d : Database)
  : Database * ExpenseEntry :=
  let ee := mk (genObjectId (nextId d)) in
  (set_nextId (S (nextId d)) (set_expenseEntries (expenseEntries d ++ [ee]) d),
   ee).

(** The ledger materialiser: the [try] block that closes the approval path
    (lines 588-628). *)
Definition materialize (now : Date) (user : User) (pe : PersonalExpense)
  (final : JsNumber) (w : World) : World :=
  match find (noteMentions (pe_id pe)) (expenseEntries (db w)) with
  | None =>
      let (d1, ee) :=
        ExpenseEntry_create
          (fun id =>
             mkExpenseEntry id None (pe_category pe)
               (Some ("[Personal] " ++ pe_title pe))
               (Some (pe_amount_min pe)) (Some (pe_amount_avg pe))
               (Some (pe_amount_max pe))
               (Some final)
               (match pe_unit pe with
                | Some (String _ _ as u) => Some u
                | _ => None
                end)
               (Some (materialisedNote (pe_id pe)))
               (match pe_approved_at pe with Some t => t | None => now end)
               (Some (u_id user)) [])
          (db w) in
      createAudit
        (mkAuditLog "expense_entry" (ee_id ee) "created_from_personal_approval"
           (Some (u_id user)) (MetaMaterialised (pe_id pe) (ee_id ee)))
        (on_db (fun _ => d1) w)
  | Some existing => w
  end.

(** [pe.required_admins_count || 2] *)
Definition requiredAdmins (pe : PersonalExpense) : nat :=
  match pe_required_admins_count pe with
  | O => 2%nat
  | n => n
  end.

(** The reject branch of the handler (lines 451-497): one veto closes the
    request. *)
Definition rejectRequest (now : Date) (user : User) (pe : PersonalExpense)
  (approval : option Approval) (comment : option string) (w2 : World)
  : Response * World :=
  let pe1 := set_pe_status rejected pe in
  let approveCount := countApprove (pe_id pe1) (db w2) in
  let pe2 := set_pe_approvals_count approveCount pe1 in
  let (d3, pe3) := save now pe2 (db w2) in
  let w3 := on_db (fun _ => d3) w2 in
  let w4 :=
    createAudit
      (mkAuditLog "personal_expense" (pe_id pe3) "rejected_final"
         (Some (u_id user)) (MetaBy (u_id user))) w3 in
  let w5 :=
    on_db
      (notify
         (mkNotification (pe_user pe3)
            "Your personal expense request was rejected"
            ("/personal/" ++ pe_id pe3) (pe_id pe3) (u_id user)
            (Some reject) None)) w4 in
  let w6 :=
    createAudit
      (mkAuditLog "notification" (pe_id pe3) "notify_owner_rejected"
         (Some (u_id user)) (MetaOwner (pe_user pe3) comment)) w5 in
  (mkResponse 200 (Decided pe3 approval (Text "rejected") None), w6).

(** The approve branch of the handler (lines 499-643): the quorum test, and
    on quorum the final amount, the closing of the request and its
    materialisation. *)
Definition approveRequest (now : Date) (user : User) (pe : PersonalExpense)
  (approval : option Approval) (w2 : World) : Response * World :=
  let approvals :=
    Approval_find_populated (is_approve_of (pe_id pe)) (db w2) in
  let approvers := uniqueApprovers approvals in
  let pe1 := set_pe_approvals_count (List.length approvals) pe in
  let (d3, pe2) := save now pe1 (db w2) in
  let w3 := on_db (fun _ => d3) w2 in
  if (requiredAdmins pe2 <=? List.length approvers)%nat then
    let final := finalApprovedAmount approvals pe2 in
    let pe3 :=
      set_pe_approvals_count (List.length approvals)
        (set_pe_approved_at (Some now)
           (set_pe_approved_amount (Some final)
              (set_pe_status approved pe2))) in
    let (d4, pe4) := save now pe3 (db w3) in
    let w4 := on_db (fun _ => d4) w3 in
    let w5 :=
      createAudit
        (mkAuditLog "personal_expense" (pe_id pe4) "approved_final"
           (Some (u_id user)) (MetaApprovedFinal approvers final)) w4 in
    let w6 :=
      on_db
        (notify
           (mkNotification (pe_user pe4)
              "Your personal expense request was approved"
              ("/personal/" ++ pe_id pe4) (pe_id pe4) (u_id user)
              (Some approve) (Some final))) w5 in
    let w7 :=
      createAudit
        (mkAuditLog "notification" (pe_id pe4) "notify_owner_approved"
           (Some (u_id user)) (MetaOwner (pe_user pe4) None)) w6 in
    let w8 := materialize now user pe4 final w7 in
    (mkResponse 200
       (Decided pe4 approval (Text "approved (final)") (Some final)), w8)
  else
    (mkResponse 200
       (Decided pe2 approval
          (StillPending (List.length approvers) (pe_required_admins_count pe2))
          None), w3).

(** The handler once its guards are passed (lines 419-448): the vote is
    recorded and audited, then the branch of the decision runs. *)
Definition decide (now : Date) (user : User) (pe : PersonalExpense)
  (decision : Decision) (comment : option string)
  (approved_amount : option JsNumber) (w : World) : Response * World :=
  let (d1, approval) :=
    recordApproval now pe user decision comment approved_amount (db w) in
  let w1 := on_db (fun _ => d1) w in
  let w2 :=
    createAudit
      (mkAuditLog "personal_expense" (pe_id pe)
         (match decision with
          | approve => "admin_approve"
          | reject => "admin_reject"
          end)
         (Some (u_id user)) (MetaDecision comment approved_amount)) w1 in
  match decision with
  | reject => rejectRequest now user pe approval comment w2
  | approve => approveRequest now user pe approval w2
  end.

(** [rawApproved !== undefined && rawApproved !== null ? Number(rawApproved)
    : null] *)
Definition normalizedAmount (rawApproved : JsValue) : option JsNumber :=
  if is_nullish rawApproved then None else Some (ToNumber rawApproved).

Definition approvePersonalExpense (now : Date) (user : User) (id : string)
  (body : DecisionBody) (w : World) : Response * World :=
  if negb (isValidObjectId id) then (fail 404 "not found", w)
  else
    let comment := b_comment body in
    let rawApproved := b_approved_amount body in
    match parseDecision (b_decision body) with
    | None => (fail 400 "invalid decision", w)
    | Some decision =>
        if Decision_eqb decision approve && is_nullish rawApproved
        then (fail 400 "approved_amount is required for approve decision", w)
        else if Decision_eqb decision approve
                && Number_isNaN (ToNumber rawApproved)
        then (fail 400 "approved_amount must be a valid number", w)
        else
          let approved_amount := normalizedAmount rawApproved in
          match findById (db w) id with
          | None => (fail 404 "not found", w)
          | Some pe =>
              if negb (Status_eqb (pe_status pe) pending)
              then (fail 400 "can only approve/reject pending items", w)
              else decide now user pe decision comment approved_amount w
          end
    end.

(** ** The routes of /api/personal-expenses, behind their middleware *)

Definition route_create (now : Date) (c : Credentials) (body : ExpenseBody)
  (w : World) : Response * World :=
  authenticateToken c w (fun user => postPersonalExpense now user body w).

Definition route_edit (now : Date) (c : Credentials) (id : string)
  (body : ExpenseBody) (w : World) : Response * World :=
  authenticateToken c w (fun user => putPersonalExpense now user id body w).

Definition route_submit (now : Date) (c : Credentials) (id : string)
  (w : World) : Response * World :=
  authenticateToken c w (fun user => submitPersonalExpense now user id w).

Definition route_decide (now : Date) (c : Credentials) (id : string)
  (body : DecisionBody) (w : World) : Response * World :=
  authenticateToken c w (fun user =>
    permit ["adminA"; "adminB"] (Some user) w (fun user =>
      approvePersonalExpense now user id body w)).

Definition route_approvals (c : Credentials) (id : string) (w : World)
  : Response * World :=
  authenticateToken c w (fun user => getApprovals user id w).

Definition route_cancel (now : Date) (c : Credentials) (id : string)
  (w : World) : Response * World :=
  authenticateToken c w (fun user => cancelPersonalExpense now user id w).

(** ** Aggregation pipelines *)

(** [Model.aggregate([{ $match }, { $group: { _id: null, total: { $sum } } }])]:
    no group when no document matches. *)
Definition aggregateTotal {A : Type} (matches : A -> bool) (expr : A -> JsNumber)
  (docs : list A) : list JsNumber :=
  match filter matches docs with
  | [] => []
  | matched => [fold_left (fun s doc => js_add s (expr doc)) matched (Fin 0)]
  end.

(** [(agg[0] && agg[0].total) || 0] *)
Definition totalOr0 (agg : list JsNumber) : JsNumber :=
  match agg with
  | [] => Fin 0
  | total :: _ => js_or0 total
  end.

(** [{ $ifNull: [x, y] }] *)
Definition ifNull {A : Type} (x : option A) (y : A) : A :=
  match x with
  | Some v => v
  | None => y
  end.

(** ** routes/reports.js: GET /api/reports/remaining (lines 121-267) *)

Definition monthStart (now : Date) : Date :=
  newDate (getFullYear now) (getMonth now) 1 0 0 0 0.

Definition monthEnd (now : Date) : Date :=
  newDate (getFullYear now) (getMonth now + 1) 0 23 59 59 999.

Definition buildRange (now : Date) (from to : option string) : Date * Date :=
  if js_truthy_string from || js_truthy_string to then
    let q_start :=
      match from with
      | Some (String _ _ as f) => Some (parseDate f)
      | _ => None
      end in
    let q_end :=
      match to with
      | Some (String _ _ as t) => Some (setHours (parseDate t) 23 59 59 999)
      | _ => None
      end in
    (ifNull q_start (monthStart now), ifNull q_end (monthEnd now))
  else (monthStart now, monthEnd now).

(** The two exclusions of [expMatch]: a note that matches
    [/Approved personal expense/i], a title that matches [/^\[Personal\]/]. *)
Definition notePersonal (e : ExpenseEntry) : bool :=
  match ee_note e with
  | Some note => icontains "Approved personal expense" note
  | None => false
  end.

Definition titlePersonal (e : ExpenseEntry) : bool :=
  match ee_title e with
  | Some title => String.prefix "[Personal]" title
  | None => false
  end.

Definition expMatch (start end_ : Date) (e : ExpenseEntry) : bool :=
  in_closed_range start end_ (ee_date e)
  && (negb (notePersonal e) && negb (titlePersonal e)).

Definition date_in (start end_ : Date) (d : option Date) : bool :=
  match d with
  | Some t => in_closed_range start end_ t
  | None => false
  end.

Definition peMatch (start end_ : Date) (pe : PersonalExpense) : bool :=
  Status_eqb (pe_status pe) approved
  && (date_in start end_ (pe_approved_at pe)
      || in_closed_range start end_ (pe_updatedAt pe)
      || in_closed_range start end_ (pe_createdAt pe)).

(** [{ $ifNull: [{ $ifNull: ["$actual_amount", "$amount_avg"] }, 0] }] *)
Definition ledgerAmount (e : ExpenseEntry) : JsNumber :=
  ifNull (match ee_actual_amount e with
          | Some v => Some v
          | None => ee_amount_avg e
          end) (Fin 0).

(** [{ $ifNull: [{ $ifNull: ["$approved_amount", "$requested_amount"] },
    "$amount_avg"] }] *)
Definition personalAmount (pe : PersonalExpense) : JsNumber :=
  ifNull (match pe_approved_amount pe with
          | Some v => Some v
          | None => pe_requested_amount pe
          end) (pe_amount_avg pe).

(** [GET /api/reports/remaining] *)
Definition getRemaining (now : Date) (from to : option string) (w : World)
  : Response * World :=
  let (start, end_) := buildRange now from to in
  let incAgg :=
    aggregateTotal (fun i => in_closed_range start end_ (inc_date i))
      inc_amount (incomeEntries (db w)) in
  let totalIncome := totalOr0 incAgg in
  let expAgg :=
    aggregateTotal (expMatch start end_) ledgerAmount (expenseEntries (db w)) in
  let totalGlobalExpenses := totalOr0 expAgg in
  let peAgg :=
    aggregateTotal (peMatch start end_) personalAmount
      (personalExpenses (db w)) in
  let totalPersonalApproved := totalOr0 peAgg in
  let totalExpenses :=
    js_add (js_or0 totalGlobalExpenses) (js_or0 totalPersonalApproved) in
  let remaining := js_sub (js_or0 totalIncome) (js_or0 totalExpenses) in
  (mkResponse 200
     (TotalsOf
        (mkTotals start end_ totalIncome totalGlobalExpenses
           totalPersonalApproved totalExpenses remaining)), w).

(** ** The monthly balance of GET /api/expenses

    [computeMonthlyTotals] (src/routes/reports.js, lines 284-347; the same
    function stands at lines 48-111 of src/routes/personalExpenses.js). *)

Definition computeMonthlyTotals (now : Date) (monthStr : option string)
  (d : Database) : MonthlyTotals :=
  let (year, month) :=
    match monthStr with
    | Some (String _ _ as s) => parseYearMonth s
    | _ => (getFullYear now, getMonth now + 1)
    end in
  let start := newDate year (month - 1) 1 0 0 0 0 in
  let end_ := newDate year month 1 0 0 0 0 in
  let incAgg :=
    aggregateTotal (fun i => in_half_open_range start end_ (inc_date i))
      inc_amount (incomeEntries d) in
  let incomeTotal := totalOr0 incAgg in
  let expAgg :=
    aggregateTotal (fun e => in_half_open_range start end_ (ee_date e))
      (fun e => ifNull (ee_actual_amount e) (Fin 0)) (expenseEntries d) in
  let expenseTotalFromEntries := totalOr0 expAgg in
  let peAgg :=
    aggregateTotal
      (fun pe =>
         Status_eqb (pe_status pe) approved
         && match pe_approved_at pe with
            | Some t => in_half_open_range start end_ t
            | None => false
            end)
      (fun pe => ifNull (pe_approved_amount pe) (Fin 0)) (personalExpenses d) in
  let expenseTotalFromPersonal := totalOr0 peAgg in
  let totalExpenses := js_add expenseTotalFromEntries expenseTotalFromPersonal in
  let remaining := js_sub incomeTotal totalExpenses in
  mkMonthlyTotals start end_ incomeTotal expenseTotalFromEntries
    expenseTotalFromPersonal totalExpenses remaining.

End Routes.

(** ** Vocabulary of the statements *)

(** The input validation of [POST /:id/approve]: a known decision and, for
    an approval, an amount that is present and is not [NaN]. *)
Definition decisionBodyOk {RT : Runtime} (body : DecisionBody) : bool :=
  match parseDecision (b_decision body) with
  | None => false
  | Some reject => true
  | Some approve =>
      negb (is_nullish (b_approved_amount body))
      && negb (Number_isNaN (ToNumber (b_approved_amount body)))
  end.

(** What an edit leaves alone in a request. *)
Definition sameOutsideEditable (pe pe' : PersonalExpense) : Prop :=
  pe_id pe' = pe_id pe /\ pe_user pe' = pe_user pe
  /\ pe_status pe' = pe_status pe /\ pe_unit pe' = pe_unit pe
  /\ pe_required_admins_count pe' = pe_required_admins_count pe
  /\ pe_approvals_count pe' = pe_approvals_count pe
  /\ pe_approved_amount pe' = pe_approved_amount pe
  /\ pe_approved_at pe' = pe_approved_at pe
  /\ pe_createdAt pe' = pe_createdAt pe.


(** The stored request with identifier [id] replaced by [pe']. *)
Definition replaceRequest (id : ObjectId) (pe' : PersonalExpense)
  (l : list PersonalExpense) : list PersonalExpense :=
  map (fun o => if String.eqb (pe_id o) id then pe' else o) l.








(** The sum and the arithmetic mean of rationals. *)
Definition sumQ (l : list Q) : Q := fold_right Qplus 0%Q l.


(** The rational a finite number stands for. *)
Definition valueQ (n : JsNumber) : Q :=
  match n with
  | Fin q => q
  | _ => 0%Q
  end.

(** A ledger entry tagged as derived from a personal expense: the two
    markers the materialiser writes and the report looks for. *)
Definition personalDerived (e : ExpenseEntry) : bool :=
  notePersonal e || titlePersonal e.

(** Every stored amount that the totals read is a finite number. *)
Definition finiteAmounts (d : Database) : Prop :=
  (forall i, In i (incomeEntries d) -> Number_isFinite (inc_amount i) = true)
  /\ (forall e, In e (expenseEntries d) ->
                forall v, ee_actual_amount e = Some v \/ ee_amount_avg e = Some v ->
                          Number_isFinite v = true)
  /\ (forall pe, In pe (personalExpenses d) ->
                 Number_isFinite (pe_amount_avg pe) = true
                 /\ forall v, pe_approved_amount pe = Some v
                              \/ pe_requested_amount pe = Some v ->
                              Number_isFinite v = true).

(** The sum of the values an expression takes on the documents that match. *)
Definition sumOver {A : Type} (matches : A -> bool) (expr : A -> JsNumber)
  (docs : list A) : Q :=
  sumQ (map (fun doc => valueQ (expr doc)) (filter matches docs)).

(** The matches of the three pipelines of [computeMonthlyTotals]. *)
Definition entryInMonth (start end_ : Date) (e : ExpenseEntry) : bool :=
  in_half_open_range start end_ (ee_date e).

Definition approvedInMonth (start end_ : Date) (pe : PersonalExpense) : bool :=
  Status_eqb (pe_status pe) approved
  && match pe_approved_at pe with
     | Some t => in_half_open_range start end_ t
     | None => false
     end.

(** The totals a response carries. *)
Definition totalsOf (r : Response) : option Totals :=
  match res_body r with
  | TotalsOf t => Some t
  | _ => None
  end.

(** The operations on a request that write an audit record. *)
Inductive Operation : Type :=
| OpCreate (body : ExpenseBody)
| OpEdit (id : string) (body : ExpenseBody)
| OpSubmit (id : string)
| OpDecide (id : string) (body : DecisionBody)
| OpCancel (id : string).

Definition run {RT : Runtime} (now : Date) (c : Credentials) (op : Operation)
  (w : World) : Response * World :=
  match op with
  | OpCreate body => route_create now c body w
  | OpEdit id body => route_edit now c id body w
  | OpSubmit id => route_submit now c id w
  | OpDecide id body => route_decide now c id body w
  | OpCancel id => route_cancel now c id w
  end.

(** * The other routes of the repository

    The routes below write no audit record; the read-only ones take the
    collections and answer, the others also return the collections they
    leave.  Where one of them hands the ODM an identifier that it did not
    validate itself, the cast may fail: the ODM throws, and the [catch] of
    the handler answers 500 "server error".  The identifiers that the cast
    accepts are those that [ObjectId.isValid] accepts.  A date parameter is
    one that [new Date] reads. *)

From Stdlib Require Import Permutation Sorted.

(** The answer of a route: a refusal with its status code and message, or
    a body sent with a status code. *)
Inductive Answer (A : Type) : Type :=
| Refused (code : nat) (message : string)
| Sent (code : nat) (body : A).

Arguments Refused {A} code message.
Arguments Sent {A} code body.

(** [.sort({ key: 1 })] and [.sort({ key: -1 })]: an insertion sort, which
    keeps the stored order of documents with equal keys. *)
Fixpoint insertBy {A : Type} (before : A -> A -> bool) (x : A) (l : list A)
  : list A :=
  match l with
  | [] => [x]
  | y :: r => if before x y then x :: l else y :: insertBy before x r
  end.

Definition sortBy {A : Type} (before : A -> A -> bool) (l : list A) : list A :=
  fold_right (insertBy before) [] l.



Section MoreRoutes.

Context {RT : Runtime}.

(** An optional identifier of a query or a body, when it is given, can be
    cast. *)
Definition castable (param : option string) : bool :=
  match param with
  | Some (String _ _ as p) => ObjectId_isValid p
  | _ => true
  end.

(** ** middleware, for these routes *)

Definition authenticated {A : Type} (c : Credentials) (d : Database)
  (next : User -> Answer A * Database) : Answer A * Database :=
  match c with
  | NoToken => (Refused 401 "Token missing", d)
  | InvalidToken => (Refused 401 "Invalid or expired token", d)
  | TokenFor id =>
      match User_findById d id with
      | None => (Refused 401 "User not found", d)
      | Some user => next user
      end
  end.

Definition permitted {A : Type} (allowed : list string) (user : User)
  (d : Database) (next : Answer A * Database) : Answer A * Database :=
  if existsb (String.eqb (u_role user)) allowed then next
  else (Refused 403 "Forbidden - insufficient role", d).

(** ** GET /api/personal-expenses (src/routes/personalExpenses.js, lines
    118-146) *)


Definition is_staff (user : User) : bool :=
  existsb (String.eqb (u_role user)) ["adminA"; "adminB"; "superadmin"].

Definition newestFirst (a b : PersonalExpense) : bool :=
  pe_createdAt b <=? pe_createdAt a.



(** ** GET /api/personal-expenses/pending/list (lines 687-702) *)

Definition getPendingList (d : Database) : Answer (list PersonalExpense) :=
  Sent 200
    (sortBy newestFirst
       (filter (fun pe => Status_eqb (pe_status pe) pending)
          (personalExpenses d))).

Definition route_pendingList (c : Credentials) (d : Database)
  : Answer (list PersonalExpense) * Database :=
  authenticated c d (fun user =>
    permitted ["adminA"; "adminB"; "superadmin"] user d (getPendingList d, d)).

(** ** GET /api/expense-categories (the second module of
    src/routes/personalExpenses.js, lines 743-766) *)

Definition defaultCategories : list string :=
  ["اشپزخانه"; "حبوبیات"; "خود خانه"; "قرضه ها"].

(** One turn of the loop: the category is created when no stored name
    matches. *)
Definition ensureCategory (d : Database) (name : string) : Database :=
  match Category_findByName d name with
  | Some _ => d
  | None => fst (Category_create name d)
  end.

Definition nameOrder (a b : ExpenseCategory) : bool :=
  match String.compare (cat_name a) (cat_name b) with
  | Gt => false
  | _ => true
  end.

Definition getExpenseCategories (d : Database)
  : Answer (list ExpenseCategory) * Database :=
  let d' := fold_left ensureCategory defaultCategories d in
  (Sent 200 (sortBy nameOrder (categories d')), d').

(** ** The router mounted at /api/expenses (the second module of
    src/routes/reports.js) *)








(** [GET /:id] (lines 403-421) *)
Definition getExpense (id : string) (d : Database) : Answer ExpenseEntry :=
  if negb (ObjectId_isValid id) then Refused 404 "not found"
  else
    match find (fun e => String.eqb (ee_id e) (castObjectId id))
            (expenseEntries d) with
    | Some item => Sent 200 item
    | None => Refused 404 "not found"
    end.

(** The body of [POST /]. *)
Record EntryBody : Type := mkEntryBody {
  eb_record_id : option string;
  eb_category : option string;
  eb_title : option string;
  eb_amount_min : option JsNumber;
  eb_amount_avg : option JsNumber;
  eb_amount_max : option JsNumber;
  eb_actual_amount : option JsNumber;
  eb_unit : option string;
  eb_note : option string;
  eb_date : option Date;
  eb_attachments : option (list Attachment)
}.

Definition truthyString (s : option string) : option string :=
  match s with
  | Some (String _ _ as v) => Some v
  | _ => None
  end.

(** [POST /] (lines 428-512), behind [permit("superadmin", "adminA",
    "adminB")]: the category must exist, by identifier or by name. *)
Definition postExpense (now : Date) (user : User) (body : EntryBody)
  (d : Database) : Answer (option ExpenseEntry) * Database :=
  match truthyString (eb_title body) with
  | None => (Refused 400 "title required", d)
  | Some title =>
      match eb_amount_min body, eb_amount_avg body, eb_amount_max body with
      | Some amount_min, Some amount_avg, Some amount_max =>
          match truthyString (eb_category body) with
          | None => (Refused 400 "category is required for expense entries", d)
          | Some category =>
              let resolved :=
                if ObjectId_isValid category then
                  match Category_findById d category with
                  | Some _ => Some (castObjectId category)
                  | None => None
                  end
                else
                  match Category_findByName d category with
                  | Some cat => Some (cat_id cat)
                  | None => None
                  end in
              match resolved with
              | None => (Refused 400 "category not found", d)
              | Some categoryId =>
                  if negb (castable (eb_record_id body))
                  then (Refused 500 "server error", d)
                  else
                  let (d1, item) :=
                    ExpenseEntry_create
                      (fun id =>
                         mkExpenseEntry id
                           (option_map castObjectId
                              (truthyString (eb_record_id body)))
                           (Some categoryId) (Some title)
                           (Some amount_min) (Some amount_avg)
                           (Some amount_max) (eb_actual_amount body)
                           (truthyString (eb_unit body))
                           (Some (match truthyString (eb_note body) with
                                  | Some note => note
                                  | None => ""
                                  end))
                           (match eb_date body with
                            | Some date => date
                            | None => now
                            end)
                           (Some (u_id user))
                           (match eb_attachments body with
                            | Some l => l
                            | None => []
                            end))
                      d in
                  (Sent 201
                     (find (fun e => String.eqb (ee_id e) (ee_id item))
                        (expenseEntries d1)), d1)
              end
          end
      | _, _, _ =>
          (Refused 400 "amount_min, amount_avg and amount_max are required", d)
      end
  end.

Definition route_postExpense (now : Date) (c : Credentials) (body : EntryBody)
  (d : Database) : Answer (option ExpenseEntry) * Database :=
  authenticated c d (fun user =>
    permitted ["superadmin"; "adminA"; "adminB"] user d
      (postExpense now user body d)).

(** ** src/routes/incomes.js *)

Record IncomeBody : Type := mkIncomeBody {
  ib_source_name : option string;
  ib_amount : option JsNumber;
  ib_currency : option string;
  ib_note : option string;
  ib_date : option Date
}.

Definition set_incomeEntries (v : list IncomeEntry) (d : Database) : Database :=
  mkDatabase (users d) (categories d) (personalExpenses d) (approvals d)
    (expenseEntries d) v (notifications d) (nextId d) (notificationFaults d).

(** [POST /] (lines 36-63), behind [permit("superadmin")] *)
Definition postIncome (now : Date) (user : User) (body : IncomeBody)
  (d : Database) : Answer IncomeEntry * Database :=
  match truthyString (ib_source_name body), ib_amount body with
  | Some source_name, Some amount =>
      let item :=
        mkIncomeEntry source_name amount
          (match truthyString (ib_currency body) with
           | Some currency => currency
           | None => "AFN"
           end)
          (match truthyString (ib_note body) with
           | Some note => note
           | None => ""
           end)
          (match ib_date body with
           | Some date => date
           | None => now
           end)
          (Some (u_id user)) in
      (Sent 201 item, set_incomeEntries (incomeEntries d ++ [item]) d)
  | _, _ => (Refused 400 "source and amount required", d)
  end.

Definition route_postIncome (now : Date) (c : Credentials) (body : IncomeBody)
  (d : Database) : Answer IncomeEntry * Database :=
  authenticated c d (fun user =>
    permitted ["superadmin"] user d (postIncome now user body d)).

(** ** src/unnamed/part_003: the administration of users

    The model's [User] has no [email] and no [password_hash]: the updates of
    these two fields are left out. *)

Definition set_users (v : list User) (d : Database) : Database :=
  mkDatabase v (categories d) (personalExpenses d) (approvals d)
    (expenseEntries d) (incomeEntries d) (notifications d) (nextId d)
    (notificationFaults d).

Definition is_superadmin (u : User) : bool := String.eqb (u_role u) "superadmin".

(** [User.countDocuments({ role: "superadmin" })] *)
Definition countSuperadmins (d : Database) : nat :=
  List.length (filter is_superadmin (users d)).

(** [User.deleteOne({ _id: id })] *)
Fixpoint deleteFirst {A : Type} (p : A -> bool) (l : list A) : list A :=
  match l with
  | [] => []
  | x :: r => if p x then r else x :: deleteFirst p r
  end.

(** [DELETE /:id] (lines 145-172) *)
Definition deleteUser (id : string) (d : Database) : Answer bool * Database :=
  if negb (ObjectId_isValid id) then (Refused 500 "server error", d) else
  match User_findById d (castObjectId id) with
  | None => (Refused 404 "user not found", d)
  | Some user =>
      if is_superadmin user && (countSuperadmins d <=? 1)%nat
      then (Refused 400 "Cannot delete the last superadmin", d)
      else
        (Sent 200 true,
         set_users
           (deleteFirst (fun u => String.eqb (u_id u) (castObjectId id))
              (users d)) d)
  end.

Definition route_deleteUser (c : Credentials) (id : string) (d : Database)
  : Answer bool * Database :=
  authenticated c d (fun caller =>
    permitted ["superadmin"] caller d (deleteUser id d)).

Record UserBody : Type := mkUserBody {
  ub_display_name : option string;
  ub_role : option string
}.

Definition allowedRoles : list string :=
  ["user"; "adminA"; "adminB"; "superadmin"; "guest"].

(** [PUT /:id] (lines 88-142) *)
Definition putUser (id : string) (body : UserBody) (d : Database)
  : Answer User * Database :=
  if negb (ObjectId_isValid id) then (Refused 500 "server error", d) else
  match User_findById d (castObjectId id) with
  | None => (Refused 404 "user not found", d)
  | Some user =>
      if is_superadmin user
         && match truthyString (ub_role body) with
            | Some role => negb (String.eqb role "superadmin")
            | None => false
            end
         && (countSuperadmins d <=? 1)%nat
      then (Refused 400 "Cannot demote the last superadmin", d)
      else
        let user1 :=
          match ub_display_name body with
          | Some display_name =>
              mkUser (u_id user) (u_username user) display_name (u_role user)
          | None => user
          end in
        let user2 :=
          match ub_role body with
          | Some role =>
              if existsb (String.eqb role) allowedRoles
              then mkUser (u_id user1) (u_username user1)
                     (u_display_name user1) role
              else user1
          | None => user1
          end in
        (Sent 200 user2,
         set_users
           (map (fun u => if String.eqb (u_id u) (u_id user2) then user2 else u)
              (users d)) d)
  end.

Definition route_putUser (c : Credentials) (id : string) (body : UserBody)
  (d : Database) : Answer User * Database :=
  authenticated c d (fun caller =>
    permitted ["superadmin"] caller d (putUser id body d)).

(** ** GET /api/reports/approved-expenses (src/routes/reports.js, lines
    15-116)

    The query of the route, and its answer in the JSON format.  The CSV
    format renders the same items; of it the model has the cell and the
    row, further down. *)







End MoreRoutes.

(** ** Vocabulary of the further statements *)

(** The changes of status that the routes make. *)
Inductive transition : Status -> Status -> Prop :=
| by_edit : transition draft draft
| by_submit : transition draft pending
| by_cancel_draft : transition draft cancelled
| by_cancel_pending : transition pending cancelled
| by_vote : transition pending pending
| by_veto : transition pending rejected
| by_quorum : transition pending approved.

(** A request a route has rewritten: same identity, a status one
    transition away, and the approval fields filled when it becomes
    approved and untouched otherwise. *)
Definition updatedRequest (pe pe' : PersonalExpense) : Prop :=
  pe_id pe' = pe_id pe /\ pe_user pe' = pe_user pe
  /\ pe_createdAt pe' = pe_createdAt pe
  /\ pe_required_admins_count pe' = pe_required_admins_count pe
  /\ transition (pe_status pe) (pe_status pe')
  /\ ((pe_status pe' = approved
       /\ pe_approved_amount pe' <> None /\ pe_approved_at pe' <> None)
      \/ (pe_status pe' <> approved
          /\ pe_approved_amount pe' = pe_approved_amount pe
          /\ pe_approved_at pe' = pe_approved_at pe)).

(** The approval fields of a request are filled exactly when it is
    approved. *)
Definition approvalRecorded (pe : PersonalExpense) : Prop :=
  (pe_status pe = approved ->
   pe_approved_amount pe <> None /\ pe_approved_at pe <> None)
  /\ (pe_status pe <> approved ->
      pe_approved_amount pe = None /\ pe_approved_at pe = None).

Definition terminal (s : Status) : Prop :=
  s = approved \/ s = rejected \/ s = cancelled.

(** What an operation may do to the collection of requests: nothing, the
    rewriting of one stored request, or the addition of a draft. *)
Definition requestsStep {RT : Runtime} (d d' : Database) : Prop :=
  personalExpenses d' = personalExpenses d
  \/ (exists pe pe',
         findById_oid d (pe_id pe) = Some pe
         /\ personalExpenses d'
            = replaceRequest (pe_id pe) pe' (personalExpenses d)
         /\ updatedRequest pe pe')
  \/ (exists pe,
         personalExpenses d' = (personalExpenses d ++ [pe])%list
         /\ pe_status pe = draft
         /\ pe_approved_amount pe = None /\ pe_approved_at pe = None).

(** A history: operations run one after the other, each at its own time
    and with its own credentials. *)
Definition runs {RT : Runtime}
  (steps : list (Date * Credentials * Operation)) (w : World) : World :=
  fold_left (fun w s => snd (run (fst (fst s)) (snd (fst s)) (snd s) w))
    steps w.

(** The request an operation of its owner is about. *)
Definition ownerOperation (op : Operation) : option string :=
  match op with
  | OpEdit id _ | OpSubmit id | OpCancel id => Some id
  | OpCreate _ | OpDecide _ _ => None
  end.

(** The elements of a list whose write did not fail, under a schedule of
    failures ([true] is a failure; an exhausted schedule has none). *)
Fixpoint delivered {A : Type} (faults : list bool) (l : list A) {struct l}
  : list A :=
  match l with
  | [] => []
  | x :: r =>
      match faults with
      | true :: rest => delivered rest r
      | false :: rest => x :: delivered rest r
      | [] => l
      end
  end.

(** The notification that a submission sends to an administrator. *)
Definition pendingNotice (user : User) (pe : PersonalExpense) (a : User)
  : Notification :=
  mkNotification (u_id a) "New personal expense pending approval"
    ("/personal/" ++ pe_id pe) (pe_id pe) (u_id user) None None.


(** The collection of users as the routes of the administration keep it:
    identifiers are unique and at least one superadmin is left. *)
Definition usersWellFormed (d : Database) : Prop :=
  NoDup (map u_id (users d)) /\ (1 <= countSuperadmins d)%nat.

(** ** The CSV format of the report (src/routes/reports.js, lines 70-99) *)

(** [s.replace]: every double quote, the character 34, is doubled. *)
Fixpoint doubleQuotes (s : string) : string :=
  match s with
  | EmptyString => EmptyString
  | String c r =>
      if Ascii.eqb c "034" then String c (String c (doubleQuotes r))
      else String c (doubleQuotes r)
  end.

(** [esc], on a value already rendered by [String]: null and undefined
    give the empty cell, any other value is quoted. *)
Definition esc (v : option string) : string :=
  match v with
  | None => EmptyString
  | Some s => String "034" (doubleQuotes s ++ String "034" EmptyString)
  end.

(** [row.join(",")] on the escaped cells. *)
Definition csvRow (cells : list (option string)) : string :=
  String.concat "," (map esc cells).

(** A reader of rows, by which rows are shown to be unambiguous: at the
    start of a cell, inside a quoted cell, or after a quote met inside
    one. *)
Inductive ReaderState : Type :=
| CellStart
| InQuoted (read : string)
| AfterQuote (read : string).

Fixpoint readRow (st : ReaderState) (s : string)
  : option (list (option string)) :=
  match s with
  | EmptyString =>
      match st with
      | CellStart => Some [None]
      | InQuoted _ => None
      | AfterQuote read => Some [Some read]
      end
  | String c r =>
      match st with
      | CellStart =>
          if Ascii.eqb c "," then option_map (cons None) (readRow CellStart r)
          else if Ascii.eqb c "034" then readRow (InQuoted EmptyString) r
          else None
      | InQuoted read =>
          if Ascii.eqb c "034" then readRow (AfterQuote read) r
          else readRow (InQuoted (read ++ String c EmptyString)) r
      | AfterQuote read =>
          if Ascii.eqb c "034"
          then readRow (InQuoted (read ++ String c EmptyString)) r
          else if Ascii.eqb c ","
               then option_map (cons (Some read)) (readRow CellStart r)
               else None
      end
  end.

(** The collections but for the notifications and for the schedule of the
    failures of their writes. *)
Definition primary (d : Database) : Database :=
  mkDatabase (users d) (categories d) (personalExpenses d) (approvals d)
    (expenseEntries d) (incomeEntries d) [] (nextId d) [].

(** ** A concrete runtime and small worlds, for the examples *)

Definition is_hex (c : ascii) : bool :=
  let n := nat_of_ascii c in
  (((48 <=? n) && (n <=? 57)) || ((97 <=? n) && (n <=? 102))
   || ((65 <=? n) && (n <=? 70)))%nat.

Fixpoint all_chars (p : ascii -> bool) (s : string) : bool :=
  match s with
  | EmptyString => true
  | String c r => p c && all_chars p r
  end.

Definition hexDigit (n : nat) : string :=
  String.substring (n mod 16) 1 "0123456789abcdef".

(** Decimal numerals, read digit by digit. *)
Fixpoint readDigits (acc : nat) (s : string) : option nat :=
  match s with
  | EmptyString => Some acc
  | String c r =>
      let n := nat_of_ascii c in
      if ((48 <=? n) && (n <=? 57))%nat
      then readDigits (10 * acc + (n - 48)) r
      else None
  end.

Definition readNat (s : string) : nat :=
  match readDigits 0 s with
  | Some n => n
  | None => 0%nat
  end.

Definition msPerDay : Z := 86400000.

(** A calendar of twelve months of thirty-one days. *)
Definition sampleNewDate (year month day h m s ms : Z) : Date :=
  (((year * 12 + month) * 31 + (day - 1)) * msPerDay)
  + h * 3600000 + m * 60000 + s * 1000 + ms.

Definition sampleRuntime : Runtime := {|
  ObjectId_isValid := fun s => (String.length s =? 24)%nat && all_chars is_hex s;
  castObjectId := lower;
  genObjectId := fun n =>
    "eeeeeeeeeeeeeeeeeeeeee" ++ hexDigit (n / 16) ++ hexDigit n;
  StringToNumber := fun s =>
    match s with
    | EmptyString => Fin 0
    | _ =>
        if String.eqb s "Infinity" then PosInf
        else match readDigits 0 s with
             | Some n => Fin (inject_Z (Z.of_nat n))
             | None => NaN
             end
    end;
  categoryNameMatches := fun pattern name => String.eqb (lower pattern) (lower name);
  getFullYear := fun t => t / (msPerDay * 31 * 12);
  getMonth := fun t => (t / (msPerDay * 31)) mod 12;
  newDate := sampleNewDate;
  setHours := fun t h m s ms =>
    (t / msPerDay) * msPerDay + h * 3600000 + m * 60000 + s * 1000 + ms;
  parseDate := fun s =>
    sampleNewDate (Z.of_nat (readNat (String.substring 0 4 s)))
      (Z.of_nat (readNat (String.substring 5 2 s)) - 1)
      (Z.of_nat (readNat (String.substring 8 2 s))) 0 0 0 0;
  parseYearMonth := fun s =>
    (Z.of_nat (readNat (String.substring 0 4 s)),
     Z.of_nat (readNat (String.substring 5 2 s)))
|}.

Definition idAlice : ObjectId := "a00000000000000000000001".
Definition idBob : ObjectId := "a00000000000000000000002".
Definition idAdminA : ObjectId := "ad0000000000000000000001".
Definition idAdminB : ObjectId := "ad0000000000000000000002".
Definition idRequest : ObjectId := "5e0000000000000000000001".

Definition alice : User := mkUser idAlice "alice" "Alice" "user".
Definition bob : User := mkUser idBob "bob" "Bob" "user".
Definition adminA : User := mkUser idAdminA "anna" "Anna" "adminA".
Definition adminB : User := mkUser idAdminB "boris" "Boris" "adminB".

(** The first of May of the sample calendar, at noon. *)
Definition sampleNow : Date := sampleNewDate 2024 4 1 12 0 0 0.

Definition sampleRequest (status : Status) : PersonalExpense :=
  mkPersonalExpense idRequest idAlice "Train ticket" "" None
    (Fin 200) (Fin 250) (Fin 300) (Some (Fin 250)) None None None
    status [] 2 0 None None sampleNow sampleNow.

Definition sampleDb (status : Status) (votes : list Approval) : Database :=
  mkDatabase [alice; bob; adminA; adminB] [] [sampleRequest status] votes
    [] [] [] 0 [].

Definition sampleWorld (status : Status) (votes : list Approval) : World :=
  mkWorld (sampleDb status votes) [] [].

Definition approveBody (amount : JsValue) : DecisionBody :=
  mkDecisionBody (Some "approve") (Some "ok") amount.

Definition rejectBody : DecisionBody :=
  mkDecisionBody (Some "reject") None JUndefined.


(** A month with one income of 1000, one request approved for 300 and the
    ledger entry materialised from it. *)
Definition approvedRequest : PersonalExpense :=
  mkPersonalExpense idRequest idAlice "Train ticket" "" None
    (Fin 200) (Fin 250) (Fin 300) (Some (Fin 250)) None None None
    approved [] 2 2 (Some (Fin 300)) (Some sampleNow) sampleNow sampleNow.

Definition materialisedEntry : ExpenseEntry :=
  mkExpenseEntry "eeeeeeeeeeeeeeeeeeeeee00" None None
    (Some "[Personal] Train ticket")
    (Some (Fin 200)) (Some (Fin 250)) (Some (Fin 300)) (Some (Fin 300)) None
    (Some (materialisedNote idRequest)) sampleNow (Some idAdminB) [].

Definition salary : IncomeEntry :=
  mkIncomeEntry "salary" (Fin 1000) "AFN" "" sampleNow (Some idAdminA).

Definition reportDb : Database :=
  mkDatabase [alice; bob; adminA; adminB] [] [approvedRequest] []
    [materialisedEntry] [salary] [] 1 [].

Definition reportWorld : World := mkWorld reportDb [] [].

Definition voteOf (admin : ObjectId) (amount : JsNumber) : Approval :=
  mkApproval idRequest admin approve (Some "ok") sampleNow (Some amount).


(** The sample request once both admins have approved it for 100. *)
Definition finalRequest : PersonalExpense :=
  mkPersonalExpense idRequest idAlice "Train ticket" "" None
    (Fin 200) (Fin 250) (Fin 300) (Some (Fin 250)) None None None
    approved [] 2 2 (Some (Fin 100)) (Some sampleNow) sampleNow sampleNow.

(** A request for a trip, in the category named [name]. *)
Definition tripBody (name : string) : ExpenseBody :=
  mkExpenseBody (Some "Trip") None (Some name) (Some (Fin 10)) (Some (Fin 20))
    (Some (Fin 30)) None None None None.

Definition idTravel : ObjectId := "ca0000000000000000000001".

(** The sample collections with one category and the vote of Anna. *)
Definition ledgerDb : Database :=
  mkDatabase [alice; bob; adminA; adminB] [mkCategory idTravel "Travel"]
    [sampleRequest pending] [voteOf idAdminA (Fin 100)] [] [] [] 0 [].

(** A ticket paid in cash, written in the ledger by hand. *)
Definition cashEntry : EntryBody :=
  mkEntryBody None (Some "travel") (Some "Train ticket, cash")
    (Some (Fin 90)) (Some (Fin 90)) (Some (Fin 90)) (Some (Fin 90)) None
    (Some "paid in cash, request 5e0000000000000000000001") None None.

Definition cashItem : ExpenseEntry :=
  mkExpenseEntry "eeeeeeeeeeeeeeeeeeeeee00" None (Some idTravel)
    (Some "Train ticket, cash") (Some (Fin 90)) (Some (Fin 90))
    (Some (Fin 90)) (Some (Fin 90)) None
    (Some "paid in cash, request 5e0000000000000000000001") sampleNow
    (Some idAdminA) [].

(** A bonus of 500 received on the first of May. *)
Definition bonusBody : IncomeBody :=
  mkIncomeBody (Some "bonus") (Some (Fin 500)) None None (Some sampleNow).

Definition bonus : IncomeEntry :=
  mkIncomeEntry "bonus" (Fin 500) "AFN" "" sampleNow (Some idAdminA).

Definition idRoot : ObjectId := "f00000000000000000000001".

Definition root : User := mkUser idRoot "root" "Root" "superadmin".

(** The sample collections with a single superadmin. *)
Definition staffDb : Database :=
  mkDatabase [alice; adminA; adminB; root] [] [sampleRequest pending]
    [voteOf idAdminA (Fin 100)] [] [] [] 0 [].

(** The body that asks to make a user a plain user. *)
Definition demoteBody : UserBody := mkUserBody None (Some "user").

(** * Properties *)

Unset Implicit Arguments.

Section Properties.

Context {RT : Runtime}.

(** ** What the helpers leave alone *)

Lemma db_createAudit (entry : AuditLog) (w : World) :
  db (createAudit entry w) = db w.
Proof.
  unfold createAudit. destruct (auditFaults w) as [|[] rest]; reflexivity.
Qed.

Lemma db_on_db (f : Database -> Database) (w : World) :
  db (on_db f w) = f (db w).
Proof. reflexivity. Qed.

Lemma notify_frame (n : Notification) (d : Database) :
  users (notify n d) = users d
  /\ categories (notify n d) = categories d
  /\ personalExpenses (notify n d) = personalExpenses d
  /\ approvals (notify n d) = approvals d
  /\ expenseEntries (notify n d) = expenseEntries d
  /\ incomeEntries (notify n d) = incomeEntries d
  /\ nextId (notify n d) = nextId d.
Proof.
  unfold notify. destruct (notificationFaults d) as [|[] rest]; cbn; tauto.
Qed.

Lemma save_eq (now : Date) (pe : PersonalExpense) (d : Database) :
  save now pe d =
  (set_personalExpenses
     (replaceRequest (pe_id pe) (set_pe_updatedAt now pe) (personalExpenses d)) d,
   set_pe_updatedAt now pe).
Proof. reflexivity. Qed.

Lemma find_replaceRequest (id : ObjectId) (pe' : PersonalExpense)
  (l : list PersonalExpense) :
  pe_id pe' = id ->
  find (fun pe => String.eqb (pe_id pe) id) l <> None ->
  find (fun pe => String.eqb (pe_id pe) id) (replaceRequest id pe' l) = Some pe'.
Proof.
  intros Hid. induction l as [|o l IH]; cbn; [congruence|].
  destruct (String.eqb (pe_id o) id) eqn:E.
  - intros _. rewrite Hid, String.eqb_refl. reflexivity.
  - intros H. rewrite E. apply IH, H.
Qed.

Lemma find_replaceRequest_other (id id' : ObjectId) (pe' : PersonalExpense)
  (l : list PersonalExpense) :
  pe_id pe' = id -> id' <> id ->
  find (fun pe => String.eqb (pe_id pe) id') (replaceRequest id pe' l)
  = find (fun pe => String.eqb (pe_id pe) id') l.
Proof.
  intros Hid Hne. induction l as [|o l IH]; cbn; [reflexivity|].
  destruct (String.eqb (pe_id o) id) eqn:E.
  - apply String.eqb_eq in E.
    assert (String.eqb (pe_id pe') id' = false) as ->
        by (apply String.eqb_neq; congruence).
    assert (String.eqb (pe_id o) id' = false) as ->
        by (apply String.eqb_neq; congruence).
    exact IH.
  - destruct (String.eqb (pe_id o) id'); [reflexivity|exact IH].
Qed.

Lemma findById_found_id (d : Database) (id : ObjectId) (pe : PersonalExpense) :
  findById_oid d id = Some pe -> pe_id pe = id.
Proof.
  unfold findById_oid. intros H. apply find_some in H.
  destruct H as [_ H]. apply String.eqb_eq, H.
Qed.

(** ** The guards of [POST /:id/approve], in the order the handler runs them *)


Lemma approve_bad_body now user id body w :
  isValidObjectId id = true ->
  decisionBodyOk body = false ->
  let r := approvePersonalExpense now user id body w in
  snd r = w /\ res_status (fst r) = 400%nat
  /\ errorKind (fst r) = Some ValidationError.
Proof.
  intros Hid Hbody. unfold approvePersonalExpense, decisionBodyOk in *.
  rewrite Hid. cbn [negb].
  destruct (parseDecision (b_decision body)) as [[]|]; cbn [Decision_eqb andb] in *.
  - destruct (is_nullish (b_approved_amount body)); [repeat split|].
    cbn [negb andb] in Hbody.
    destruct (Number_isNaN (ToNumber (b_approved_amount body)));
      [repeat split|discriminate].
  - discriminate.
  - repeat split.
Qed.

Lemma approve_good_body now user id body w :
  isValidObjectId id = true ->
  decisionBodyOk body = true ->
  exists decision,
    parseDecision (b_decision body) = Some decision
    /\ approvePersonalExpense now user id body w =
       match findById (db w) id with
       | None => (fail 404 "not found", w)
       | Some pe =>
           if negb (Status_eqb (pe_status pe) pending)
           then (fail 400 "can only approve/reject pending items", w)
           else decide now user pe decision (b_comment body)
                  (normalizedAmount (b_approved_amount body)) w
       end.
Proof.
  intros Hid Hbody. unfold decisionBodyOk in Hbody.
  destruct (parseDecision (b_decision body)) as [decision|] eqn:Hd;
    [|discriminate].
  exists decision. split; [reflexivity|].
  unfold approvePersonalExpense. rewrite Hid, Hd. cbn [negb].
  destruct decision; cbn [Decision_eqb andb] in *; [|reflexivity].
  destruct (is_nullish (b_approved_amount body)); [discriminate|].
  destruct (Number_isNaN (ToNumber (b_approved_amount body)));
    [discriminate|reflexivity].
Qed.

(** ** Requests that do not exist *)


(** ** Input validation of a decision *)

(** C6 (amended).  On a well-formed [:id], an approve decision whose
    [approved_amount] is undefined or null, or converts to [NaN], is
    answered 400 with a validation message, and the world is unchanged: no
    decision row is created and the request is as it was.  A reject decision
    needs no [approved_amount]: on a pending request it is accepted without
    one. *)
Theorem approve_requires_amount now user id body w :
  isValidObjectId id = true ->
  (parseDecision (b_decision body) = Some approve ->
   is_nullish (b_approved_amount body) = true
   \/ Number_isNaN (ToNumber (b_approved_amount body)) = true ->
   let r := approvePersonalExpense now user id body w in
   snd r = w /\ res_status (fst r) = 400%nat
   /\ errorKind (fst r) = Some ValidationError)
  /\ (forall pe,
        parseDecision (b_decision body) = Some reject ->
        is_nullish (b_approved_amount body) = true ->
        findById (db w) id = Some pe -> pe_status pe = pending ->
        let r := approvePersonalExpense now user id body w in
        res_status (fst r) = 200%nat
        /\ exists pe' approval,
             res_body (fst r) = Decided pe' approval (Text "rejected") None).
Proof.
  intros Hid. split.
  - intros Hd Hbad. apply approve_bad_body; [exact Hid|].
    unfold decisionBodyOk. rewrite Hd.
    destruct Hbad as [->| ->]; [reflexivity|apply andb_false_r].
  - intros pe Hd Hnull Hf Hs r. subst r.
    assert (Hb : decisionBodyOk body = true)
      by (unfold decisionBodyOk; rewrite Hd; reflexivity).
    destruct (approve_good_body now user id body w Hid Hb) as (dec & Hdec & ->).
    rewrite Hf, Hs. cbn [Status_eqb negb].
    assert (dec = reject) as -> by congruence.
    unfold decide.
    destruct (recordApproval now pe user reject (b_comment body)
                (normalizedAmount (b_approved_amount body)) (db w))
      as [d1 approval].
    unfold rejectRequest. rewrite save_eq. cbn [fst snd res_status res_body].
    split; [reflexivity|]. eexists _, _. reflexivity.
Qed.

(** ** Recording a vote *)

Lemma recordApproval_frame now pe user decision comment amount d :
  let d1 := fst (recordApproval now pe user decision comment amount d) in
  users d1 = users d /\ categories d1 = categories d
  /\ personalExpenses d1 = personalExpenses d
  /\ expenseEntries d1 = expenseEntries d
  /\ incomeEntries d1 = incomeEntries d
  /\ notifications d1 = notifications d
  /\ nextId d1 = nextId d /\ notificationFaults d1 = notificationFaults d.
Proof.
  unfold recordApproval, Approval_create, Approval_findOneAndUpdate.
  cbn [ap_personal_expense ap_admin_user].
  destruct (existsb (same_vote (pe_id pe) (u_id user)) (approvals d)).
  - destruct (updateFirst _ _ (approvals d)). cbn. tauto.
  - cbn. tauto.
Qed.

Lemma findById_castObjectId (d : Database) (id : string) (pe : PersonalExpense) :
  findById d id = Some pe -> pe_id pe = castObjectId id.
Proof. apply findById_found_id. Qed.

(** ** A veto *)



(** ** Editing a draft *)

Lemma assign_frame {A B C : Type} (f : B -> C) (set : A -> B -> B)
  (v : option A) (o : B) :
  (forall x o', f (set x o') = f o') -> f (assign set v o) = f o.
Proof. intros H. destruct v; cbn; [apply H|reflexivity]. Qed.

Lemma applyUpdatable_frame (body : ExpenseBody) (pe : PersonalExpense) :
  sameOutsideEditable pe (applyUpdatable body pe).
Proof.
  unfold sameOutsideEditable, applyUpdatable.
  repeat split;
    repeat (rewrite assign_frame; [|intros; reflexivity]); reflexivity.
Qed.


(** ** The set of approvers *)

Lemma Set_add_In (s : list string) (x y : string) :
  In y (Set_add s x) <-> In y s \/ y = x.
Proof.
  unfold Set_add. destruct (existsb (String.eqb x) s) eqn:E.
  - apply existsb_exists in E. destruct E as (z & Hz & Hxz).
    apply String.eqb_eq in Hxz. subst z.
    split; [tauto|]. intros [H| ->]; assumption.
  - rewrite in_app_iff. cbn. intuition congruence.
Qed.

Lemma Set_add_NoDup (s : list string) (x : string) :
  NoDup s -> NoDup (Set_add s x).
Proof.
  intros H. unfold Set_add. destruct (existsb (String.eqb x) s) eqn:E; [exact H|].
  apply NoDup_app; [exact H|constructor; [intros []|constructor]|].
  intros y Hy [Heq|[]]. subst y.
  assert (existsb (String.eqb x) s = true); [|congruence].
  apply existsb_exists. exists x. split; [exact Hy|apply String.eqb_refl].
Qed.

Lemma fold_Set_add_In (l acc : list string) (y : string) :
  In y (fold_left Set_add l acc) <-> In y acc \/ In y l.
Proof.
  revert acc. induction l as [|x l IH]; intros acc; cbn; [tauto|].
  rewrite IH, Set_add_In. intuition congruence.
Qed.

Lemma fold_Set_add_NoDup (l acc : list string) :
  NoDup acc -> NoDup (fold_left Set_add l acc).
Proof.
  revert acc. induction l as [|x l IH]; intros acc H; cbn; [exact H|].
  apply IH, Set_add_NoDup, H.
Qed.

Lemma Set_of_In (l : list string) (y : string) : In y (Set_of l) <-> In y l.
Proof. unfold Set_of. rewrite fold_Set_add_In. cbn. tauto. Qed.

Lemma Set_of_NoDup (l : list string) : NoDup (Set_of l).
Proof. apply fold_Set_add_NoDup. constructor. Qed.

Lemma Set_of_two (l : list string) (a b : string) :
  a <> b -> In a l -> In b l -> (2 <= List.length (Set_of l))%nat.
Proof.
  intros Hab Ha Hb.
  change 2%nat with (List.length [a; b]).
  apply NoDup_incl_length.
  - constructor; [intros [H|[]]; congruence|constructor; [intros []|constructor]].
  - intros x [<-|[<-|[]]]; apply Set_of_In; assumption.
Qed.

Lemma Set_of_within (l : list string) (a : string) :
  (forall x, In x l -> x = a) -> (List.length (Set_of l) <= 1)%nat.
Proof.
  intros H. change 1%nat with (List.length [a]).
  apply NoDup_incl_length; [apply Set_of_NoDup|].
  intros x Hx. apply (proj1 (Set_of_In _ _)) in Hx.
  left. symmetry. apply H, Hx.
Qed.


(** An approver is in the set exactly when one of the rows names it and
    [populate] found its account. *)
Lemma uniqueApprovers_In (rows : list (Approval * option User)) (x : string) :
  In x (uniqueApprovers rows)
  <-> exists a u, In (a, Some u) rows /\ u_id u = x.
Proof.
  unfold uniqueApprovers. rewrite Set_of_In, in_flat_map. split.
  - intros ([a [u|]] & Hin & Hx); cbn in Hx; [|contradiction].
    destruct Hx as [<-|[]]. exists a, u. split; [exact Hin|reflexivity].
  - intros (a & u & Hin & <-). exists (a, Some u). split; [exact Hin|].
    cbn. left. reflexivity.
Qed.

Lemma User_findById_id (d : Database) (id : ObjectId) (u : User) :
  User_findById d id = Some u -> u_id u = id.
Proof.
  unfold User_findById. intros H. apply find_some in H.
  apply String.eqb_eq, H.
Qed.

Lemma populated_In (q : Approval -> bool) (d : Database) (a : Approval)
  (o : option User) :
  In (a, o) (Approval_find_populated q d)
  <-> In a (approvals d) /\ q a = true /\ o = User_findById d (ap_admin_user a).
Proof.
  unfold Approval_find_populated. rewrite in_map_iff. split.
  - intros (a' & Heq & Hin). apply filter_In in Hin.
    inversion Heq; subst. tauto.
  - intros (Hin & Hq & ->). exists a. split; [reflexivity|].
    apply filter_In. tauto.
Qed.

(** ** What notifications and the materialiser leave alone *)

Lemma notify_personalExpenses n d :
  personalExpenses (notify n d) = personalExpenses d.
Proof. apply notify_frame. Qed.

Lemma notify_approvals n d : approvals (notify n d) = approvals d.
Proof. apply notify_frame. Qed.

Lemma notify_users n d : users (notify n d) = users d.
Proof. apply notify_frame. Qed.

Lemma notify_expenseEntries n d : expenseEntries (notify n d) = expenseEntries d.
Proof. apply notify_frame. Qed.

Lemma materialize_frame now user pe final w :
  let d' := db (materialize now user pe final w) in
  users d' = users (db w) /\ categories d' = categories (db w)
  /\ personalExpenses d' = personalExpenses (db w)
  /\ approvals d' = approvals (db w)
  /\ incomeEntries d' = incomeEntries (db w)
  /\ notifications d' = notifications (db w).
Proof.
  unfold materialize.
  destruct (find (noteMentions (pe_id pe)) (expenseEntries (db w))).
  - cbn. tauto.
  - unfold ExpenseEntry_create. rewrite db_createAudit. cbn. tauto.
Qed.

Lemma materialize_personalExpenses now user pe final w :
  personalExpenses (db (materialize now user pe final w))
  = personalExpenses (db w).
Proof. apply materialize_frame. Qed.

Lemma materialize_approvals now user pe final w :
  approvals (db (materialize now user pe final w)) = approvals (db w).
Proof. apply materialize_frame. Qed.

Lemma materialize_users now user pe final w :
  users (db (materialize now user pe final w)) = users (db w).
Proof. apply materialize_frame. Qed.

(** ** The approve branch *)

Lemma approve_outcome now user pe approval w2 :
  findById_oid (db w2) (pe_id pe) <> None ->
  let rows := Approval_find_populated (is_approve_of (pe_id pe)) (db w2) in
  let quorum :=
    (requiredAdmins pe <=? List.length (uniqueApprovers rows))%nat in
  let r := approveRequest now user pe approval w2 in
  exists pe',
    findById_oid (db (snd r)) (pe_id pe) = Some pe'
    /\ pe_id pe' = pe_id pe
    /\ pe_required_admins_count pe' = pe_required_admins_count pe
    /\ pe_status pe' = (if quorum then approved else pe_status pe)
    /\ approvals (db (snd r)) = approvals (db w2)
    /\ users (db (snd r)) = users (db w2)
    /\ res_status (fst r) = 200%nat
    /\ (quorum = true ->
        pe_approved_amount pe' = Some (finalApprovedAmount rows pe)
        /\ pe_approved_at pe' = Some now
        /\ res_body (fst r)
           = Decided pe' approval (Text "approved (final)")
               (Some (finalApprovedAmount rows pe)))
    /\ (quorum = false ->
        pe_approved_amount pe' = pe_approved_amount pe
        /\ res_body (fst r)
           = Decided pe' approval
               (StillPending (List.length (uniqueApprovers rows))
                  (pe_required_admins_count pe)) None).
Proof.
  intros Hf rows quorum r. subst r. unfold approveRequest.
  fold rows. rewrite save_eq.
  cbn [pe_id set_pe_approvals_count set_pe_updatedAt].
  change (requiredAdmins _ <=? List.length (uniqueApprovers rows))%nat
    with quorum.
  assert (H1 : find (fun o => String.eqb (pe_id o) (pe_id pe))
                 (replaceRequest (pe_id pe)
                    (set_pe_updatedAt now
                       (set_pe_approvals_count (List.length rows) pe))
                    (personalExpenses (db w2)))
               = Some (set_pe_updatedAt now
                         (set_pe_approvals_count (List.length rows) pe))).
  { apply find_replaceRequest; [reflexivity|exact Hf]. }
  destruct quorum eqn:Hq.
  - rewrite save_eq. cbn [fst snd].
    eexists. split.
    + unfold findById_oid.
      rewrite materialize_personalExpenses, db_createAudit, db_on_db,
        notify_personalExpenses, db_createAudit, db_on_db.
      cbn [personalExpenses set_personalExpenses db on_db].
      apply find_replaceRequest; [reflexivity|].
      cbn [pe_id set_pe_approvals_count set_pe_approved_at
             set_pe_approved_amount set_pe_status set_pe_updatedAt].
      rewrite H1. discriminate.
    + rewrite materialize_approvals, materialize_users, !db_createAudit,
        !db_on_db, notify_approvals, notify_users, !db_createAudit.
      cbn. repeat split; intros; try reflexivity; discriminate.
  - cbn [fst snd]. eexists. split.
    + unfold findById_oid. cbn [personalExpenses set_personalExpenses db on_db].
      exact H1.
    + cbn. repeat split; intros; try reflexivity; discriminate.
Qed.

(** ** The upsert of a vote *)





(** ** An accepted approval *)


(** ** The approve route, for an authenticated admin *)







(** ** Two distinct admins *)


(** ** One admin, voting again and again *)



(** ** Quorum *)



(** ** Numbers *)

Lemma js_equiv_refl n : js_equiv n n.
Proof. destruct n; constructor. reflexivity. Qed.

Lemma js_equiv_sym a b : js_equiv a b -> js_equiv b a.
Proof. intros H; inversion H; constructor. symmetry. assumption. Qed.

Lemma js_equiv_trans a b c : js_equiv a b -> js_equiv b c -> js_equiv a c.
Proof.
  intros H1 H2; inversion H1; subst; inversion H2; subst; constructor.
  etransitivity; eassumption.
Qed.

Lemma js_or0_equiv n : Number_isNaN n = false -> js_equiv (js_or0 n) n.
Proof.
  destruct n as [q| | |]; cbn; intros H; try discriminate; try constructor.
  unfold js_or0, js_truthy. destruct (Qeq_bool q 0) eqn:E; cbn.
  - constructor. apply Qeq_bool_iff in E. symmetry. exact E.
  - constructor. reflexivity.
Qed.




(** ** The final amount *)





(** ** Searching a note for an identifier *)

Lemma lower_app (a b : string) : lower (a ++ b) = lower a ++ lower b.
Proof. induction a as [|c a IH]; cbn; [reflexivity|rewrite IH; reflexivity]. Qed.

Lemma prefix_app (x s : string) : String.prefix x (x ++ s) = true.
Proof.
  induction x as [|c x IH]; cbn.
  - destruct s; reflexivity.
  - destruct (Ascii.ascii_dec c c); [exact IH|congruence].
Qed.

Lemma contains_prefix (x hay : string) :
  String.prefix x hay = true -> contains x hay = true.
Proof. intros H. destruct hay; cbn [contains]; rewrite H; reflexivity. Qed.

Lemma contains_app (x p y : string) :
  contains x y = true -> contains x (p ++ y) = true.
Proof.
  intros H. induction p as [|c p IH]; [exact H|].
  cbn [append contains].
  destruct (String.prefix x (String c (p ++ y))); [reflexivity|exact IH].
Qed.

Lemma icontains_between (x p s : string) : icontains x (p ++ x ++ s) = true.
Proof.
  unfold icontains. rewrite !lower_app.
  apply contains_app, contains_prefix, prefix_app.
Qed.

Lemma materialisedNote_mentions (id : ObjectId) :
  icontains id (materialisedNote id) = true.
Proof. apply icontains_between. Qed.



(** ** The ledger materialiser *)




(** ** Aggregation *)

Lemma fold_add_finite {A : Type} (expr : A -> JsNumber) (l : list A) :
  (forall x, In x l -> Number_isFinite (expr x) = true) ->
  forall acc,
  exists q,
    fold_left (fun s doc => js_add s (expr doc)) l (Fin acc) = Fin q
    /\ (q == acc + sumQ (map (fun doc => valueQ (expr doc)) l))%Q.
Proof.
  induction l as [|x l IH]; intros Hfin acc; cbn [fold_left map].
  - exists acc. split; [reflexivity|]. unfold sumQ. cbn [fold_right]. ring.
  - assert (Hx : Number_isFinite (expr x) = true) by (apply Hfin; left; reflexivity).
    destruct (expr x) as [v| | |] eqn:Ex; try discriminate.
    cbn [js_add].
    destruct (IH (fun y Hy => Hfin y (or_intror Hy)) (acc + v)%Q)
      as (q & Hq & Heq).
    exists q. split; [exact Hq|]. rewrite Heq.
    unfold sumQ. cbn [fold_right valueQ]. ring.
Qed.

Lemma js_or0_Fin (q : Q) : js_equiv (js_or0 (Fin q)) (Fin q).
Proof. apply js_or0_equiv. reflexivity. Qed.

(** On finite amounts, a [$group] total read with [|| 0] is the sum of the
    expression over the documents that match. *)
Lemma totalOr0_aggregate {A : Type} (matches : A -> bool)
  (expr : A -> JsNumber) (docs : list A) :
  (forall x, In x docs -> matches x = true -> Number_isFinite (expr x) = true) ->
  js_equiv (totalOr0 (aggregateTotal matches expr docs))
    (Fin (sumOver matches expr docs)).
Proof.
  intros Hfin. unfold aggregateTotal, sumOver.
  assert (Hf : forall x, In x (filter matches docs) ->
                         Number_isFinite (expr x) = true).
  { intros x Hx. apply filter_In in Hx. apply Hfin; tauto. }
  destruct (filter matches docs) as [|x l] eqn:E.
  - cbn. constructor. reflexivity.
  - destruct (fold_add_finite expr (x :: l) Hf 0) as (q & Hq & Heq).
    cbn [totalOr0]. rewrite Hq.
    apply (js_equiv_trans _ (Fin q)); [apply js_or0_Fin|].
    constructor. rewrite Heq. ring.
Qed.

Lemma js_equiv_finite a q : js_equiv a (Fin q) -> exists p, a = Fin p /\ (p == q)%Q.
Proof. intros H. inversion H; subst. eexists. split; [reflexivity|assumption]. Qed.



Lemma materialised_is_personalDerived (e : ExpenseEntry) (id : ObjectId) :
  ee_note e = Some (materialisedNote id) -> personalDerived e = true.
Proof.
  intros H. unfold personalDerived, notePersonal. rewrite H.
  unfold materialisedNote.
  change ("Approved personal expense (id: " ++ id ++ ")")
    with ("" ++ "Approved personal expense" ++ (" (id: " ++ id ++ ")")).
  rewrite icontains_between. reflexivity.
Qed.

Lemma expMatch_spec start end_ e :
  expMatch start end_ e
  = in_closed_range start end_ (ee_date e) && negb (personalDerived e).
Proof.
  unfold expMatch, personalDerived. rewrite negb_orb. reflexivity.
Qed.

(** ** GET /api/reports/remaining *)

Lemma ledgerAmount_finite d e :
  finiteAmounts d -> In e (expenseEntries d) ->
  Number_isFinite (ledgerAmount e) = true.
Proof.
  intros (_ & He & _) Hin. unfold ledgerAmount, ifNull.
  destruct (ee_actual_amount e) as [v|] eqn:Ea.
  - apply (He e Hin v). left. exact Ea.
  - destruct (ee_amount_avg e) as [v|] eqn:Eg; [|reflexivity].
    apply (He e Hin v). right. exact Eg.
Qed.

Lemma personalAmount_finite d pe :
  finiteAmounts d -> In pe (personalExpenses d) ->
  Number_isFinite (personalAmount pe) = true.
Proof.
  intros (_ & _ & Hp) Hin. destruct (Hp pe Hin) as (Havg & Hv).
  unfold personalAmount, ifNull.
  destruct (pe_approved_amount pe) as [v|] eqn:Ea.
  - apply (Hv v). left. reflexivity.
  - destruct (pe_requested_amount pe) as [v|] eqn:Er; [|exact Havg].
    apply (Hv v). right. reflexivity.
Qed.



(** ** The monthly balance *)

Lemma computeMonthlyTotals_eq now monthStr :
  exists start end_,
    forall d,
      computeMonthlyTotals now monthStr d
      = let fromEntries :=
          totalOr0
            (aggregateTotal (entryInMonth start end_)
               (fun e => ifNull (ee_actual_amount e) (Fin 0))
               (expenseEntries d)) in
        let fromPersonal :=
          totalOr0
            (aggregateTotal (approvedInMonth start end_)
               (fun pe => ifNull (pe_approved_amount pe) (Fin 0))
               (personalExpenses d)) in
        let income :=
          totalOr0
            (aggregateTotal
               (fun i => in_half_open_range start end_ (inc_date i))
               inc_amount (incomeEntries d)) in
        mkMonthlyTotals start end_ income fromEntries fromPersonal
          (js_add fromEntries fromPersonal)
          (js_sub income (js_add fromEntries fromPersonal)).
Proof.
  unfold computeMonthlyTotals.
  destruct (match monthStr with
            | Some (String _ _ as s) => parseYearMonth s
            | _ => (getFullYear now, getMonth now + 1)
            end) as [year month].
  eexists _, _. intros d. reflexivity.
Qed.

Lemma sumOver_insert {A : Type} (matches : A -> bool) (expr : A -> JsNumber)
  (l1 l2 : list A) (x : A) :
  matches x = true ->
  (sumOver matches expr (l1 ++ x :: l2)
   == sumOver matches expr (l1 ++ l2) + valueQ (expr x))%Q.
Proof.
  intros Hx. unfold sumOver, sumQ.
  rewrite !filter_app, !map_app, !fold_right_app. cbn [filter].
  rewrite Hx. cbn [map fold_right].
  generalize (fold_right Qplus 0%Q
                (map (fun doc => valueQ (expr doc)) (filter matches l2))).
  intros s.
  induction (map (fun doc => valueQ (expr doc)) (filter matches l1))
    as [|y l IH]; cbn [fold_right].
  - ring.
  - rewrite IH. ring.
Qed.

Lemma aggregateTotal_skip {A : Type} (matches : A -> bool)
  (expr : A -> JsNumber) (l1 l2 : list A) (x : A) :
  matches x = false ->
  aggregateTotal matches expr (l1 ++ x :: l2)
  = aggregateTotal matches expr (l1 ++ l2).
Proof.
  intros Hx. unfold aggregateTotal. rewrite !filter_app. cbn [filter].
  rewrite Hx. reflexivity.
Qed.

(** C9.  [computeMonthlyTotals] sums the actual amount of every ledger entry
    dated in the month, tagged or not, and the approved amount of every
    request approved in the month.  A request approved in the month for an
    amount [a], together with the ledger entry materialised from it, dated
    in the month with actual amount [a], therefore adds [a] to
    [expenseTotalFromEntries], [a] to [expenseTotalFromPersonal] and twice
    [a] to [totalExpenses], whereas the ledger total of
    [GET /api/reports/remaining] is the same with and without that entry. *)
Theorem monthly_balance_counts_twice now monthStr d es1 e es2 ps1 pe ps2 a t0 :
  expenseEntries d = (es1 ++ e :: es2)%list ->
  personalExpenses d = (ps1 ++ pe :: ps2)%list ->
  (forall x v, In x (expenseEntries d) -> ee_actual_amount x = Some v ->
               Number_isFinite v = true) ->
  (forall x v, In x (personalExpenses d) -> pe_approved_amount x = Some v ->
               Number_isFinite v = true) ->
  let t := computeMonthlyTotals now monthStr d in
  ee_note e = Some (materialisedNote (pe_id pe)) ->
  ee_actual_amount e = Some (Fin a) ->
  in_half_open_range (m_start t) (m_end t) (ee_date e) = true ->
  pe_status pe = approved ->
  pe_approved_amount pe = Some (Fin a) ->
  pe_approved_at pe = Some t0 ->
  in_half_open_range (m_start t) (m_end t) t0 = true ->
  let without_entry := set_expenseEntries (es1 ++ es2) d in
  let t' :=
    computeMonthlyTotals now monthStr
      (set_personalExpenses (ps1 ++ ps2) without_entry) in
  js_equiv (expenseTotalFromEntries t)
    (Fin (sumOver (entryInMonth (m_start t) (m_end t))
            (fun x => ifNull (ee_actual_amount x) (Fin 0)) (expenseEntries d)))
  /\ js_equiv (expenseTotalFromEntries t)
       (js_add (expenseTotalFromEntries t') (Fin a))
  /\ js_equiv (expenseTotalFromPersonal t)
       (js_add (expenseTotalFromPersonal t') (Fin a))
  /\ js_equiv (m_totalExpenses t) (js_add (m_totalExpenses t') (Fin (a + a)))
  /\ forall now' from to logs faults,
       exists r r',
         totalsOf (fst (getRemaining now' from to (mkWorld d logs faults)))
         = Some r
         /\ totalsOf
              (fst (getRemaining now' from to
                      (mkWorld without_entry logs faults)))
            = Some r'
         /\ totalGlobalExpenses r = totalGlobalExpenses r'.
Proof.
  intros Hes Hps Hfe Hfp t Hnote Hact Hdate Hst Happ Hat Hin without_entry t'.
  subst t t' without_entry.
  destruct (computeMonthlyTotals_eq now monthStr) as (start & end_ & Heq).
  rewrite !Heq in *. cbv zeta in *.
  cbn [m_start m_end expenseTotalFromEntries expenseTotalFromPersonal
         m_totalExpenses expenseEntries personalExpenses
         set_personalExpenses set_expenseEntries] in *.
  rewrite Hes, Hps in *.
  assert (Hme : entryInMonth start end_ e = true) by exact Hdate.
  assert (Hmp : approvedInMonth start end_ pe = true)
    by (unfold approvedInMonth; rewrite Hst, Hat, Hin; reflexivity).
  assert (Fe : forall l,
             (forall x, In x l -> In x (es1 ++ e :: es2)%list) ->
             forall x, In x l -> entryInMonth start end_ x = true ->
                       Number_isFinite (ifNull (ee_actual_amount x) (Fin 0))
                       = true).
  { intros l Hl x Hx _. unfold ifNull.
    destruct (ee_actual_amount x) as [v|] eqn:Ev; [|reflexivity].
    apply (Hfe x v); [apply Hl, Hx|exact Ev]. }
  assert (Fp : forall l,
             (forall x, In x l -> In x (ps1 ++ pe :: ps2)%list) ->
             forall x, In x l -> approvedInMonth start end_ x = true ->
                       Number_isFinite (ifNull (pe_approved_amount x) (Fin 0))
                       = true).
  { intros l Hl x Hx _. unfold ifNull.
    destruct (pe_approved_amount x) as [v|] eqn:Ev; [|reflexivity].
    apply (Hfp x v); [apply Hl, Hx|exact Ev]. }
  assert (Hsub : forall (A : Type) (l1 l2 : list A) (y x : A),
             In x (l1 ++ l2)%list -> In x (l1 ++ y :: l2)%list).
  { intros A l1 l2 y x Hx. apply in_app_or in Hx. apply in_or_app.
    destruct Hx; [left|right; right]; assumption. }
  pose proof (totalOr0_aggregate (entryInMonth start end_)
                (fun x => ifNull (ee_actual_amount x) (Fin 0))
                (es1 ++ e :: es2) (Fe _ (fun x H => H))) as E1.
  pose proof (totalOr0_aggregate (entryInMonth start end_)
                (fun x => ifNull (ee_actual_amount x) (Fin 0))
                (es1 ++ es2) (Fe _ (Hsub _ es1 es2 e))) as E2.
  pose proof (totalOr0_aggregate (approvedInMonth start end_)
                (fun x => ifNull (pe_approved_amount x) (Fin 0))
                (ps1 ++ pe :: ps2) (Fp _ (fun x H => H))) as P1.
  pose proof (totalOr0_aggregate (approvedInMonth start end_)
                (fun x => ifNull (pe_approved_amount x) (Fin 0))
                (ps1 ++ ps2) (Fp _ (Hsub _ ps1 ps2 pe))) as P2.
  pose proof (sumOver_insert (entryInMonth start end_)
                (fun x => ifNull (ee_actual_amount x) (Fin 0)) es1 es2 e Hme)
    as S1.
  pose proof (sumOver_insert (approvedInMonth start end_)
                (fun x => ifNull (pe_approved_amount x) (Fin 0)) ps1 ps2 pe Hmp)
    as S2.
  cbv beta in S1, S2.
  rewrite Hact in S1. rewrite Happ in S2. cbn [ifNull valueQ] in S1, S2.
  destruct (js_equiv_finite _ _ E1) as (x1 & X1 & Q1).
  destruct (js_equiv_finite _ _ E2) as (x2 & X2 & Q2).
  destruct (js_equiv_finite _ _ P1) as (y1 & Y1 & R1).
  destruct (js_equiv_finite _ _ P2) as (y2 & Y2 & R2).
  split; [exact E1|].
  rewrite X1, X2, Y1, Y2. cbn [js_add].
  split; [constructor; lra|]. split; [constructor; lra|].
  split; [constructor; lra|].
  intros now' from to logs faults. unfold getRemaining.
  destruct (buildRange now' from to) as [s f].
  cbn [fst db expenseEntries set_expenseEntries totalsOf res_body].
  eexists _, _. split; [reflexivity|]. split; [reflexivity|].
  cbn [totalGlobalExpenses]. rewrite Hes.
  rewrite aggregateTotal_skip; [reflexivity|].
  rewrite expMatch_spec, (materialised_is_personalDerived e _ Hnote).
  apply andb_false_r.
Qed.

(** ** The audit trail does not steer the operations *)

Ltac same_db Hdb :=
  cbn [fst snd];
  repeat (rewrite ?db_createAudit, ?db_on_db);
  rewrite <- ?Hdb;
  try reflexivity; try (split; reflexivity).

Lemma materialize_same_db now user pe final w w' :
  db w = db w' ->
  db (materialize now user pe final w) = db (materialize now user pe final w').
Proof.
  intros Hdb. unfold materialize. rewrite <- Hdb.
  destruct (find (noteMentions (pe_id pe)) (expenseEntries (db w)));
    [exact Hdb|].
  unfold ExpenseEntry_create. rewrite !db_createAudit. reflexivity.
Qed.

Lemma rejectRequest_same_db now user pe approval comment w w' :
  db w = db w' ->
  fst (rejectRequest now user pe approval comment w)
  = fst (rejectRequest now user pe approval comment w')
  /\ db (snd (rejectRequest now user pe approval comment w))
     = db (snd (rejectRequest now user pe approval comment w')).
Proof.
  intros Hdb. unfold rejectRequest, save. rewrite <- Hdb. same_db Hdb.
Qed.

Lemma approveRequest_same_db now user pe approval w w' :
  db w = db w' ->
  fst (approveRequest now user pe approval w)
  = fst (approveRequest now user pe approval w')
  /\ db (snd (approveRequest now user pe approval w))
     = db (snd (approveRequest now user pe approval w')).
Proof.
  intros Hdb. unfold approveRequest, save. rewrite <- Hdb.
  cbv zeta. cbn [fst snd].
  match goal with
  | |- context [if ?c then _ else _] => destruct c
  end.
  - cbn [fst snd]. split; [reflexivity|].
    apply materialize_same_db. same_db Hdb.
  - same_db Hdb.
Qed.

Lemma decide_same_db now user pe decision comment amount w w' :
  db w = db w' ->
  fst (decide now user pe decision comment amount w)
  = fst (decide now user pe decision comment amount w')
  /\ db (snd (decide now user pe decision comment amount w))
     = db (snd (decide now user pe decision comment amount w')).
Proof.
  intros Hdb. unfold decide. rewrite <- Hdb.
  destruct (recordApproval now pe user decision comment amount (db w))
    as [d1 approval].
  destruct decision.
  - apply approveRequest_same_db. same_db Hdb.
  - apply rejectRequest_same_db. same_db Hdb.
Qed.

Lemma notifyAdmins_same_db user pe admins : forall w w',
  db w = db w' ->
  db (notifyAdmins user pe admins w) = db (notifyAdmins user pe admins w').
Proof.
  unfold notifyAdmins.
  induction admins as [|a admins IH]; intros w w' Hdb; cbn [fold_left].
  - exact Hdb.
  - apply IH. rewrite !db_createAudit, !db_on_db, Hdb. reflexivity.
Qed.

Lemma handlers_same_db now user w w' :
  db w = db w' ->
  (forall body,
      fst (postPersonalExpense now user body w)
      = fst (postPersonalExpense now user body w')
      /\ db (snd (postPersonalExpense now user body w))
         = db (snd (postPersonalExpense now user body w')))
  /\ (forall id body,
         fst (putPersonalExpense now user id body w)
         = fst (putPersonalExpense now user id body w')
         /\ db (snd (putPersonalExpense now user id body w))
            = db (snd (putPersonalExpense now user id body w')))
  /\ (forall id,
         fst (submitPersonalExpense now user id w)
         = fst (submitPersonalExpense now user id w')
         /\ db (snd (submitPersonalExpense now user id w))
            = db (snd (submitPersonalExpense now user id w')))
  /\ (forall id body,
         fst (approvePersonalExpense now user id body w)
         = fst (approvePersonalExpense now user id body w')
         /\ db (snd (approvePersonalExpense now user id body w))
            = db (snd (approvePersonalExpense now user id body w')))
  /\ (forall id,
         fst (cancelPersonalExpense now user id w)
         = fst (cancelPersonalExpense now user id w')
         /\ db (snd (cancelPersonalExpense now user id w))
            = db (snd (cancelPersonalExpense now user id w'))).
Proof.
  intros Hdb. repeat split.
  - unfold postPersonalExpense. rewrite <- Hdb.
    destruct (b_title body) as [[|c s]|]; [reflexivity| |reflexivity].
    destruct (b_amount_min body), (b_amount_avg body), (b_amount_max body);
      try reflexivity.
    destruct (resolveCategory (b_category body) (db w)) as [[d1 cat]|];
      [|reflexivity].
    unfold PersonalExpense_create. same_db Hdb.
  - unfold postPersonalExpense. rewrite <- Hdb.
    destruct (b_title body) as [[|c s]|]; [exact Hdb| |exact Hdb].
    destruct (b_amount_min body), (b_amount_avg body), (b_amount_max body);
      try exact Hdb.
    destruct (resolveCategory (b_category body) (db w)) as [[d1 cat]|];
      [|exact Hdb].
    unfold PersonalExpense_create. same_db Hdb.
  - unfold putPersonalExpense. rewrite <- Hdb.
    destruct (negb (isValidObjectId id)); [reflexivity|].
    destruct (findById (db w) id) as [pe|]; [|reflexivity].
    destruct (negb _); [reflexivity|]. destruct (negb _); [reflexivity|].
    unfold save. same_db Hdb.
  - unfold putPersonalExpense. rewrite <- Hdb.
    destruct (negb (isValidObjectId id)); [exact Hdb|].
    destruct (findById (db w) id) as [pe|]; [|exact Hdb].
    destruct (negb _); [exact Hdb|]. destruct (negb _); [exact Hdb|].
    unfold save. same_db Hdb.
  - unfold submitPersonalExpense. rewrite <- Hdb.
    destruct (negb (isValidObjectId id)); [reflexivity|].
    destruct (findById (db w) id) as [pe|]; [|reflexivity].
    destruct (negb _); [reflexivity|]. destruct (negb _); [reflexivity|].
    unfold save. cbn [fst snd]. rewrite !db_createAudit, !db_on_db.
    erewrite notifyAdmins_same_db; [reflexivity|].
    rewrite !db_createAudit. reflexivity.
  - unfold submitPersonalExpense. rewrite <- Hdb.
    destruct (negb (isValidObjectId id)); [exact Hdb|].
    destruct (findById (db w) id) as [pe|]; [|exact Hdb].
    destruct (negb _); [exact Hdb|]. destruct (negb _); [exact Hdb|].
    unfold save. cbn [fst snd]. rewrite !db_createAudit, !db_on_db.
    apply notifyAdmins_same_db. rewrite !db_createAudit. reflexivity.
  - unfold approvePersonalExpense. rewrite <- Hdb.
    destruct (negb (isValidObjectId id)); [reflexivity|].
    destruct (parseDecision (b_decision body)) as [decision|]; [|reflexivity].
    destruct (_ && _); [reflexivity|]. destruct (_ && _); [reflexivity|].
    destruct (findById (db w) id) as [pe|]; [|reflexivity].
    destruct (negb _); [reflexivity|].
    apply decide_same_db, Hdb.
  - unfold approvePersonalExpense. rewrite <- Hdb.
    destruct (negb (isValidObjectId id)); [exact Hdb|].
    destruct (parseDecision (b_decision body)) as [decision|]; [|exact Hdb].
    destruct (_ && _); [exact Hdb|]. destruct (_ && _); [exact Hdb|].
    destruct (findById (db w) id) as [pe|]; [|exact Hdb].
    destruct (negb _); [exact Hdb|].
    apply decide_same_db, Hdb.
  - unfold cancelPersonalExpense. rewrite <- Hdb.
    destruct (negb (isValidObjectId id)); [reflexivity|].
    destruct (findById (db w) id) as [pe|]; [|reflexivity].
    destruct (negb _); [reflexivity|]. destruct (existsb _ _); [reflexivity|].
    unfold save. same_db Hdb.
  - unfold cancelPersonalExpense. rewrite <- Hdb.
    destruct (negb (isValidObjectId id)); [exact Hdb|].
    destruct (findById (db w) id) as [pe|]; [|exact Hdb].
    destruct (negb _); [exact Hdb|]. destruct (existsb _ _); [exact Hdb|].
    unfold save. same_db Hdb.
Qed.

(** C8.  A failing audit write goes no further than [createAudit]: the
    record is dropped and the primary collections are as they were.  The
    answer of create, edit, submit, decide and cancel, and the state of the
    primary collections after them, are the same whatever the audit trail
    holds and whichever audit writes fail. *)
Theorem audit_failures_do_not_propagate :
  (forall entry w, db (createAudit entry w) = db w)
  /\ (forall entry w rest,
         auditFaults w = true :: rest ->
         createAudit entry w = mkWorld (db w) (auditLogs w) rest)
  /\ (forall now c op w logs faults,
         let r := run now c op w in
         let r' := run now c op (mkWorld (db w) logs faults) in
         fst r' = fst r /\ db (snd r') = db (snd r)).
Proof.
  split; [exact db_createAudit|]. split.
  { intros entry w rest H. unfold createAudit. rewrite H. reflexivity. }
  intros now c op w logs faults r r'. subst r r'.
  assert (Hdb : db w = db (mkWorld (db w) logs faults)) by reflexivity.
  destruct c as [| |uid];
    [destruct op; split; reflexivity..|].
  destruct op as [body|rid body|rid|rid body|rid];
    unfold run, route_create, route_edit, route_submit, route_decide,
      route_cancel, authenticateToken, permit; cbn [db];
    (destruct (User_findById (db w) uid) as [user|] eqn:Hu;
     [|split; reflexivity]);
    destruct (handlers_same_db now user w _ Hdb)
      as (Hcreate & Hedit & Hsubmit & Hdecide & Hcancel).
  - destruct (Hcreate body). split; symmetry; assumption.
  - destruct (Hedit rid body). split; symmetry; assumption.
  - destruct (Hsubmit rid). split; symmetry; assumption.
  - destruct (existsb _ _); [|split; reflexivity].
    destruct (Hdecide rid body). split; symmetry; assumption.
  - destruct (Hcancel rid). split; symmetry; assumption.
Qed.
End Properties.

(** * Further properties *)

Section MoreProperties.

Context {RT : Runtime}.

(** ** What each operation does to the stored requests *)

Lemma replaceRequest_twice id p2 p4 l :
  pe_id p2 = id ->
  replaceRequest id p4 (replaceRequest id p2 l) = replaceRequest id p4 l.
Proof.
  intros H. unfold replaceRequest. rewrite map_map. apply map_ext.
  intros o. destruct (String.eqb (pe_id o) id) eqn:E; [|rewrite E; reflexivity].
  rewrite H, String.eqb_refl. reflexivity.
Qed.

Lemma notifyAdmins_frame user pe admins : forall w,
  let d' := db (notifyAdmins user pe admins w) in
  users d' = users (db w) /\ personalExpenses d' = personalExpenses (db w)
  /\ approvals d' = approvals (db w)
  /\ expenseEntries d' = expenseEntries (db w).
Proof.
  unfold notifyAdmins. induction admins as [|a admins IH]; intros w;
    cbn [fold_left]; [tauto|].
  match goal with
  | |- context [fold_left ?f admins ?w1] =>
      destruct (IH w1) as (H1 & H2 & H3 & H4)
  end.
  cbv zeta in *. rewrite H1, H2, H3, H4, !db_createAudit, !db_on_db.
  rewrite notify_users, notify_personalExpenses, notify_approvals,
    notify_expenseEntries. tauto.
Qed.

Lemma transition_not_terminal s s' : transition s s' -> ~ terminal s.
Proof. intros H [E|[E|E]]; rewrite E in H; inversion H. Qed.

Lemma findById_is_found d id pe :
  findById d id = Some pe -> findById_oid d (pe_id pe) = Some pe.
Proof.
  intros H. rewrite (findById_castObjectId _ _ _ H). exact H.
Qed.

Ltac updated_plain :=
  unfold updatedRequest;
  split; [|split; [|split; [|split; [|split; [|right; split; [|split]]]]]].

Ltac updated_approved :=
  unfold updatedRequest;
  split; [|split; [|split; [|split; [|split; [|left; split; [|split]]]]]].

Lemma edit_requests now user id body w :
  requestsStep (db w) (db (snd (putPersonalExpense now user id body w))).
Proof.
  unfold putPersonalExpense.
  destruct (negb (isValidObjectId id)); [left; reflexivity|].
  destruct (findById (db w) id) as [pe|] eqn:Hf; [|left; reflexivity].
  destruct (negb (String.eqb (pe_user pe) (u_id user))); [left; reflexivity|].
  destruct (Status_eqb (pe_status pe) draft) eqn:Hs; [|left; reflexivity].
  cbn [negb]. rewrite save_eq. cbn [fst snd]. rewrite db_createAudit, db_on_db.
  right; left.
  destruct (applyUpdatable_frame body pe)
    as (H1 & H2 & H3 & _ & H5 & _ & H7 & H8 & H9).
  exists pe, (set_pe_updatedAt now (applyUpdatable body pe)).
  split; [apply (findById_is_found _ _ _ Hf)|].
  split; [cbn [personalExpenses set_personalExpenses]; rewrite H1; reflexivity|].
  assert (Hd : pe_status pe = draft) by (destruct (pe_status pe); easy).
  updated_plain;
    cbn [pe_id pe_user pe_createdAt pe_required_admins_count pe_status
           pe_approved_amount pe_approved_at set_pe_updatedAt];
    try assumption.
  - rewrite H3, Hd. constructor.
  - rewrite H3, Hd. discriminate.
Qed.

Lemma submit_requests now user id w :
  requestsStep (db w) (db (snd (submitPersonalExpense now user id w))).
Proof.
  unfold submitPersonalExpense.
  destruct (negb (isValidObjectId id)); [left; reflexivity|].
  destruct (findById (db w) id) as [pe|] eqn:Hf; [|left; reflexivity].
  destruct (negb (String.eqb (pe_user pe) (u_id user))); [left; reflexivity|].
  destruct (Status_eqb (pe_status pe) draft) eqn:Hs; [|left; reflexivity].
  cbn [negb]. rewrite save_eq. cbn [fst snd].
  assert (Hd : pe_status pe = draft) by (destruct (pe_status pe); easy).
  right; left.
  exists pe, (set_pe_updatedAt now (set_pe_status pending pe)).
  split; [apply (findById_is_found _ _ _ Hf)|].
  split.
  - match goal with
    | |- context [notifyAdmins ?u ?p ?a ?w1] =>
        destruct (notifyAdmins_frame u p a w1) as (_ & -> & _)
    end.
    rewrite db_createAudit, db_on_db. reflexivity.
  - updated_plain; cbn; try reflexivity.
    + rewrite Hd. constructor.
    + discriminate.
Qed.

Lemma cancel_requests now user id w :
  requestsStep (db w) (db (snd (cancelPersonalExpense now user id w))).
Proof.
  unfold cancelPersonalExpense.
  destruct (negb (isValidObjectId id)); [left; reflexivity|].
  destruct (findById (db w) id) as [pe|] eqn:Hf; [|left; reflexivity].
  destruct (negb (String.eqb (pe_user pe) (u_id user))); [left; reflexivity|].
  destruct (existsb (Status_eqb (pe_status pe)) [approved; rejected; cancelled])
    eqn:Hs; [left; reflexivity|].
  rewrite save_eq. cbn [fst snd]. rewrite db_createAudit, db_on_db.
  right; left.
  exists pe, (set_pe_updatedAt now (set_pe_status cancelled pe)).
  split; [apply (findById_is_found _ _ _ Hf)|].
  split; [reflexivity|].
  updated_plain; cbn; try reflexivity.
  - destruct (pe_status pe); cbn in Hs; try discriminate; constructor.
  - discriminate.
Qed.

Lemma reject_requests now user pe approval comment w2 :
  personalExpenses (db (snd (rejectRequest now user pe approval comment w2)))
  = replaceRequest (pe_id pe)
      (set_pe_updatedAt now
         (set_pe_approvals_count (countApprove (pe_id pe) (db w2))
            (set_pe_status rejected pe)))
      (personalExpenses (db w2)).
Proof.
  unfold rejectRequest. rewrite save_eq. cbn [fst snd].
  rewrite db_createAudit, db_on_db, notify_personalExpenses, db_createAudit,
    db_on_db. reflexivity.
Qed.

Lemma approve_requests now user pe approval w2 :
  let rows := Approval_find_populated (is_approve_of (pe_id pe)) (db w2) in
  let counted := set_pe_approvals_count (List.length rows) pe in
  personalExpenses (db (snd (approveRequest now user pe approval w2)))
  = replaceRequest (pe_id pe)
      (if (requiredAdmins pe <=? List.length (uniqueApprovers rows))%nat
       then set_pe_updatedAt now
              (set_pe_approved_at (Some now)
                 (set_pe_approved_amount (Some (finalApprovedAmount rows pe))
                    (set_pe_status approved counted)))
       else set_pe_updatedAt now counted)
      (personalExpenses (db w2)).
Proof.
  intros rows counted. unfold approveRequest. fold rows. rewrite save_eq.
  cbn [pe_id set_pe_approvals_count set_pe_updatedAt].
  change (requiredAdmins _ <=? List.length (uniqueApprovers rows))%nat
    with (requiredAdmins pe <=? List.length (uniqueApprovers rows))%nat.
  destruct (requiredAdmins pe <=? List.length (uniqueApprovers rows))%nat.
  - rewrite save_eq. cbn [fst snd].
    rewrite materialize_personalExpenses, db_createAudit, db_on_db,
      notify_personalExpenses, db_createAudit, db_on_db.
    cbn [personalExpenses set_personalExpenses db on_db pe_id
           set_pe_approvals_count set_pe_approved_at set_pe_approved_amount
           set_pe_status set_pe_updatedAt].
    rewrite replaceRequest_twice by reflexivity. reflexivity.
  - reflexivity.
Qed.

Lemma decide_requests now user id body w :
  requestsStep (db w) (db (snd (approvePersonalExpense now user id body w))).
Proof.
  unfold approvePersonalExpense.
  destruct (negb (isValidObjectId id)); [left; reflexivity|].
  destruct (parseDecision (b_decision body)) as [decision|];
    [|left; reflexivity].
  destruct (_ && _); [left; reflexivity|].
  destruct (_ && _); [left; reflexivity|].
  destruct (findById (db w) id) as [pe|] eqn:Hf; [|left; reflexivity].
  destruct (Status_eqb (pe_status pe) pending) eqn:Hs; [|left; reflexivity].
  assert (Hp : pe_status pe = pending) by (destruct (pe_status pe); easy).
  cbn [negb]. unfold decide.
  pose proof (recordApproval_frame now pe user decision (b_comment body)
                (normalizedAmount (b_approved_amount body)) (db w)) as Hfr.
  destruct (recordApproval now pe user decision (b_comment body)
              (normalizedAmount (b_approved_amount body)) (db w))
    as [d1 approval].
  cbn [fst] in Hfr. destruct Hfr as (_ & _ & Hpe & _).
  right; left. destruct decision.
  - rewrite approve_requests, db_createAudit, db_on_db, Hpe.
    eexists pe, _. split; [apply (findById_is_found _ _ _ Hf)|].
    split; [reflexivity|].
    destruct (_ <=? _)%nat.
    + updated_approved; cbn; try reflexivity; try discriminate.
      rewrite Hp. constructor.
    + updated_plain; cbn; try reflexivity.
      * rewrite Hp. constructor.
      * rewrite Hp. discriminate.
  - rewrite reject_requests, db_createAudit, db_on_db, Hpe.
    eexists pe, _. split; [apply (findById_is_found _ _ _ Hf)|].
    split; [reflexivity|].
    updated_plain; cbn; try reflexivity.
    + rewrite Hp. constructor.
    + discriminate.
Qed.

Lemma create_requests now user body w :
  requestsStep (db w) (db (snd (postPersonalExpense now user body w))).
Proof.
  unfold postPersonalExpense.
  destruct (b_title body) as [[|c s]|]; try (left; reflexivity).
  destruct (b_amount_min body), (b_amount_avg body), (b_amount_max body);
    try (left; reflexivity).
  destruct (resolveCategory (b_category body) (db w)) as [[d1 cat]|] eqn:Hc;
    [|left; reflexivity].
  assert (Hpe : personalExpenses d1 = personalExpenses (db w)).
  { unfold resolveCategory in Hc.
    destruct (b_category body) as [[|c0 s0]|]; try (injection Hc as <- _; reflexivity).
    destruct (ObjectId_isValid (String c0 s0)).
    - destruct (Category_findById (db w) (String c0 s0));
        [injection Hc as <- _; reflexivity|discriminate].
    - destruct (Category_findByName (db w) (String c0 s0));
        injection Hc as <- _; reflexivity. }
  unfold PersonalExpense_create. cbn [fst snd].
  rewrite db_createAudit, db_on_db.
  right; right. eexists.
  cbn [personalExpenses set_nextId set_personalExpenses]. rewrite Hpe.
  split; [reflexivity|]. cbn. tauto.
Qed.

Lemma run_requests now c op w :
  requestsStep (db w) (db (snd (run now c op w))).
Proof.
  destruct c as [| |uid]; [destruct op; left; reflexivity..|].
  destruct op as [body|rid body|rid|rid body|rid];
    unfold run, route_create, route_edit, route_submit, route_decide,
      route_cancel, authenticateToken, permit;
    (destruct (User_findById (db w) uid) as [user|]; [|left; reflexivity]).
  - apply create_requests.
  - apply edit_requests.
  - apply submit_requests.
  - destruct (existsb _ _); [apply decide_requests|left; reflexivity].
  - apply cancel_requests.
Qed.

Lemma find_app_old {A} (f : A -> bool) (l l' : list A) (x : A) :
  find f l = Some x -> find f (l ++ l')%list = Some x.
Proof.
  induction l as [|a l IH]; cbn; [discriminate|].
  destruct (f a); [trivial|exact IH].
Qed.

Lemma find_some_In {A} (f : A -> bool) (l : list A) (x : A) :
  find f l = Some x -> In x l.
Proof. intros H. apply (find_some _ _ H). Qed.

Lemma requestsStep_lookup d d' id pe :
  requestsStep d d' ->
  findById_oid d id = Some pe ->
  exists pe', findById_oid d' id = Some pe'
              /\ (pe' = pe \/ updatedRequest pe pe').
Proof.
  intros [Hsame|[(pe0 & pe0' & Hf0 & Hrep & Hup)|(pe0 & Happ & _)]] Hf;
    unfold findById_oid in *.
  - exists pe. rewrite Hsame. auto.
  - destruct (String.eqb id (pe_id pe0)) eqn:E.
    + apply String.eqb_eq in E. subst id.
      assert (pe0 = pe) by congruence. subst pe0.
      exists pe0'. split; [|right; exact Hup].
      rewrite Hrep. apply find_replaceRequest; [apply Hup|congruence].
    + apply String.eqb_neq in E. exists pe. split; [|left; reflexivity].
      rewrite Hrep, find_replaceRequest_other; [exact Hf|apply Hup|exact E].
  - exists pe. split; [|left; reflexivity].
    rewrite Happ. apply find_app_old, Hf.
Qed.

Lemma updatedRequest_recorded pe pe' :
  approvalRecorded pe -> updatedRequest pe pe' -> approvalRecorded pe'.
Proof.
  intros [Ha Hn] (_ & _ & _ & _ & Ht & [(Hs & Hm & Hat)|(Hs & Hm & Hat)]).
  - split; [auto|congruence].
  - split; [congruence|]. intros _. rewrite Hm, Hat. apply Hn.
    intros Happ. apply (transition_not_terminal _ _ Ht). left. exact Happ.
Qed.

Lemma requestsStep_recorded d d' :
  requestsStep d d' ->
  Forall approvalRecorded (personalExpenses d) ->
  Forall approvalRecorded (personalExpenses d').
Proof.
  intros [Hsame|[(pe0 & pe0' & Hf0 & Hrep & Hup)|(pe0 & Happ & Hs & Hm & Hat)]] H.
  - rewrite Hsame. exact H.
  - rewrite Hrep. unfold replaceRequest. apply Forall_map.
    rewrite Forall_forall in *. intros o Ho.
    destruct (String.eqb (pe_id o) (pe_id pe0)); [|apply H, Ho].
    apply (updatedRequest_recorded pe0); [|exact Hup].
    apply H. apply (find_some_In _ _ _ Hf0).
  - rewrite Happ. apply Forall_app. split; [exact H|].
    constructor; [|constructor].
    split; [congruence|]. intros _. split; assumption.
Qed.

Lemma runs_cons s steps w :
  runs (s :: steps) w
  = runs steps (snd (run (fst (fst s)) (snd (fst s)) (snd s) w)).
Proof. reflexivity. Qed.

(** X1.  One operation moves a stored request along the life cycle only:
    whatever the operation, its credentials and its arguments, a request
    that was stored is still stored afterwards, and it is either unchanged
    or rewritten with the same identifier, owner, creation time and
    required number of administrators, with a status reached by one of
    draft to draft, draft to pending, draft or pending to cancelled,
    pending to pending, pending to rejected, pending to approved, and
    with an approved amount and time that are set when it becomes approved
    and untouched otherwise. *)
Theorem request_life_cycle now c op w id pe :
  findById_oid (db w) id = Some pe ->
  exists pe',
    findById_oid (db (snd (run now c op w))) id = Some pe'
    /\ (pe' = pe \/ updatedRequest pe pe').
Proof.
  intros Hf. apply (requestsStep_lookup (db w)); [apply run_requests|exact Hf].
Qed.

(** X2.  An approved, rejected or cancelled request is frozen: no history
    of creations, edits, submissions, decisions and cancellations, by
    whatever actors, changes any attribute of it. *)
Theorem terminal_requests_are_frozen steps : forall w id pe,
  findById_oid (db w) id = Some pe ->
  terminal (pe_status pe) ->
  findById_oid (db (runs steps w)) id = Some pe.
Proof.
  induction steps as [|s steps IH]; intros w id pe Hf Ht; [exact Hf|].
  rewrite runs_cons. apply IH; [|exact Ht].
  destruct (requestsStep_lookup (db w) _ id pe
              (run_requests (fst (fst s)) (snd (fst s)) (snd s) w) Hf)
    as (pe' & Hf' & [->|Hup]); [exact Hf'|].
  destruct Hup as (_ & _ & _ & _ & Htr & _).
  destruct (transition_not_terminal _ _ Htr Ht).
Qed.

(** X3.  The approved amount and the approval time are recorded exactly on
    approved requests: if every stored request has both when it is approved
    and none when it is not, the same holds after any history of
    operations. *)
Theorem approval_recorded_invariant steps : forall w,
  Forall approvalRecorded (personalExpenses (db w)) ->
  Forall approvalRecorded (personalExpenses (db (runs steps w))).
Proof.
  induction steps as [|s steps IH]; intros w H; [exact H|].
  rewrite runs_cons. apply IH.
  apply (requestsStep_recorded (db w)); [apply run_requests|exact H].
Qed.

(** X4.  Edit, submit and cancel belong to the owner: when the caller does
    not hold the token of the owner of the request, the operation changes
    nothing, neither the collections nor the audit trail, and it is
    answered 401, 403 or 404. *)
Theorem only_the_owner_edits_submits_cancels now c op id w :
  ownerOperation op = Some id ->
  (forall pe, findById (db w) id = Some pe -> c <> TokenFor (pe_user pe)) ->
  snd (run now c op w) = w
  /\ In (res_status (fst (run now c op w))) [401; 403; 404]%nat.
Proof.
  intros Hop Hown.
  assert (Hcore : forall (h : User -> Response * World),
             (forall user,
                 (snd (h user) = w
                  /\ In (res_status (fst (h user))) [401; 403; 404]%nat)
                 \/ exists pe, findById (db w) id = Some pe
                               /\ pe_user pe = u_id user) ->
             snd (authenticateToken c w h) = w
             /\ In (res_status (fst (authenticateToken c w h)))
                  [401; 403; 404]%nat).
  { intros h Hh. unfold authenticateToken.
    destruct c as [| |uid]; [cbn; auto..|].
    destruct (User_findById (db w) uid) as [user|] eqn:Hu; [|cbn; auto].
    destruct (Hh user) as [H|(pe & Hf & E)]; [exact H|].
    apply User_findById_id in Hu. destruct (Hown pe Hf). congruence. }
  destruct op as [body|rid body|rid|rid body|rid]; try discriminate;
    injection Hop as ->; cbn [run];
    unfold route_edit, route_submit, route_cancel; apply Hcore; intros user.
  - unfold putPersonalExpense.
    destruct (negb (isValidObjectId id)); [left; cbn; auto|].
    destruct (findById (db w) id) as [pe|]; [|left; cbn; auto].
    destruct (String.eqb (pe_user pe) (u_id user)) eqn:E;
      [|left; cbn; auto].
    right. exists pe. split; [reflexivity|apply String.eqb_eq, E].
  - unfold submitPersonalExpense.
    destruct (negb (isValidObjectId id)); [left; cbn; auto|].
    destruct (findById (db w) id) as [pe|]; [|left; cbn; auto].
    destruct (String.eqb (pe_user pe) (u_id user)) eqn:E;
      [|left; cbn; auto].
    right. exists pe. split; [reflexivity|apply String.eqb_eq, E].
  - unfold cancelPersonalExpense.
    destruct (negb (isValidObjectId id)); [left; cbn; auto|].
    destruct (findById (db w) id) as [pe|]; [|left; cbn; auto].
    destruct (String.eqb (pe_user pe) (u_id user)) eqn:E;
      [|left; cbn; auto].
    right. exists pe. split; [reflexivity|apply String.eqb_eq, E].
Qed.

(** X5.  Decisions belong to the users of role adminA or adminB, a
    superadmin included among those refused: when the caller's token is
    not that of a stored user with one of the two roles, the decision
    changes nothing and is answered 401 or 403. *)
Theorem only_admins_decide now c id body w :
  (forall user, c = TokenFor (u_id user) -> In user (users (db w)) ->
                is_admin_role user = false) ->
  snd (run now c (OpDecide id body) w) = w
  /\ In (res_status (fst (run now c (OpDecide id body) w))) [401; 403]%nat.
Proof.
  intros Hrole. cbn [run]. unfold route_decide, authenticateToken.
  destruct c as [| |uid]; [cbn; auto..|].
  destruct (User_findById (db w) uid) as [user|] eqn:Hu; [|cbn; auto].
  unfold permit.
  assert (Hr : is_admin_role user = false).
  { apply Hrole.
    - f_equal. symmetry. apply (User_findById_id _ _ _ Hu).
    - apply (find_some_In _ _ _ Hu). }
  unfold is_admin_role in Hr. rewrite Hr. cbn. auto.
Qed.

Lemma delivered_nil {A} (l : list A) : delivered [] l = l.
Proof. destruct l; reflexivity. Qed.

Lemma notifyAdmins_cons user pe a admins w :
  notifyAdmins user pe (a :: admins) w
  = notifyAdmins user pe admins
      (createAudit
         (mkAuditLog "notification" (pe_id pe) "notify_admin_new_pending"
            (Some (u_id user))
            (MetaNotifyTo (u_id a) "New personal expense pending"))
         (on_db (notify (pendingNotice user pe a)) w)).
Proof. reflexivity. Qed.

Lemma notifyAdmins_notifications user pe admins : forall w,
  notifications (db (notifyAdmins user pe admins w))
  = (notifications (db w)
     ++ map (pendingNotice user pe)
          (delivered (notificationFaults (db w)) admins))%list
  /\ notificationFaults (db (notifyAdmins user pe admins w))
     = skipn (List.length admins) (notificationFaults (db w)).
Proof.
  induction admins as [|a admins IH]; intros w.
  - unfold notifyAdmins.
    cbn [fold_left delivered map List.length skipn].
    rewrite app_nil_r. split; reflexivity.
  - rewrite notifyAdmins_cons.
    match goal with
    | |- context [notifyAdmins user pe admins ?w1] =>
        destruct (IH w1) as [IHn IHf]; rewrite IHn, IHf
    end.
    rewrite !db_createAudit, !db_on_db. unfold notify.
    destruct (notificationFaults (db w)) as [|[|] rest] eqn:Hf.
    + cbn [notifications set_notifications notificationFaults
             set_notificationFaults delivered List.length skipn].
      rewrite Hf, delivered_nil, <- app_assoc.
      split; [reflexivity|destruct (List.length admins); reflexivity].
    + cbn [notifications set_notifications notificationFaults
             set_notificationFaults delivered List.length skipn].
      split; reflexivity.
    + cbn [notifications set_notifications notificationFaults
             set_notificationFaults delivered List.length skipn].
      rewrite <- app_assoc. split; reflexivity.
Qed.

(** X6.  A submission by the owner of a draft is answered 200, stores the
    request as pending and notifies the administrators: one notification,
    in the stored order of the users, for each user of role adminA or
    adminB whose notification write does not fail, addressed to that user
    and naming the request and its owner; users of another role, a
    superadmin among them, get none. *)
Theorem submit_notifies_the_admins now user id w pe :
  isValidObjectId id = true ->
  findById (db w) id = Some pe ->
  pe_user pe = u_id user ->
  pe_status pe = draft ->
  let r := submitPersonalExpense now user id w in
  res_status (fst r) = 200%nat
  /\ findById (db (snd r)) id
     = Some (set_pe_updatedAt now (set_pe_status pending pe))
  /\ notifications (db (snd r))
     = (notifications (db w)
        ++ map (pendingNotice user pe)
             (delivered (notificationFaults (db w))
                (filter is_admin_role (users (db w)))))%list.
Proof.
  intros Hv Hf Ho Hs r. subst r. unfold submitPersonalExpense.
  rewrite Hv, Hf, Ho, String.eqb_refl, Hs. cbn [negb Status_eqb].
  rewrite save_eq. cbn [fst snd res_status].
  split; [reflexivity|].
  match goal with
  | |- context [notifyAdmins ?u ?p ?a ?w1] =>
      destruct (notifyAdmins_frame u p a w1) as (_ & Hpe & _);
      destruct (notifyAdmins_notifications u p a w1) as (Hn & _)
  end.
  split.
  - pose proof (findById_found_id _ _ _ Hf) as Hid.
    unfold findById, findById_oid in *. rewrite Hpe.
    rewrite db_createAudit, db_on_db.
    cbn [personalExpenses set_personalExpenses pe_id set_pe_updatedAt
           set_pe_status].
    rewrite Hid. apply find_replaceRequest; [exact Hid|congruence].
  - rewrite Hn, !db_createAudit, !db_on_db. reflexivity.
Qed.

Lemma materialize_new now user pe final w :
  find (noteMentions (pe_id pe)) (expenseEntries (db w)) = None ->
  expenseEntries (db (materialize now user pe final w))
  = (expenseEntries (db w)
     ++ [mkExpenseEntry (genObjectId (nextId (db w))) None (pe_category pe)
           (Some ("[Personal] " ++ pe_title pe)%string)
           (Some (pe_amount_min pe)) (Some (pe_amount_avg pe))
           (Some (pe_amount_max pe)) (Some final)
           (match pe_unit pe with
            | Some (String _ _ as u) => Some u
            | _ => None
            end)
           (Some (materialisedNote (pe_id pe)))
           (match pe_approved_at pe with Some t => t | None => now end)
           (Some (u_id user)) []])%list.
Proof.
  intros H. unfold materialize. rewrite H. unfold ExpenseEntry_create.
  rewrite db_createAudit, db_on_db. reflexivity.
Qed.

Lemma materialize_old now user pe final w :
  find (noteMentions (pe_id pe)) (expenseEntries (db w)) <> None ->
  materialize now user pe final w = w.
Proof.
  intros H. unfold materialize.
  destruct (find _ _); [reflexivity|congruence].
Qed.

Lemma reject_frame now user pe approval comment w2 :
  let d' := db (snd (rejectRequest now user pe approval comment w2)) in
  approvals d' = approvals (db w2) /\ users d' = users (db w2)
  /\ expenseEntries d' = expenseEntries (db w2)
  /\ categories d' = categories (db w2)
  /\ incomeEntries d' = incomeEntries (db w2).
Proof.
  unfold rejectRequest. rewrite save_eq. cbn [fst snd].
  rewrite db_createAudit, db_on_db.
  match goal with
  | |- context [notify ?n ?d] => destruct (notify_frame n d)
      as (Hu & Hc & _ & Ha & He & Hi & _)
  end.
  rewrite Ha, Hu, He, Hc, Hi, db_createAudit, db_on_db. cbn. tauto.
Qed.

Lemma approve_ledger now user pe approval w2 :
  let rows := Approval_find_populated (is_approve_of (pe_id pe)) (db w2) in
  let r := approveRequest now user pe approval w2 in
  expenseEntries (db (snd r))
  = if (requiredAdmins pe <=? List.length (uniqueApprovers rows))%nat
    then
      match find (noteMentions (pe_id pe)) (expenseEntries (db w2)) with
      | Some _ => expenseEntries (db w2)
      | None =>
          (expenseEntries (db w2)
           ++ [mkExpenseEntry (genObjectId (nextId (db w2))) None
                 (pe_category pe) (Some ("[Personal] " ++ pe_title pe)%string)
                 (Some (pe_amount_min pe)) (Some (pe_amount_avg pe))
                 (Some (pe_amount_max pe))
                 (Some (finalApprovedAmount rows pe))
                 (match pe_unit pe with
                  | Some (String _ _ as u) => Some u
                  | _ => None
                  end)
                 (Some (materialisedNote (pe_id pe))) now
                 (Some (u_id user)) []])%list
      end
    else expenseEntries (db w2).
Proof.
  intros rows r. subst r. unfold approveRequest. fold rows. rewrite save_eq.
  change (requiredAdmins _ <=? List.length (uniqueApprovers rows))%nat
    with (requiredAdmins pe <=? List.length (uniqueApprovers rows))%nat.
  destruct (requiredAdmins pe <=? List.length (uniqueApprovers rows))%nat;
    [|reflexivity].
  rewrite save_eq. cbn [fst snd].
  match goal with
  | |- context [materialize now user ?p ?f ?w7] =>
      assert (He : expenseEntries (db w7) = expenseEntries (db w2))
        by (rewrite db_createAudit, db_on_db, notify_expenseEntries,
              db_createAudit, db_on_db; reflexivity);
      assert (Hn : nextId (db w7) = nextId (db w2))
        by (rewrite db_createAudit, db_on_db;
            match goal with
            | |- context [notify ?n ?d] =>
                destruct (notify_frame n d) as (_ & _ & _ & _ & _ & _ & ->)
            end;
            rewrite db_createAudit, db_on_db; reflexivity);
      pose proof (materialize_old now user p f w7) as Hold;
      pose proof (materialize_new now user p f w7) as Hnew;
      rewrite He in Hold; rewrite He in Hnew; rewrite Hn in Hnew
  end.
  destruct (find (noteMentions (pe_id pe)) (expenseEntries (db w2)))
    as [e|] eqn:Hfind.
  - rewrite Hold; [assumption|].
    change (find (noteMentions (pe_id pe)) (expenseEntries (db w2)) <> None).
    rewrite Hfind. discriminate.
  - rewrite Hnew; [reflexivity|exact Hfind].
Qed.

Lemma approve_cases now user id body w :
  let r := approvePersonalExpense now user id body w in
  (snd r = w /\ (res_status (fst r) = 400%nat \/ res_status (fst r) = 404%nat))
  \/ exists pe decision,
       findById (db w) id = Some pe /\ pe_status pe = pending
       /\ parseDecision (b_decision body) = Some decision
       /\ r = decide now user pe decision (b_comment body)
                (normalizedAmount (b_approved_amount body)) w.
Proof.
  intros r. subst r. unfold approvePersonalExpense.
  destruct (negb (isValidObjectId id)); [left; cbn; auto|].
  destruct (parseDecision (b_decision body)) as [decision|];
    [|left; cbn; auto].
  destruct (_ && _); [left; cbn; auto|].
  destruct (_ && _); [left; cbn; auto|].
  destruct (findById (db w) id) as [pe|] eqn:Hf; [|left; cbn; auto].
  destruct (Status_eqb (pe_status pe) pending) eqn:Hs; [|left; cbn; auto].
  right. exists pe, decision.
  repeat split. destruct (pe_status pe); easy.
Qed.

Lemma approve_frame now user pe approval w2 :
  let d' := db (snd (approveRequest now user pe approval w2)) in
  approvals d' = approvals (db w2) /\ users d' = users (db w2)
  /\ categories d' = categories (db w2)
  /\ incomeEntries d' = incomeEntries (db w2).
Proof.
  unfold approveRequest. rewrite save_eq.
  destruct (_ <=? _)%nat; [|cbn; tauto].
  rewrite save_eq. cbn [fst snd].
  match goal with
  | |- context [materialize now user ?p ?f ?w7] =>
      destruct (materialize_frame now user p f w7)
        as (Hu & Hc & _ & Ha & Hi & _)
  end.
  rewrite Hu, Hc, Ha, Hi, db_createAudit, db_on_db.
  match goal with
  | |- context [notify ?n ?d] => destruct (notify_frame n d)
      as (Hu' & Hc' & _ & Ha' & _ & Hi' & _)
  end.
  rewrite Hu', Hc', Ha', Hi', db_createAudit, db_on_db. cbn. tauto.
Qed.

Lemma decide_state now user pe decision comment amount w :
  findById_oid (db w) (pe_id pe) <> None ->
  let r := decide now user pe decision comment amount w in
  let d1 := fst (recordApproval now pe user decision comment amount (db w)) in
  let rows := Approval_find_populated (is_approve_of (pe_id pe)) d1 in
  let quorum :=
    (requiredAdmins pe <=? List.length (uniqueApprovers rows))%nat in
  res_status (fst r) = 200%nat
  /\ approvals (db (snd r)) = approvals d1
  /\ users (db (snd r)) = users (db w)
  /\ (exists pe',
         findById_oid (db (snd r)) (pe_id pe) = Some pe'
         /\ pe_approvals_count pe' = countApprove (pe_id pe) d1
         /\ pe_status pe'
            = match decision with
              | reject => rejected
              | approve => if quorum then approved else pe_status pe
              end
         /\ (decision = approve -> quorum = true ->
             pe_approved_amount pe' = Some (finalApprovedAmount rows pe)))
  /\ expenseEntries (db (snd r))
     = match decision with
       | reject => expenseEntries (db w)
       | approve =>
           if quorum then
             match find (noteMentions (pe_id pe)) (expenseEntries (db w)) with
             | Some _ => expenseEntries (db w)
             | None =>
                 (expenseEntries (db w)
                  ++ [mkExpenseEntry (genObjectId (nextId (db w))) None
                        (pe_category pe)
                        (Some ("[Personal] " ++ pe_title pe)%string)
                        (Some (pe_amount_min pe)) (Some (pe_amount_avg pe))
                        (Some (pe_amount_max pe))
                        (Some (finalApprovedAmount rows pe))
                        (match pe_unit pe with
                         | Some (String _ _ as u) => Some u
                         | _ => None
                         end)
                        (Some (materialisedNote (pe_id pe))) now
                        (Some (u_id user)) []])%list
             end
           else expenseEntries (db w)
       end.
Proof.
  intros Hfound r d1 rows quorum. subst r. unfold decide.
  pose proof (recordApproval_frame now pe user decision comment amount (db w))
    as Hfr.
  fold d1 in Hfr. cbv zeta in Hfr.
  destruct Hfr as (Hu & _ & Hpe & Hee & _ & _ & Hnext & _).
  assert (Hd1 : recordApproval now pe user decision comment amount (db w)
                = (d1, snd (recordApproval now pe user decision comment
                              amount (db w))))
    by (subst d1; destruct (recordApproval _ _ _ _ _ _ _); reflexivity).
  rewrite Hd1.
  set (w2 := createAudit _ (on_db (fun _ => d1) w)).
  assert (Hw2 : db w2 = d1) by (subst w2; rewrite db_createAudit; reflexivity).
  assert (Hfound2 : find (fun o => String.eqb (pe_id o) (pe_id pe))
                      (personalExpenses (db w2)) <> None)
    by (rewrite Hw2, Hpe; exact Hfound).
  destruct decision.
  - pose proof (approve_requests now user pe
                  (snd (recordApproval now pe user approve comment amount
                          (db w))) w2) as Hreq.
    pose proof (approve_ledger now user pe
                  (snd (recordApproval now pe user approve comment amount
                          (db w))) w2) as Hled.
    destruct (approve_frame now user pe
                (snd (recordApproval now pe user approve comment amount
                        (db w))) w2) as (Ha & Hus & _).
    cbv zeta in Hreq, Hled. rewrite Hw2 in Hreq, Hled, Ha, Hus.
    fold rows in Hreq, Hled.
    split.
    { destruct (approve_outcome now user pe
                  (snd (recordApproval now pe user approve comment amount
                          (db w))) w2 Hfound2)
        as (pe0 & _ & _ & _ & _ & _ & _ & Hst & _).
      exact Hst. }
    split; [exact Ha|]. split; [rewrite Hus; exact Hu|].
    subst quorum.
    destruct (requiredAdmins pe <=? List.length (uniqueApprovers rows))%nat;
      (split;
       [eexists; unfold findById_oid; rewrite Hreq;
        split; [apply find_replaceRequest;
                [reflexivity|rewrite Hpe; exact Hfound]|];
        cbn; repeat split; try reflexivity; try discriminate
       |rewrite Hled, Hee, ?Hnext; reflexivity]).
    all: unfold rows, countApprove, Approval_find_populated;
      apply List.length_map.
  - pose proof (reject_requests now user pe
                  (snd (recordApproval now pe user reject comment amount
                          (db w))) comment w2) as Hreq.
    destruct (reject_frame now user pe
                (snd (recordApproval now pe user reject comment amount
                        (db w))) comment w2) as (Ha & Hus & He & _).
    rewrite Hw2 in Hreq, Ha, Hus, He.
    split; [unfold rejectRequest; rewrite save_eq; reflexivity|].
    split; [exact Ha|]. split; [rewrite Hus; exact Hu|].
    split.
    + eexists. unfold findById_oid. rewrite Hreq.
      split; [apply find_replaceRequest;
              [reflexivity|rewrite Hpe; exact Hfound]|].
      cbn. repeat split; try reflexivity. discriminate.
    + rewrite He, Hee. reflexivity.
Qed.


(** X8.  The decision that makes a request approved puts it in the ledger:
    afterwards an expense entry mentions the request in its note.  When no
    entry mentioned it before, that entry is the one new entry of the
    ledger: its actual amount is the approved amount stored on the request,
    its title is the title of the request after the tag [Personal], its
    category is that of the request, its date is the time of the decision
    and its author is the admin who decided. *)
Theorem final_approval_enters_the_ledger now user id body w pe pe' :
  findById (db w) id = Some pe ->
  findById (db (snd (approvePersonalExpense now user id body w))) id
  = Some pe' ->
  pe_status pe <> approved ->
  pe_status pe' = approved ->
  let ledger :=
    expenseEntries (db (snd (approvePersonalExpense now user id body w))) in
  (exists e, In e ledger /\ noteMentions (pe_id pe) e = true)
  /\ (find (noteMentions (pe_id pe)) (expenseEntries (db w)) = None ->
      exists e,
        ledger = (expenseEntries (db w) ++ [e])%list
        /\ ee_actual_amount e = pe_approved_amount pe'
        /\ ee_title e = Some ("[Personal] " ++ pe_title pe)%string
        /\ ee_category e = pe_category pe
        /\ ee_note e = Some (materialisedNote (pe_id pe))
        /\ ee_date e = now
        /\ ee_created_by e = Some (u_id user)).
Proof.
  intros Hf Hf' Hs Hs' ledger. subst ledger.
  destruct (approve_cases now user id body w)
    as [(Hw & _)|(pe0 & decision & Hf0 & Hp & _ & Hr)].
  { rewrite Hw in Hf'. congruence. }
  assert (pe0 = pe) by congruence. subst pe0.
  rewrite Hr in *.
  pose proof (findById_found_id _ _ _ Hf) as Hid.
  assert (Hfound : findById_oid (db w) (pe_id pe) <> None)
    by (rewrite Hid; unfold findById in Hf; congruence).
  destruct (decide_state now user pe decision (b_comment body)
              (normalizedAmount (b_approved_amount body)) w Hfound)
    as (_ & _ & _ & (pe1 & Hf1 & _ & Hst & Hamt) & Hled).
  unfold findById in Hf'. rewrite <- Hid, Hf1 in Hf'.
  injection Hf' as ->.
  destruct decision; [|congruence].
  destruct (requiredAdmins pe <=? _)%nat eqn:Hq; [|congruence].
  rewrite Hled, (Hamt eq_refl eq_refl).
  destruct (find (noteMentions (pe_id pe)) (expenseEntries (db w)))
    as [e|] eqn:Hfind.
  - split; [|discriminate].
    exists e. split; [apply (find_some_In _ _ _ Hfind)|].
    apply (find_some _ _ Hfind).
  - split.
    + eexists. split; [apply in_or_app; right; left; reflexivity|].
      unfold noteMentions. cbn [ee_note]. apply materialisedNote_mentions.
    + intros _. eexists. split; [reflexivity|]. cbn. repeat split.
Qed.

(** X9.  The votes on a request are shown to its owner and to the staff
    (adminA, adminB, superadmin) and to nobody else: for a stored request
    the route answers 200 exactly to them, with the stored votes on this
    request and no other, in their stored order; it answers 403 to the
    others; and it writes nothing. *)
Theorem approvals_are_for_the_owner_and_the_staff user id w pe :
  isValidObjectId id = true ->
  findById (db w) id = Some pe ->
  let r := getApprovals user id w in
  snd r = w
  /\ (pe_user pe = u_id user \/ is_staff user = true ->
      exists rows,
        fst r = mkResponse 200 (ApprovalList rows)
        /\ map fst rows
           = filter (fun a => String.eqb (ap_personal_expense a) (pe_id pe))
               (approvals (db w)))
  /\ (pe_user pe <> u_id user -> is_staff user = false ->
      fst r = fail 403 "forbidden").
Proof.
  intros Hv Hf r. subst r. unfold getApprovals. rewrite Hv, Hf. cbn [negb].
  fold (is_staff user).
  destruct (String.eqb (pe_user pe) (u_id user)) eqn:E;
    destruct (is_staff user) eqn:Hs; cbn [negb andb fst snd].
  all: split; [reflexivity|]; split.
  all: try (intros _; eexists; split; [reflexivity|];
            unfold Approval_find_populated; rewrite map_map; cbn [fst];
            apply map_id).
  all: try (apply String.eqb_eq in E; intros Hne; congruence).
  all: try (intros _; discriminate).
  - apply String.eqb_neq in E. intros [H|H]; congruence.
  - intros _ _. reflexivity.
Qed.



Lemma find_app_new {A} (f : A -> bool) (l : list A) (x : A) :
  f x = true -> find f (l ++ [x])%list <> None.
Proof.
  intros H. induction l as [|a l IH]; cbn; [rewrite H; discriminate|].
  destruct (f a); [discriminate|exact IH].
Qed.

(** X11.  A category named in a creation is created once.  When a creation
    that names its category (by a name that is not an identifier, and that
    the case-insensitive search matches with itself) has been accepted, a
    later creation naming the same category, by whoever, leaves the
    collection of categories as it is. *)
Theorem a_named_category_is_created_once now user body now' user' body' name w :
  b_category body = Some name ->
  b_category body' = Some name ->
  ObjectId_isValid name = false ->
  categoryNameMatches name name = true ->
  res_status (fst (postPersonalExpense now user body w)) = 201%nat ->
  let w1 := snd (postPersonalExpense now user body w) in
  categories (db (snd (postPersonalExpense now' user' body' w1)))
  = categories (db w1).
Proof.
  intros Hb Hb' Hv Hm H201 w1.
  assert (Hfound : name <> EmptyString ->
                   Category_findByName (db w1) name <> None).
  { intros Hne. subst w1. revert H201. unfold postPersonalExpense.
    destruct (b_title body) as [[|c s]|]; try discriminate.
    destruct (b_amount_min body), (b_amount_avg body), (b_amount_max body);
      try discriminate.
    destruct (resolveCategory (b_category body) (db w)) as [[d1 cat]|] eqn:Hc;
      [|discriminate].
    intros _. unfold PersonalExpense_create. cbn [fst snd].
    rewrite db_createAudit, db_on_db.
    unfold Category_findByName.
    cbn [categories set_nextId set_personalExpenses].
    revert Hc. rewrite Hb. unfold resolveCategory.
    destruct name as [|c0 s0]; [congruence|]. rewrite Hv.
    destruct (Category_findByName (db w) (String c0 s0)) eqn:Hn.
    - intros H; injection H as <- _.
      unfold Category_findByName in Hn. rewrite Hn. discriminate.
    - unfold Category_create. intros H; injection H as <- _.
      cbn [categories set_nextId set_categories].
      apply find_app_new. exact Hm. }
  clearbody w1. unfold postPersonalExpense.
  destruct (b_title body') as [[|c s]|]; try reflexivity.
  destruct (b_amount_min body'), (b_amount_avg body'), (b_amount_max body');
    try reflexivity.
  rewrite Hb'. unfold resolveCategory, PersonalExpense_create.
  destruct name as [|c0 s0].
  - cbn [fst snd]. rewrite db_createAudit, db_on_db. reflexivity.
  - rewrite Hv.
    destruct (Category_findByName (db w1) (String c0 s0));
      [|destruct Hfound; [discriminate|reflexivity]].
    cbn [fst snd]. rewrite db_createAudit, db_on_db. reflexivity.
Qed.

(** ** Sorting *)

Lemma insertBy_perm {A} (before : A -> A -> bool) (x : A) (l : list A) :
  Permutation (insertBy before x l) (x :: l).
Proof.
  induction l as [|y r IH]; cbn; [apply Permutation_refl|].
  destruct (before x y); [apply Permutation_refl|].
  apply (Permutation_trans (perm_skip y IH)). apply perm_swap.
Qed.

Lemma sortBy_perm {A} (before : A -> A -> bool) (l : list A) :
  Permutation (sortBy before l) l.
Proof.
  induction l as [|x l IH]; cbn; [apply perm_nil|].
  apply (Permutation_trans (insertBy_perm before x _)).
  apply perm_skip, IH.
Qed.

Lemma sortBy_In {A} (before : A -> A -> bool) (l : list A) (x : A) :
  In x (sortBy before l) <-> In x l.
Proof.
  split; apply Permutation_in;
    [apply sortBy_perm|apply Permutation_sym, sortBy_perm].
Qed.

Lemma insertBy_sorted {A} (before : A -> A -> bool) (x : A) (l : list A) :
  (forall a b, before a b = false -> before b a = true) ->
  Sorted (fun a b => before a b = true) l ->
  Sorted (fun a b => before a b = true) (insertBy before x l).
Proof.
  intros Htotal. induction l as [|y r IH]; intros Hs; cbn.
  - constructor; constructor.
  - destruct (before x y) eqn:E.
    + constructor; [exact Hs|constructor; exact E].
    + inversion Hs as [|? ? Hr Hhd]; subst.
      constructor; [apply IH, Hr|].
      destruct r as [|z r']; cbn.
      * constructor. apply Htotal, E.
      * destruct (before x z); constructor.
        -- apply Htotal, E.
        -- inversion Hhd; assumption.
Qed.

Lemma sortBy_sorted {A} (before : A -> A -> bool) (l : list A) :
  (forall a b, before a b = false -> before b a = true) ->
  Sorted (fun a b => before a b = true) (sortBy before l).
Proof.
  intros Htotal. induction l as [|x l IH]; cbn; [constructor|].
  apply insertBy_sorted; assumption.
Qed.

Lemma sortBy_descending {A} (key : A -> Z) (l : list A) :
  StronglySorted (fun a b => key b <= key a)
    (sortBy (fun a b => key b <=? key a) l).
Proof.
  apply Sorted_StronglySorted; [intros a b c; lia|].
  assert (H := sortBy_sorted (fun a b => key b <=? key a) l).
  cbv beta in H.
  assert (Ht : forall a b, (key b <=? key a) = false -> (key a <=? key b) = true)
    by (intros a b; rewrite Z.leb_gt, Z.leb_le; lia).
  specialize (H Ht).
  induction H as [|a r Hr IH Hhd]; constructor; [exact IH|].
  destruct Hhd; constructor. apply Z.leb_le. assumption.
Qed.


(** X13.  The list of pending requests is for the staff.  The route writes
    nothing.  When it sends a list, the caller holds the token of a stored
    adminA, adminB or superadmin, and the list holds the stored requests
    that are pending, all of them and no other, newest first; otherwise it
    refuses with 401 or 403.  It does send a list to every stored user of
    the staff. *)
Theorem pending_list_is_for_the_staff c d :
  snd (route_pendingList c d) = d
  /\ match fst (route_pendingList c d) with
     | Sent code items =>
         code = 200%nat
         /\ (exists user, c = TokenFor (u_id user) /\ In user (users d)
                          /\ is_staff user = true)
         /\ (forall pe, In pe items
                        <-> In pe (personalExpenses d)
                            /\ pe_status pe = pending)
         /\ StronglySorted (fun a b => pe_createdAt b <= pe_createdAt a) items
     | Refused code _ => code = 401%nat \/ code = 403%nat
     end
  /\ (forall uid user,
         c = TokenFor uid -> User_findById d uid = Some user ->
         is_staff user = true ->
         exists items, fst (route_pendingList c d) = Sent 200 items).
Proof.
  unfold route_pendingList, authenticated, permitted, getPendingList.
  fold is_staff.
  destruct c as [| |uid]; cbn [fst snd].
  1,2: split; [reflexivity|]; split; [left; reflexivity|];
    intros ? ? H; discriminate H.
  destruct (User_findById d uid) as [user|] eqn:Hu; cbn [fst snd];
    [|split; [reflexivity|]; split; [left; reflexivity|];
      intros ? ? Hc H; injection Hc as <-; congruence].
  change (existsb (String.eqb (u_role user)) ["adminA"; "adminB"; "superadmin"])
    with (is_staff user).
  destruct (is_staff user) eqn:Hs; cbn [fst snd].
  - split; [reflexivity|]. split; [|intros; eexists; reflexivity].
    split; [reflexivity|]. split; [|split].
    + exists user. split; [|split; [apply (find_some_In _ _ _ Hu)|exact Hs]].
      f_equal. symmetry. apply (User_findById_id _ _ _ Hu).
    + intros pe. rewrite sortBy_In, filter_In.
      destruct (pe_status pe); cbn; intuition congruence.
    + apply (sortBy_descending pe_createdAt).
  - split; [reflexivity|]. split; [right; reflexivity|].
    intros uid' user' Hc Hu' Hs'. injection Hc as <-. congruence.
Qed.

Lemma Category_findById_In d id cat :
  Category_findById d id = Some cat ->
  In cat (categories d) /\ cat_id cat = castObjectId id.
Proof.
  intros H. unfold Category_findById in H. apply find_some in H.
  destruct H as [Hin He]. split; [exact Hin|]. apply String.eqb_eq, He.
Qed.

Lemma Category_findByName_In d name cat :
  Category_findByName d name = Some cat ->
  In cat (categories d) /\ categoryNameMatches name (cat_name cat) = true.
Proof. intros H. apply (find_some _ _ H). Qed.


(** X15.  A hand-written ledger entry is all or nothing, and it refers to
    a stored category.  [POST /api/expenses] either refuses (400, or 500
    when [record_id] cannot be cast) and leaves the collections as they
    are, or answers 201 and adds one entry to the ledger: written by the
    caller, with the title and the three estimates of the body, dated as
    the body says or else at the time of the call, and with the identifier
    of a category that is stored.  Unlike the creation of a request, it
    never creates a category. *)
Theorem post_expense_adds_one_entry_or_nothing now user body d :
  (exists code message,
      postExpense now user body d = (Refused code message, d)
      /\ (code = 400%nat \/ code = 500%nat))
  \/ (exists item e cat,
         postExpense now user body d
         = (Sent 201 item,
            set_nextId (S (nextId d))
              (set_expenseEntries (expenseEntries d ++ [e])%list d))
         /\ In cat (categories d)
         /\ ee_category e = Some (cat_id cat)
         /\ ee_created_by e = Some (u_id user)
         /\ ee_title e = eb_title body
         /\ ee_amount_min e = eb_amount_min body
         /\ ee_amount_avg e = eb_amount_avg body
         /\ ee_amount_max e = eb_amount_max body
         /\ ee_actual_amount e = eb_actual_amount body
         /\ ee_date e = match eb_date body with
                        | Some date => date
                        | None => now
                        end).
Proof.
  unfold postExpense.
  destruct (eb_title body) as [[|c s]|]; cbn [truthyString];
    try (left; eexists _, _; split; [reflexivity|left; reflexivity]).
  destruct (eb_amount_min body), (eb_amount_avg body), (eb_amount_max body);
    try (left; eexists _, _; split; [reflexivity|left; reflexivity]).
  destruct (truthyString (eb_category body)) as [category|];
    [|left; eexists _, _; split; [reflexivity|left; reflexivity]].
  match goal with
  | |- context [match ?res with
                | Some _ => _
                | None => (Refused 400 "category not found", d)
                end] =>
      destruct res as [categoryId|] eqn:Hres
  end;
    [|left; eexists _, _; split; [reflexivity|left; reflexivity]].
  destruct (castable (eb_record_id body)); cbn [negb];
    [|left; eexists _, _; split; [reflexivity|right; reflexivity]].
  assert (Hcat : exists cat, In cat (categories d) /\ cat_id cat = categoryId).
  { destruct (ObjectId_isValid category).
    - destruct (Category_findById d category) as [cat|] eqn:Hc;
        [|discriminate].
      injection Hres as <-. exists cat.
      apply (Category_findById_In _ _ _ Hc).
    - destruct (Category_findByName d category) as [cat|] eqn:Hc;
        [|discriminate].
      injection Hres as <-. exists cat.
      split; [apply (Category_findByName_In _ _ _ Hc)|reflexivity]. }
  destruct Hcat as (cat & Hin & Hid).
  right. unfold ExpenseEntry_create. eexists _, _, cat.
  split; [reflexivity|]. cbn. rewrite Hid. repeat split; assumption.
Qed.

Lemma find_fresh_last {A} (f : A -> bool) (l : list A) (x : A) :
  (forall y, In y l -> f y = false) -> f x = true ->
  find f (l ++ [x])%list = Some x.
Proof.
  intros Hl Hx. induction l as [|a l IH]; cbn; [rewrite Hx; reflexivity|].
  rewrite (Hl a (or_introl eq_refl)). apply IH.
  intros y Hy. apply Hl. right. exact Hy.
Qed.

Lemma postExpense_sent now user body d item :
  fst (postExpense now user body d) = Sent 201 item ->
  exists e,
    ee_id e = genObjectId (nextId d)
    /\ expenseEntries (snd (postExpense now user body d))
       = (expenseEntries d ++ [e])%list
    /\ item = find (fun x => String.eqb (ee_id x) (ee_id e))
                (expenseEntries d ++ [e])%list
    /\ ee_note e = Some match truthyString (eb_note body) with
                        | Some note => note
                        | None => EmptyString
                        end
    /\ ee_title e = eb_title body
    /\ ee_actual_amount e = eb_actual_amount body
    /\ ee_amount_avg e = eb_amount_avg body
    /\ ee_date e = match eb_date body with
                   | Some date => date
                   | None => now
                   end
    /\ users (snd (postExpense now user body d)) = users d
    /\ personalExpenses (snd (postExpense now user body d))
       = personalExpenses d
    /\ approvals (snd (postExpense now user body d)) = approvals d
    /\ incomeEntries (snd (postExpense now user body d)) = incomeEntries d.
Proof.
  unfold postExpense.
  destruct (eb_title body) as [[|c s]|]; cbn [truthyString];
    try discriminate.
  destruct (eb_amount_min body), (eb_amount_avg body), (eb_amount_max body);
    try discriminate.
  destruct (truthyString (eb_category body)) as [category|];
    [|discriminate].
  match goal with
  | |- context [match ?res with
                | Some _ => _
                | None => (Refused 400 "category not found", d)
                end] =>
      destruct res as [categoryId|]
  end; [|discriminate].
  destruct (castable (eb_record_id body)); cbn [negb]; [|discriminate].
  unfold ExpenseEntry_create. cbn [fst snd].
  intros H. injection H as <-.
  eexists. split; [|split; [reflexivity|]].
  - reflexivity.
  - cbn. repeat split.
Qed.

(** X16.  A ledger entry that was posted can be fetched.  When identifiers
    are fresh and well formed (the generated identifier is valid, is its
    own cast, and belongs to no stored entry), the item that
    [POST /api/expenses] answers with is the new entry, and
    [GET /api/expenses/:id] on its identifier sends it back. *)
Theorem a_posted_expense_can_be_fetched now user body d item :
  ObjectId_isValid (genObjectId (nextId d)) = true ->
  castObjectId (genObjectId (nextId d)) = genObjectId (nextId d) ->
  (forall e, In e (expenseEntries d) -> ee_id e <> genObjectId (nextId d)) ->
  fst (postExpense now user body d) = Sent 201 item ->
  exists e,
    item = Some e
    /\ getExpense (ee_id e) (snd (postExpense now user body d)) = Sent 200 e.
Proof.
  intros Hv Hc Hfresh H.
  destruct (postExpense_sent now user body d item H)
    as (e & Hid & Hl & Hitem & _).
  assert (Hfind : find (fun x => String.eqb (ee_id x) (ee_id e))
                    (expenseEntries d ++ [e])%list = Some e).
  { apply find_fresh_last; [|apply String.eqb_refl].
    intros y Hy. apply String.eqb_neq. rewrite Hid. apply Hfresh, Hy. }
  exists e. split; [congruence|].
  unfold getExpense. rewrite Hid, Hv, Hc, Hl, <- Hid. cbn [negb].
  rewrite Hfind. reflexivity.
Qed.

Lemma mentioned_request_adds_nothing now user id body w pe e :
  findById (db w) id = Some pe ->
  In e (expenseEntries (db w)) ->
  noteMentions (pe_id pe) e = true ->
  expenseEntries (db (snd (approvePersonalExpense now user id body w)))
  = expenseEntries (db w).
Proof.
  intros Hf Hin Hm.
  destruct (approve_cases now user id body w)
    as [(Hw & _)|(pe0 & decision & Hf0 & Hp & _ & Hr)].
  { rewrite Hw. reflexivity. }
  assert (pe0 = pe) by congruence. subst pe0. rewrite Hr.
  pose proof (findById_found_id _ _ _ Hf) as Hid.
  assert (Hfound : findById_oid (db w) (pe_id pe) <> None)
    by (rewrite Hid; unfold findById in Hf; congruence).
  destruct (decide_state now user pe decision (b_comment body)
              (normalizedAmount (b_approved_amount body)) w Hfound)
    as (_ & _ & _ & _ & Hled).
  rewrite Hled. destruct decision; [|reflexivity].
  destruct (_ <=? _)%nat; [|reflexivity].
  destruct (find (noteMentions (pe_id pe)) (expenseEntries (db w))) eqn:Hfind;
    [reflexivity|].
  pose proof (find_none _ _ Hfind e Hin). congruence.
Qed.

(** X17.  A ledger entry posted by hand can stand for a request.  Once
    [POST /api/expenses] has accepted an entry whose note contains the
    identifier of a stored request, whatever the amount and the author of
    the entry, no decision on the request adds to the ledger, the one that
    approves it included: the materialiser takes the entry for the one it
    would write. *)
Theorem a_note_naming_a_request_blocks_its_materialisation
  now0 author entry item now user id body w pe note :
  findById (db w) id = Some pe ->
  eb_note entry = Some note ->
  icontains (pe_id pe) note = true ->
  fst (postExpense now0 author entry (db w)) = Sent 201 item ->
  let w1 := on_db (fun d => snd (postExpense now0 author entry d)) w in
  expenseEntries (db (snd (approvePersonalExpense now user id body w1)))
  = expenseEntries (db w1).
Proof.
  intros Hf Hnote Hm H201 w1.
  destruct (postExpense_sent now0 author entry (db w) item H201)
    as (e & _ & Hl & _ & Hn & _ & _ & _ & _ & _ & Hpe & _).
  apply (mentioned_request_adds_nothing now user id body w1 pe e).
  - unfold findById, findById_oid, w1. rewrite db_on_db, Hpe. exact Hf.
  - unfold w1. rewrite db_on_db, Hl. apply in_or_app. right. left. reflexivity.
  - unfold noteMentions. rewrite Hn, Hnote.
    destruct note; cbn [truthyString]; exact Hm.
Qed.

Lemma postIncome_sent now user body d item :
  fst (postIncome now user body d) = Sent 201 item ->
  snd (postIncome now user body d)
  = set_incomeEntries (incomeEntries d ++ [item])%list d
  /\ ib_amount body = Some (inc_amount item)
  /\ inc_created_by item = Some (u_id user)
  /\ inc_date item = match ib_date body with
                     | Some date => date
                     | None => now
                     end.
Proof.
  unfold postIncome.
  destruct (truthyString (ib_source_name body)); [|discriminate].
  destruct (ib_amount body); [|discriminate].
  cbn [fst snd]. intros H. injection H as <-. cbn. repeat split.
Qed.

(** X18.  An income that was posted shows in the report of what remains.
    On finite stored amounts, and for an income of a finite amount [q]
    that [POST /api/incomes] accepted: in a report whose range contains the
    date of the income, the total income and the remaining amount are
    those of the report before, plus [q]; in a report whose range does not
    contain it nothing changes; in both the totals of expenses stay. *)
Theorem a_posted_income_shows_in_the_report
  now0 user body d item q now from to logs faults :
  finiteAmounts d ->
  fst (postIncome now0 user body d) = Sent 201 item ->
  inc_amount item = Fin q ->
  let w := mkWorld d logs faults in
  let w' := mkWorld (snd (postIncome now0 user body d)) logs faults in
  exists t t',
    getRemaining now from to w = (mkResponse 200 (TotalsOf t), w)
    /\ getRemaining now from to w' = (mkResponse 200 (TotalsOf t'), w')
    /\ totalGlobalExpenses t' = totalGlobalExpenses t
    /\ totalPersonalApproved t' = totalPersonalApproved t
    /\ totalExpenses t' = totalExpenses t
    /\ if in_closed_range (t_start t) (t_end t) (inc_date item)
       then js_equiv (totalIncome t') (js_add (totalIncome t) (Fin q))
            /\ js_equiv (remaining t') (js_add (remaining t) (Fin q))
       else t' = t.
Proof.
  intros Hfin H201 Hq w w'. subst w w'.
  destruct (postIncome_sent now0 user body d item H201) as (-> & _).
  unfold getRemaining. destruct (buildRange now from to) as [start end_].
  cbn [db incomeEntries expenseEntries personalExpenses set_incomeEntries].
  eexists _, _. split; [reflexivity|]. split; [reflexivity|].
  cbn [totalGlobalExpenses totalPersonalApproved totalExpenses totalIncome
         remaining t_start t_end].
  split; [reflexivity|]. split; [reflexivity|]. split; [reflexivity|].
  set (incM := fun i : IncomeEntry => in_closed_range start end_ (inc_date i)).
  change (in_closed_range start end_ (inc_date item)) with (incM item).
  destruct (incM item) eqn:Hin.
  - set (G := totalOr0 (aggregateTotal (expMatch start end_) ledgerAmount
                          (expenseEntries d))).
    set (P := totalOr0 (aggregateTotal (peMatch start end_) personalAmount
                          (personalExpenses d))).
    assert (HG : js_equiv G (Fin (sumOver (expMatch start end_) ledgerAmount
                                    (expenseEntries d)))).
    { apply totalOr0_aggregate. intros x Hx _.
      apply (ledgerAmount_finite d); assumption. }
    assert (HP : js_equiv P (Fin (sumOver (peMatch start end_) personalAmount
                                    (personalExpenses d)))).
    { apply totalOr0_aggregate. intros x Hx _.
      apply (personalAmount_finite d); assumption. }
    assert (HA : js_equiv
                   (totalOr0 (aggregateTotal incM inc_amount (incomeEntries d)))
                   (Fin (sumOver incM inc_amount (incomeEntries d)))).
    { apply totalOr0_aggregate. intros x Hx _. apply Hfin, Hx. }
    assert (HA' : js_equiv
                    (totalOr0 (aggregateTotal incM inc_amount
                                 (incomeEntries d ++ [item])%list))
                    (Fin (sumOver incM inc_amount (incomeEntries d) + q))).
    { eapply js_equiv_trans.
      - apply totalOr0_aggregate. intros x Hx _.
        apply in_app_or in Hx. destruct Hx as [Hx|[<-|[]]];
          [apply Hfin, Hx|rewrite Hq; reflexivity].
      - constructor.
        rewrite (sumOver_insert incM inc_amount (incomeEntries d) [] item Hin).
        rewrite app_nil_r, Hq. reflexivity. }
    destruct (js_equiv_finite _ _ HG) as (g & HGe & Hg).
    destruct (js_equiv_finite _ _ HP) as (p & HPe & Hp).
    destruct (js_equiv_finite _ _ HA) as (a & HAe & Ha).
    destruct (js_equiv_finite _ _ HA') as (a' & HAe' & Ha').
    rewrite HAe, HAe', HGe, HPe.
    destruct (js_equiv_finite _ _ (js_or0_Fin g)) as (g1 & -> & Hg1).
    destruct (js_equiv_finite _ _ (js_or0_Fin p)) as (p1 & -> & Hp1).
    destruct (js_equiv_finite _ _ (js_or0_Fin a)) as (a1 & -> & Ha1).
    destruct (js_equiv_finite _ _ (js_or0_Fin a')) as (a1' & -> & Ha1').
    cbn [js_add].
    destruct (js_equiv_finite _ _ (js_or0_Fin (g1 + p1))) as (e1 & -> & He1).
    cbn [js_sub js_add].
    split; constructor.
    + rewrite Ha', Ha. reflexivity.
    + rewrite Ha1', Ha', Ha1, Ha. ring.
  - rewrite <- (app_nil_r (incomeEntries d)) at 3 4.
    rewrite <- (aggregateTotal_skip incM inc_amount (incomeEntries d) []
                  item Hin).
    reflexivity.
Qed.

(** ** The administration of users *)

Lemma deleteFirst_incl {A} (p : A -> bool) (l : list A) (x : A) :
  In x (deleteFirst p l) -> In x l.
Proof.
  induction l as [|a l IH]; cbn; [tauto|].
  destruct (p a); [tauto|]. intros [H|H]; [left; exact H|right; apply IH, H].
Qed.

Lemma deleteFirst_NoDup {A B} (f : A -> B) (p : A -> bool) (l : list A) :
  NoDup (map f l) -> NoDup (map f (deleteFirst p l)).
Proof.
  induction l as [|a l IH]; cbn; [trivial|].
  intros H. inversion H as [|? ? Hn Hl]; subst.
  destruct (p a); [exact Hl|]. cbn. constructor; [|apply IH, Hl].
  intros Hin. apply Hn. apply in_map_iff in Hin.
  destruct Hin as (x & Hx & Hin). apply in_map_iff. exists x.
  split; [exact Hx|apply (deleteFirst_incl _ _ _ Hin)].
Qed.

Lemma deleteFirst_count {A} (p q : A -> bool) (l : list A) (u : A) :
  find p l = Some u ->
  List.length (filter q l)
  = (List.length (filter q (deleteFirst p l)) + (if q u then 1 else 0))%nat.
Proof.
  induction l as [|a l IH]; cbn; [discriminate|].
  destruct (p a).
  - intros H; injection H as ->. destruct (q u); cbn; lia.
  - intros H. specialize (IH H). cbn. destruct (q a); cbn; lia.
Qed.

Lemma deleteFirst_gone (id : ObjectId) (l : list User) (u : User) :
  NoDup (map u_id l) ->
  In u (deleteFirst (fun x => String.eqb (u_id x) id) l) -> u_id u <> id.
Proof.
  induction l as [|a l IH]; cbn; [tauto|].
  intros H. inversion H as [|? ? Hn Hl]; subst.
  destruct (String.eqb (u_id a) id) eqn:E.
  - apply String.eqb_eq in E. intros Hin Heq. apply Hn.
    apply in_map_iff. exists u. split; [congruence|exact Hin].
  - apply String.eqb_neq in E. intros [<-|Hin]; [exact E|apply IH; assumption].
Qed.

Lemma replace_absent (id : ObjectId) (u' : User) (l : list User) :
  ~ In id (map u_id l) ->
  map (fun x => if String.eqb (u_id x) id then u' else x) l = l.
Proof.
  induction l as [|a l IH]; cbn; [reflexivity|].
  intros H. destruct (String.eqb (u_id a) id) eqn:E.
  - apply String.eqb_eq in E. destruct H. left. exact E.
  - f_equal. apply IH. tauto.
Qed.

Lemma replace_count (q : User -> bool) (id : ObjectId) (u u' : User)
  (l : list User) :
  NoDup (map u_id l) ->
  find (fun x => String.eqb (u_id x) id) l = Some u ->
  (List.length
     (filter q (map (fun x => if String.eqb (u_id x) id then u' else x) l))
   + (if q u then 1 else 0)
   = List.length (filter q l) + (if q u' then 1 else 0))%nat.
Proof.
  induction l as [|a l IH]; cbn; [discriminate|].
  intros H. inversion H as [|? ? Hn Hl]; subst.
  destruct (String.eqb (u_id a) id) eqn:E.
  - intros Hf; injection Hf as ->. apply String.eqb_eq in E.
    rewrite replace_absent by (rewrite <- E; exact Hn).
    destruct (q u), (q u'); cbn; lia.
  - intros Hf. specialize (IH Hl Hf). destruct (q a); cbn; lia.
Qed.

Lemma replace_ids (id : ObjectId) (u' : User) (l : list User) :
  u_id u' = id ->
  map u_id (map (fun x => if String.eqb (u_id x) id then u' else x) l)
  = map u_id l.
Proof.
  intros Hid. rewrite map_map. apply map_ext. intros a.
  destruct (String.eqb (u_id a) id) eqn:E; [|reflexivity].
  apply String.eqb_eq in E. congruence.
Qed.

(** X19.  The administration never removes the last superadmin.  On a
    collection of users with unique identifiers and at least one
    superadmin, whatever user [DELETE /:id] and [PUT /:id] are asked to
    delete or to change, and whatever role the body asks for, identifiers
    are unique and at least one superadmin is left afterwards. *)
Theorem the_last_superadmin_stays id body d :
  usersWellFormed d ->
  usersWellFormed (snd (deleteUser id d))
  /\ usersWellFormed (snd (putUser id body d)).
Proof.
  intros [Hnd Hc]. split.
  - unfold deleteUser. destruct (negb (ObjectId_isValid id)); [split; assumption|].
    destruct (User_findById d (castObjectId id)) as [user|] eqn:Hu;
      [|split; assumption].
    destruct (is_superadmin user && (countSuperadmins d <=? 1)%nat) eqn:Hg;
      [split; assumption|].
    cbn [snd]. split.
    + cbn [users set_users]. apply deleteFirst_NoDup, Hnd.
    + unfold countSuperadmins in *. cbn [users set_users].
      pose proof (deleteFirst_count
                    (fun x => String.eqb (u_id x) (castObjectId id))
                    is_superadmin (users d) user Hu) as Hcount.
      destruct (is_superadmin user); cbn [andb] in Hg; [|lia].
      apply Nat.leb_gt in Hg. lia.
  - unfold putUser. destruct (negb (ObjectId_isValid id)); [split; assumption|].
    destruct (User_findById d (castObjectId id)) as [user|] eqn:Hu;
      [|split; assumption].
    pose proof (User_findById_id _ _ _ Hu) as Hid.
    destruct (_ && _ && _) eqn:Hg; [split; assumption|].
    cbn [snd].
    set (user1 := match ub_display_name body with
                  | Some display_name =>
                      mkUser (u_id user) (u_username user) display_name
                        (u_role user)
                  | None => user
                  end).
    assert (H1 : u_id user1 = u_id user /\ u_role user1 = u_role user)
      by (subst user1; destruct (ub_display_name body); split; reflexivity).
    set (user2 := match ub_role body with
                  | Some role =>
                      if existsb (String.eqb role) allowedRoles
                      then mkUser (u_id user1) (u_username user1)
                             (u_display_name user1) role
                      else user1
                  | None => user1
                  end).
    assert (H2 : u_id user2 = castObjectId id).
    { subst user2. destruct (ub_role body) as [role|];
        [destruct (existsb _ _)|]; cbn; rewrite <- Hid; apply H1. }
    split.
    + cbn [users set_users]. rewrite H2, replace_ids; assumption.
    + unfold countSuperadmins in *. cbn [users set_users]. rewrite H2.
      pose proof (replace_count is_superadmin (castObjectId id) user user2
                    (users d) Hnd Hu) as Hcount.
      destruct (is_superadmin user) eqn:Hsu; [|lia].
      cbn [andb] in Hg.
      destruct (is_superadmin user2) eqn:Hsu2; [lia|].
      assert (Hrole : match truthyString (ub_role body) with
                      | Some role => negb (String.eqb role "superadmin")
                      | None => false
                      end = true).
      { subst user2. unfold is_superadmin in Hsu, Hsu2.
        destruct (ub_role body) as [role|].
        - destruct (existsb (String.eqb role) allowedRoles) eqn:Ha.
          + cbn [u_role] in Hsu2. destruct role as [|c r];
              [cbn in Ha; discriminate|].
            cbn [truthyString]. rewrite Hsu2. reflexivity.
          + destruct H1 as [_ Hr]. rewrite Hr in Hsu2. congruence.
        - destruct H1 as [_ Hr]. rewrite Hr in Hsu2. congruence. }
      rewrite Hrole in Hg. cbn [andb] in Hg. apply Nat.leb_gt in Hg.
      unfold countSuperadmins in Hg. lia.
Qed.

Lemma find_deleteFirst (cid k : ObjectId) (l : list User) :
  NoDup (map u_id l) ->
  find (fun x => String.eqb (u_id x) k)
    (deleteFirst (fun x => String.eqb (u_id x) cid) l)
  = if String.eqb k cid then None
    else find (fun x => String.eqb (u_id x) k) l.
Proof.
  induction l as [|a l IH]; cbn; [destruct (String.eqb k cid); reflexivity|].
  intros H. inversion H as [|? ? Hn Hl]; subst.
  destruct (String.eqb (u_id a) cid) eqn:E.
  - apply String.eqb_eq in E.
    destruct (String.eqb k cid) eqn:Ek.
    + apply String.eqb_eq in Ek. subst k.
      destruct (find _ l) as [u|] eqn:Hf; [|reflexivity].
      apply find_some in Hf. destruct Hf as [Hin Hu].
      apply String.eqb_eq in Hu. destruct Hn. apply in_map_iff.
      exists u. split; [congruence|exact Hin].
    + apply String.eqb_neq in Ek.
      assert (String.eqb (u_id a) k = false) as ->
          by (apply String.eqb_neq; congruence).
      reflexivity.
  - cbn. destruct (String.eqb (u_id a) k) eqn:Ek.
    + apply String.eqb_eq in Ek. apply String.eqb_neq in E.
      assert (String.eqb k cid = false) as ->
          by (apply String.eqb_neq; congruence).
      reflexivity.
    + apply IH, Hl.
Qed.

(** X20.  A deleted administrator no longer counts toward a quorum.  When
    [DELETE /:id] has deleted a user (identifiers being unique), the votes
    stay stored as they are, but the approvers that the quorum test counts
    on any selection of votes are those it counted before, less the
    deleted user. *)
Theorem a_deleted_admin_no_longer_counts id d q :
  NoDup (map u_id (users d)) ->
  fst (deleteUser id d) = Sent 200 true ->
  approvals (snd (deleteUser id d)) = approvals d
  /\ forall x,
       In x (uniqueApprovers (Approval_find_populated q (snd (deleteUser id d))))
       <-> In x (uniqueApprovers (Approval_find_populated q d))
           /\ x <> castObjectId id.
Proof.
  intros Hnd. unfold deleteUser.
  destruct (negb (ObjectId_isValid id)); [discriminate|].
  destruct (User_findById d (castObjectId id)) as [user|]; [|discriminate].
  destruct (_ && _); [discriminate|]. intros _. cbn [snd].
  split; [reflexivity|]. intros x.
  rewrite !uniqueApprovers_In. split.
  - intros (a & u & Hin & Hx). apply populated_In in Hin.
    destruct Hin as (Hin & Hq & Hu). cbn [approvals set_users] in Hin.
    unfold User_findById in Hu. cbn [users set_users] in Hu.
    rewrite (find_deleteFirst _ _ _ Hnd) in Hu.
    destruct (String.eqb (ap_admin_user a) (castObjectId id)) eqn:E;
      [discriminate|].
    apply String.eqb_neq in E. split.
    + exists a, u. split; [|exact Hx]. apply populated_In. tauto.
    + symmetry in Hu. apply (User_findById_id d) in Hu. congruence.
  - intros ((a & u & Hin & Hx) & Hne). apply populated_In in Hin.
    destruct Hin as (Hin & Hq & Hu).
    exists a, u. split; [|exact Hx]. apply populated_In.
    split; [exact Hin|]. split; [exact Hq|].
    unfold User_findById. cbn [users set_users].
    rewrite (find_deleteFirst _ _ _ Hnd).
    symmetry in Hu. pose proof (User_findById_id d _ _ Hu) as Hk.
    assert (String.eqb (ap_admin_user a) (castObjectId id) = false) as ->
        by (apply String.eqb_neq; congruence).
    symmetry. exact Hu.
Qed.

(** ** The categories *)

Lemma ensureCategory_categories d name :
  exists added,
    categories (ensureCategory d name) = (categories d ++ added)%list
    /\ Forall (fun c => cat_name c = name) added.
Proof.
  unfold ensureCategory.
  destruct (Category_findByName d name).
  - exists []. rewrite app_nil_r. split; [reflexivity|constructor].
  - eexists [_]. split; [reflexivity|]. constructor; [reflexivity|constructor].
Qed.

Lemma ensureCategory_keeps d name n :
  Category_findByName d n <> None ->
  Category_findByName (ensureCategory d name) n <> None.
Proof.
  intros H. unfold Category_findByName in *.
  destruct (ensureCategory_categories d name) as (added & -> & _).
  destruct (find _ (categories d)) as [c|] eqn:Hf; [|congruence].
  rewrite (find_app_old _ _ added _ Hf). discriminate.
Qed.

Lemma ensureCategory_present d name :
  categoryNameMatches name name = true ->
  Category_findByName (ensureCategory d name) name <> None.
Proof.
  intros Hm. unfold ensureCategory.
  destruct (Category_findByName d name) eqn:Hf; [congruence|].
  unfold Category_findByName, Category_create. cbn.
  apply find_app_new. exact Hm.
Qed.

Lemma ensureCategory_noop d name :
  Category_findByName d name <> None -> ensureCategory d name = d.
Proof.
  intros H. unfold ensureCategory.
  destruct (Category_findByName d name); [reflexivity|congruence].
Qed.

Lemma ensure_all_keeps names : forall d n,
  Category_findByName d n <> None ->
  Category_findByName (fold_left ensureCategory names d) n <> None.
Proof.
  induction names as [|m names IH]; intros d n H; [exact H|].
  cbn. apply IH, ensureCategory_keeps, H.
Qed.

Lemma ensure_all_present names : forall d n,
  (forall m, In m names -> categoryNameMatches m m = true) ->
  In n names ->
  Category_findByName (fold_left ensureCategory names d) n <> None.
Proof.
  induction names as [|m names IH]; intros d n Hm [].
  - subst m. cbn. apply ensure_all_keeps, ensureCategory_present.
    apply Hm. left. reflexivity.
  - cbn. apply IH; [|assumption]. intros k Hk. apply Hm. right. exact Hk.
Qed.

Lemma ensure_all_noop names : forall d,
  (forall n, In n names -> Category_findByName d n <> None) ->
  fold_left ensureCategory names d = d.
Proof.
  induction names as [|m names IH]; intros d H; [reflexivity|].
  cbn. rewrite ensureCategory_noop by (apply H; left; reflexivity).
  apply IH. intros n Hn. apply H. right. exact Hn.
Qed.

Lemma ensure_all_categories names : forall d,
  exists added,
    categories (fold_left ensureCategory names d)
    = (categories d ++ added)%list
    /\ Forall (fun c => In (cat_name c) names) added.
Proof.
  induction names as [|m names IH]; intros d.
  - exists []. rewrite app_nil_r. split; [reflexivity|constructor].
  - cbn [fold_left]. destruct (IH (ensureCategory d m)) as (l2 & -> & H2).
    destruct (ensureCategory_categories d m) as (l1 & -> & H1).
    exists (l1 ++ l2)%list. rewrite app_assoc. split; [reflexivity|].
    apply Forall_app. split.
    + eapply Forall_impl; [|exact H1]. intros c <-. left. reflexivity.
    + eapply Forall_impl; [|exact H2]. intros c Hc. right. exact Hc.
Qed.

(** X21.  Listing the categories seeds the defaults, once.  When the
    case-insensitive search matches each default name with itself,
    [GET /api/expense-categories] leaves every default name borne by a
    stored category; what it adds comes after the stored categories and
    bears default names; it sends all the categories it leaves; and a
    second call writes nothing and sends the same list. *)
Theorem default_categories_are_seeded_once d :
  (forall n, In n defaultCategories -> categoryNameMatches n n = true) ->
  let r := getExpenseCategories d in
  (forall n, In n defaultCategories -> Category_findByName (snd r) n <> None)
  /\ (exists added,
         categories (snd r) = (categories d ++ added)%list
         /\ Forall (fun c => In (cat_name c) defaultCategories) added)
  /\ (exists items,
         fst r = Sent 200 items /\ Permutation items (categories (snd r))
         /\ Sorted (fun a b => nameOrder a b = true) items)
  /\ getExpenseCategories (snd r) = r.
Proof.
  intros Hm r. subst r. unfold getExpenseCategories. cbn [fst snd].
  assert (Hall : forall n, In n defaultCategories ->
                   Category_findByName
                     (fold_left ensureCategory defaultCategories d) n <> None)
    by (intros n Hn; apply ensure_all_present; assumption).
  split; [exact Hall|]. split; [apply ensure_all_categories|]. split.
  - eexists. split; [reflexivity|]. split; [apply sortBy_perm|].
    apply sortBy_sorted. intros a b. unfold nameOrder.
    rewrite (String.compare_antisym (cat_name a) (cat_name b)).
    destruct (String.compare (cat_name b) (cat_name a)); cbn; congruence.
  - rewrite (ensure_all_noop _ _ Hall). reflexivity.
Qed.

(** ** The guards of the writing routes *)

Lemma guarded_route {A} (allowed : list string) (c : Credentials)
  (d : Database) (next : User -> Answer A * Database) :
  (forall user, c = TokenFor (u_id user) -> In user (users d) ->
                existsb (String.eqb (u_role user)) allowed = false) ->
  exists code message,
    authenticated c d (fun user => permitted allowed user d (next user))
    = (Refused code message, d)
    /\ (code = 401%nat \/ code = 403%nat).
Proof.
  intros Hrole. unfold authenticated, permitted.
  destruct c as [| |uid];
    try (eexists _, _; split; [reflexivity|left; reflexivity]).
  destruct (User_findById d uid) as [user|] eqn:Hu;
    [|eexists _, _; split; [reflexivity|left; reflexivity]].
  rewrite (Hrole user).
  - eexists _, _. split; [reflexivity|right; reflexivity].
  - f_equal. symmetry. apply (User_findById_id _ _ _ Hu).
  - apply (find_some_In _ _ _ Hu).
Qed.

(** X22.  The writing routes outside the life cycle are closed to callers
    without the role they ask for.  A caller whose token is not that of a
    stored superadmin can post no income, delete no user and change no
    user; a caller whose token is not that of a stored superadmin, adminA
    or adminB can post no ledger entry: each of the four routes then
    refuses with 401 or 403 and leaves the collections as they are. *)
Theorem writes_are_closed_to_other_roles now c d income entry id body :
  ((forall user, c = TokenFor (u_id user) -> In user (users d) ->
                 is_superadmin user = false) ->
   (exists code message,
       route_postIncome now c income d = (Refused code message, d)
       /\ (code = 401%nat \/ code = 403%nat))
   /\ (exists code message,
          route_deleteUser c id d = (Refused code message, d)
          /\ (code = 401%nat \/ code = 403%nat))
   /\ (exists code message,
          route_putUser c id body d = (Refused code message, d)
          /\ (code = 401%nat \/ code = 403%nat)))
  /\ ((forall user, c = TokenFor (u_id user) -> In user (users d) ->
                    is_staff user = false) ->
      exists code message,
        route_postExpense now c entry d = (Refused code message, d)
        /\ (code = 401%nat \/ code = 403%nat)).
Proof.
  split.
  - intros Hrole.
    assert (H : forall user, c = TokenFor (u_id user) -> In user (users d) ->
                  existsb (String.eqb (u_role user)) ["superadmin"] = false).
    { intros user Hc Hin. specialize (Hrole user Hc Hin).
      unfold is_superadmin in Hrole. cbn [existsb]. rewrite Hrole.
      reflexivity. }
    repeat split; apply guarded_route; exact H.
  - intros Hrole. apply guarded_route.
    intros user Hc Hin. specialize (Hrole user Hc Hin).
    unfold is_staff in Hrole. cbn [existsb] in *.
    destruct (String.eqb (u_role user) "adminA"),
      (String.eqb (u_role user) "adminB"),
      (String.eqb (u_role user) "superadmin"); cbn in *; congruence.
Qed.

(** ** The report of approved requests *)


(** ** The CSV format *)

Lemma string_app_assoc (a b c : string) :
  ((a ++ b) ++ c = a ++ (b ++ c))%string.
Proof. induction a as [|x a IH]; cbn; [reflexivity|rewrite IH; reflexivity]. Qed.

Lemma string_app_nil_r (a : string) : (a ++ EmptyString = a)%string.
Proof. induction a as [|x a IH]; cbn; [reflexivity|rewrite IH; reflexivity]. Qed.

Lemma readRow_quoted (s : string) : forall read rest,
  readRow (InQuoted read) (doubleQuotes s ++ String "034" rest)
  = readRow (AfterQuote (read ++ s)) rest.
Proof.
  induction s as [|c r IH]; intros read rest.
  - cbn. rewrite string_app_nil_r. reflexivity.
  - cbn [doubleQuotes]. destruct (Ascii.eqb c "034") eqn:E.
    + cbn [append readRow]. rewrite E. rewrite IH, string_app_assoc.
      reflexivity.
    + cbn [append readRow]. rewrite E. rewrite IH, string_app_assoc.
      reflexivity.
Qed.

Lemma readRow_cell (c : option string) (rest : string) :
  readRow CellStart (esc c ++ rest)
  = match c with
    | None => readRow CellStart rest
    | Some s => readRow (AfterQuote s) rest
    end.
Proof.
  destruct c as [s|]; [|reflexivity].
  unfold esc. cbn [append readRow Ascii.eqb]. cbn.
  rewrite string_app_assoc. cbn [append]. apply readRow_quoted.
Qed.

Lemma readRow_csvRow (c : option string) (cells : list (option string)) :
  readRow CellStart (csvRow (c :: cells)) = Some (c :: cells).
Proof.
  revert c. induction cells as [|c2 cells IH]; intros c.
  - unfold csvRow. cbn [map String.concat].
    rewrite <- (string_app_nil_r (esc c)), readRow_cell.
    destruct c; reflexivity.
  - specialize (IH c2). unfold csvRow in *. cbn [map] in *.
    change (String.concat "," (esc c :: esc c2 :: map esc cells))
      with (esc c ++ String "," (String.concat "," (esc c2 :: map esc cells)))%string.
    rewrite readRow_cell.
    destruct c as [s|]; cbn [readRow]; cbn [Ascii.eqb Bool.eqb];
      rewrite IH; reflexivity.
Qed.

(** X24.  The rows of the CSV report are unambiguous: two rows of as many
    cells that are written the same hold the same cells, whatever commas,
    quotes and line breaks the values contain, and an empty cell (null or
    undefined) is not confused with the empty string.  The row is read
    back cell by cell by a reader that takes a doubled quote inside quotes
    for a quote. *)
Theorem csv_rows_are_unambiguous (a b : list (option string)) :
  List.length a = List.length b ->
  csvRow a = csvRow b ->
  a = b.
Proof.
  intros Hlen Hrow.
  destruct a as [|ca a], b as [|cb b]; try discriminate; [reflexivity|].
  pose proof (readRow_csvRow ca a) as Ha.
  rewrite Hrow, readRow_csvRow in Ha. congruence.
Qed.

(** ** Notifications *)

Lemma primary_notify n d : primary (notify n d) = primary d.
Proof.
  unfold notify. destruct (notificationFaults d) as [|[|] rest]; reflexivity.
Qed.

Lemma primary_eq d d' :
  primary d = primary d' <->
  users d = users d' /\ categories d = categories d'
  /\ personalExpenses d = personalExpenses d' /\ approvals d = approvals d'
  /\ expenseEntries d = expenseEntries d' /\ incomeEntries d = incomeEntries d'
  /\ nextId d = nextId d'.
Proof.
  unfold primary. split.
  - intros H. injection H as -> -> -> -> -> -> ->. repeat split.
  - intros (-> & -> & -> & -> & -> & -> & ->). reflexivity.
Qed.

Lemma primary_notifyAdmins user pe admins : forall w,
  primary (db (notifyAdmins user pe admins w)) = primary (db w).
Proof.
  induction admins as [|a admins IH]; intros w; [reflexivity|].
  rewrite notifyAdmins_cons, IH, db_createAudit, db_on_db.
  apply primary_notify.
Qed.

Lemma cancel_primary now user id w :
  fst (cancelPersonalExpense now user id (on_db primary w))
  = fst (cancelPersonalExpense now user id w)
  /\ primary (db (snd (cancelPersonalExpense now user id (on_db primary w))))
     = primary (db (snd (cancelPersonalExpense now user id w))).
Proof.
  unfold cancelPersonalExpense, findById, findById_oid.
  cbn [db on_db primary personalExpenses].
  destruct (negb (isValidObjectId id)); [split; reflexivity|].
  destruct (find _ _) as [pe|]; [|split; reflexivity].
  destruct (negb _); [split; reflexivity|].
  destruct (existsb _ _); [split; reflexivity|].
  rewrite !save_eq. cbn [fst snd]. rewrite !db_createAudit, !db_on_db.
  split; reflexivity.
Qed.

Lemma edit_primary now user id body w :
  fst (putPersonalExpense now user id body (on_db primary w))
  = fst (putPersonalExpense now user id body w)
  /\ primary (db (snd (putPersonalExpense now user id body (on_db primary w))))
     = primary (db (snd (putPersonalExpense now user id body w))).
Proof.
  unfold putPersonalExpense, findById, findById_oid.
  cbn [db on_db primary personalExpenses].
  destruct (negb (isValidObjectId id)); [split; reflexivity|].
  destruct (find _ _) as [pe|]; [|split; reflexivity].
  destruct (negb _); [split; reflexivity|].
  destruct (negb _); [split; reflexivity|].
  rewrite !save_eq. cbn [fst snd]. rewrite !db_createAudit, !db_on_db.
  split; reflexivity.
Qed.

Lemma create_primary now user body w :
  fst (postPersonalExpense now user body (on_db primary w))
  = fst (postPersonalExpense now user body w)
  /\ primary (db (snd (postPersonalExpense now user body (on_db primary w))))
     = primary (db (snd (postPersonalExpense now user body w))).
Proof.
  unfold postPersonalExpense.
  destruct (b_title body) as [[|c s]|]; try (split; reflexivity).
  destruct (b_amount_min body), (b_amount_avg body), (b_amount_max body);
    try (split; reflexivity).
  unfold resolveCategory, Category_findById, Category_findByName,
    Category_create, PersonalExpense_create.
  cbn [db on_db primary categories nextId].
  destruct (b_category body) as [[|c0 s0]|].
  - cbn [fst snd]. rewrite !db_createAudit, !db_on_db. split; reflexivity.
  - destruct (ObjectId_isValid (String c0 s0)).
    + destruct (find _ _); [|split; reflexivity].
      cbn [fst snd]. rewrite !db_createAudit, !db_on_db. split; reflexivity.
    + destruct (find _ _);
        cbn [fst snd]; rewrite !db_createAudit, !db_on_db; split; reflexivity.
  - cbn [fst snd]. rewrite !db_createAudit, !db_on_db. split; reflexivity.
Qed.

Lemma submit_primary now user id w :
  fst (submitPersonalExpense now user id (on_db primary w))
  = fst (submitPersonalExpense now user id w)
  /\ primary (db (snd (submitPersonalExpense now user id (on_db primary w))))
     = primary (db (snd (submitPersonalExpense now user id w))).
Proof.
  unfold submitPersonalExpense, findById, findById_oid.
  cbn [db on_db primary personalExpenses].
  destruct (negb (isValidObjectId id)); [split; reflexivity|].
  destruct (find _ _) as [pe|]; [|split; reflexivity].
  destruct (negb _); [split; reflexivity|].
  destruct (negb _); [split; reflexivity|].
  rewrite !save_eq. cbn [fst snd].
  assert (Hpe : forall u p a w1,
             personalExpenses (db (notifyAdmins u p a w1))
             = personalExpenses (db w1))
    by (intros; apply notifyAdmins_frame).
  rewrite !primary_notifyAdmins, !Hpe, !db_createAudit, !db_on_db.
  split; reflexivity.
Qed.

Lemma materialize_primary now user pe final w w' :
  primary (db w) = primary (db w') ->
  primary (db (materialize now user pe final w))
  = primary (db (materialize now user pe final w')).
Proof.
  intros H. pose proof (proj1 (primary_eq _ _) H)
    as (Hu & Hc & Hpe & Ha & He & Hi & Hn).
  unfold materialize, ExpenseEntry_create. rewrite <- He, <- Hn.
  destruct (find _ _); [exact H|].
  rewrite !db_createAudit, !db_on_db. apply primary_eq. cbn.
  rewrite Hu, Hc, Hpe, Ha, He, Hi. repeat split.
Qed.

Lemma save_primary now pe d d' :
  primary d = primary d' ->
  primary (fst (save now pe d)) = primary (fst (save now pe d')).
Proof.
  intros H. pose proof (proj1 (primary_eq _ _) H)
    as (Hu & Hc & Hpe & Ha & He & Hi & Hn).
  rewrite !save_eq. apply primary_eq. cbn.
  rewrite Hu, Hc, Hpe, Ha, He, Hi, Hn. repeat split.
Qed.

Lemma approveRequest_primary now user pe approval w w' :
  primary (db w) = primary (db w') ->
  fst (approveRequest now user pe approval w)
  = fst (approveRequest now user pe approval w')
  /\ primary (db (snd (approveRequest now user pe approval w)))
     = primary (db (snd (approveRequest now user pe approval w'))).
Proof.
  intros H. pose proof (proj1 (primary_eq _ _) H)
    as (Hu & Hc & Hpe & Ha & He & Hi & Hn).
  unfold approveRequest, Approval_find_populated, User_findById.
  rewrite <- Hu, <- Ha. rewrite !save_eq.
  destruct (_ <=? _)%nat.
  - rewrite ?save_eq. cbn [fst snd]. split; [reflexivity|].
    apply materialize_primary.
    rewrite !db_createAudit, !db_on_db, !primary_notify, !db_createAudit,
      !db_on_db.
    apply primary_eq. cbn. rewrite Hu, Hc, Hpe, Ha, He, Hi, Hn. repeat split.
  - cbn [fst snd]. split; [reflexivity|].
    rewrite !db_on_db. apply primary_eq. cbn.
    rewrite Hu, Hc, Hpe, Ha, He, Hi, Hn. repeat split.
Qed.

Lemma rejectRequest_primary now user pe approval comment w w' :
  primary (db w) = primary (db w') ->
  fst (rejectRequest now user pe approval comment w)
  = fst (rejectRequest now user pe approval comment w')
  /\ primary (db (snd (rejectRequest now user pe approval comment w)))
     = primary (db (snd (rejectRequest now user pe approval comment w'))).
Proof.
  intros H. pose proof (proj1 (primary_eq _ _) H)
    as (Hu & Hc & Hpe & Ha & He & Hi & Hn).
  unfold rejectRequest, countApprove. rewrite <- Ha. rewrite !save_eq.
  cbn [fst snd]. split; [reflexivity|].
  rewrite !db_createAudit, !db_on_db, !primary_notify, !db_createAudit,
    !db_on_db.
  apply primary_eq. cbn. repeat split; congruence.
Qed.

Lemma decide_primary now user id body w :
  fst (approvePersonalExpense now user id body (on_db primary w))
  = fst (approvePersonalExpense now user id body w)
  /\ primary
       (db (snd (approvePersonalExpense now user id body (on_db primary w))))
     = primary (db (snd (approvePersonalExpense now user id body w))).
Proof.
  unfold approvePersonalExpense, findById, findById_oid.
  cbn [db on_db primary personalExpenses].
  destruct (negb (isValidObjectId id)); [split; reflexivity|].
  destruct (parseDecision (b_decision body)) as [decision|];
    [|split; reflexivity].
  destruct (_ && _); [split; reflexivity|].
  destruct (_ && _); [split; reflexivity|].
  destruct (find _ _) as [pe|]; [|split; reflexivity].
  destruct (negb _); [split; reflexivity|].
  unfold decide, recordApproval, Approval_create, Approval_findOneAndUpdate.
  cbn [db on_db primary approvals ap_personal_expense ap_admin_user].
  destruct (existsb _ _).
  - destruct (updateFirst _ _ _) as [rows found].
    destruct decision;
      [apply approveRequest_primary | apply rejectRequest_primary];
      rewrite !db_createAudit, !db_on_db; reflexivity.
  - destruct decision;
      [apply approveRequest_primary | apply rejectRequest_primary];
      rewrite !db_createAudit, !db_on_db; reflexivity.
Qed.

Lemma run_primary now c op w :
  fst (run now c op (on_db primary w)) = fst (run now c op w)
  /\ primary (db (snd (run now c op (on_db primary w))))
     = primary (db (snd (run now c op w))).
Proof.
  destruct c as [| |uid]; [destruct op; split; reflexivity..|].
  destruct op as [body|rid body|rid|rid body|rid];
    unfold run, route_create, route_edit, route_submit, route_decide,
      route_cancel, authenticateToken, permit, User_findById;
    cbn [db on_db primary users];
    (destruct (find _ (users (db w))) as [user|]; [|split; reflexivity]).
  - apply create_primary.
  - apply edit_primary.
  - apply submit_primary.
  - destruct (existsb _ _); [apply decide_primary|split; reflexivity].
  - apply cancel_primary.
Qed.

(** X25.  A failing notification write goes no further than the
    notification: the answer of create, edit, submit, decide and cancel,
    and the collections they leave but for the notifications, are the same
    whatever notifications are stored and whichever notification writes
    fail. *)
Theorem notification_failures_do_not_propagate now c op w notes faults :
  let w' :=
    on_db (fun d => set_notificationFaults faults (set_notifications notes d))
      w in
  fst (run now c op w') = fst (run now c op w)
  /\ primary (db (snd (run now c op w'))) = primary (db (snd (run now c op w))).
Proof.
  intros w'.
  destruct (run_primary now c op w) as [H1 H2].
  destruct (run_primary now c op w') as [H1' H2'].
  assert (Hw : on_db primary w' = on_db primary w) by reflexivity.
  rewrite Hw in H1', H2'. split; congruence.
Qed.

(** X26.  A ledger entry posted by hand shows in the report of what
    remains, unless it is tagged as coming from a request.  On finite
    stored amounts, for an entry that [POST /api/expenses] accepted and
    whose amount (the actual amount, or else the average estimate) is a
    finite [q]: when the range of the report contains its date and neither
    its title begins with the tag [Personal] nor its note contains the
    words of the materialiser, the ledger total and the total of expenses
    are those of the report before plus [q], and the remaining amount is
    the one before less [q]; otherwise the report does not change.  The
    income and the total of approved requests stay in both cases. *)
Theorem a_posted_expense_shows_in_the_report_unless_tagged
  now0 user entry d item q now from to logs faults :
  finiteAmounts d ->
  fst (postExpense now0 user entry d) = Sent 201 item ->
  match eb_actual_amount entry, eb_amount_avg entry with
  | Some v, _ => v
  | None, Some a => a
  | None, None => Fin 0
  end = Fin q ->
  let w := mkWorld d logs faults in
  let w' := mkWorld (snd (postExpense now0 user entry d)) logs faults in
  exists e t t',
    expenseEntries (db w') = (expenseEntries d ++ [e])%list
    /\ ee_title e = eb_title entry
    /\ ee_date e = match eb_date entry with
                   | Some date => date
                   | None => now0
                   end
    /\ getRemaining now from to w = (mkResponse 200 (TotalsOf t), w)
    /\ getRemaining now from to w' = (mkResponse 200 (TotalsOf t'), w')
    /\ totalIncome t' = totalIncome t
    /\ totalPersonalApproved t' = totalPersonalApproved t
    /\ if in_closed_range (t_start t) (t_end t) (ee_date e)
          && negb (personalDerived e)
       then js_equiv (totalGlobalExpenses t')
              (js_add (totalGlobalExpenses t) (Fin q))
            /\ js_equiv (totalExpenses t') (js_add (totalExpenses t) (Fin q))
            /\ js_equiv (remaining t') (js_sub (remaining t) (Fin q))
       else t' = t.
Proof.
  intros Hfin H201 Hq w w'. subst w w'.
  destruct (postExpense_sent now0 user entry d item H201)
    as (e & _ & Hl & _ & _ & Htitle & Hact & Havg & Hdate & _ & Hpe & _ & Hinc).
  assert (Hamount : ledgerAmount e = Fin q).
  { unfold ledgerAmount. rewrite Hact, Havg.
    destruct (eb_actual_amount entry), (eb_amount_avg entry); exact Hq. }
  exists e. unfold getRemaining.
  destruct (buildRange now from to) as [start end_].
  cbn [db]. rewrite Hl, Hpe, Hinc.
  eexists _, _. split; [reflexivity|]. split; [exact Htitle|].
  split; [exact Hdate|]. split; [reflexivity|]. split; [reflexivity|].
  cbn [totalGlobalExpenses totalPersonalApproved totalExpenses totalIncome
         remaining t_start t_end].
  split; [reflexivity|]. split; [reflexivity|].
  rewrite <- expMatch_spec.
  destruct (expMatch start end_ e) eqn:Hin.
  - set (A := totalOr0 (aggregateTotal
                          (fun i => in_closed_range start end_ (inc_date i))
                          inc_amount (incomeEntries d))).
    set (P := totalOr0 (aggregateTotal (peMatch start end_) personalAmount
                          (personalExpenses d))).
    assert (HA : js_equiv A
                   (Fin (sumOver
                           (fun i => in_closed_range start end_ (inc_date i))
                           inc_amount (incomeEntries d)))).
    { apply totalOr0_aggregate. intros x Hx _. apply Hfin, Hx. }
    assert (HP : js_equiv P (Fin (sumOver (peMatch start end_) personalAmount
                                    (personalExpenses d)))).
    { apply totalOr0_aggregate. intros x Hx _.
      apply (personalAmount_finite d); assumption. }
    assert (HG : js_equiv
                   (totalOr0 (aggregateTotal (expMatch start end_) ledgerAmount
                                (expenseEntries d)))
                   (Fin (sumOver (expMatch start end_) ledgerAmount
                           (expenseEntries d)))).
    { apply totalOr0_aggregate. intros x Hx _.
      apply (ledgerAmount_finite d); assumption. }
    assert (HG' : js_equiv
                    (totalOr0 (aggregateTotal (expMatch start end_)
                                 ledgerAmount (expenseEntries d ++ [e])%list))
                    (Fin (sumOver (expMatch start end_) ledgerAmount
                            (expenseEntries d) + q))).
    { eapply js_equiv_trans.
      - apply totalOr0_aggregate. intros x Hx _.
        apply in_app_or in Hx. destruct Hx as [Hx|[<-|[]]];
          [apply (ledgerAmount_finite d); assumption
          |rewrite Hamount; reflexivity].
      - constructor.
        rewrite (sumOver_insert (expMatch start end_) ledgerAmount
                   (expenseEntries d) [] e Hin).
        rewrite app_nil_r, Hamount. reflexivity. }
    destruct (js_equiv_finite _ _ HG) as (g & HGe & Hg).
    destruct (js_equiv_finite _ _ HG') as (g' & HGe' & Hg').
    destruct (js_equiv_finite _ _ HP) as (p & HPe & Hp).
    destruct (js_equiv_finite _ _ HA) as (a & HAe & Ha).
    rewrite HAe, HGe, HGe', HPe.
    destruct (js_equiv_finite _ _ (js_or0_Fin g)) as (g1 & -> & Hg1).
    destruct (js_equiv_finite _ _ (js_or0_Fin g')) as (g1' & -> & Hg1').
    destruct (js_equiv_finite _ _ (js_or0_Fin p)) as (p1 & -> & Hp1).
    destruct (js_equiv_finite _ _ (js_or0_Fin a)) as (a1 & -> & Ha1).
    cbn [js_add].
    destruct (js_equiv_finite _ _ (js_or0_Fin (g1 + p1))) as (e1 & -> & He1).
    destruct (js_equiv_finite _ _ (js_or0_Fin (g1' + p1)))
      as (e1' & -> & He1').
    cbn [js_sub js_add].
    split; [|split]; constructor.
    + rewrite Hg', Hg. reflexivity.
    + rewrite Hg1', Hg', Hg1, Hg. ring.
    + rewrite He1', Hg1', Hg', He1, Hg1, Hg. ring.
  - pose proof (aggregateTotal_skip (expMatch start end_) ledgerAmount
                  (expenseEntries d) [] e Hin) as Hskip.
    rewrite app_nil_r in Hskip. rewrite Hskip. reflexivity.
Qed.
End MoreProperties.

(** * Examples on the sample world *)




(** A missing amount is refused; a veto needs none. *)
Lemma approve_requires_amount_example :
  @isValidObjectId sampleRuntime idRequest = true
  /\ snd (@approvePersonalExpense sampleRuntime sampleNow adminA idRequest
            (approveBody JNull) (sampleWorld pending []))
     = sampleWorld pending []
  /\ errorKind
       (fst (@approvePersonalExpense sampleRuntime sampleNow adminA idRequest
               (approveBody (JStr "abc")) (sampleWorld pending [])))
     = Some ValidationError
  /\ res_status
       (fst (@approvePersonalExpense sampleRuntime sampleNow adminA idRequest
               rejectBody (sampleWorld pending [])))
     = 200%nat.
Proof.
  assert (H : @isValidObjectId sampleRuntime idRequest = true) by reflexivity.
  split; [exact H|].
  destruct (@approve_requires_amount sampleRuntime sampleNow adminA idRequest
              (approveBody JNull) (sampleWorld pending []) H) as (Hnull & _).
  destruct (@approve_requires_amount sampleRuntime sampleNow adminA idRequest
              (approveBody (JStr "abc")) (sampleWorld pending []) H)
    as (Hnan & _).
  destruct (@approve_requires_amount sampleRuntime sampleNow adminA idRequest
              rejectBody (sampleWorld pending []) H) as (_ & Hreject).
  split; [apply (Hnull eq_refl); left; reflexivity|].
  split; [apply (Hnan eq_refl); right; reflexivity|].
  apply (Hreject (sampleRequest pending)); reflexivity.
Defined.

(** C6, the claim as stated fails: an amount that is not finite is not
    refused.  The JSON number [1e999] reads as [Infinity], which is not
    [NaN]: the approval is recorded with that amount.  And on a malformed
    identifier a missing amount is answered 404, the identifier being
    tested first. *)
Lemma infinite_amount_is_accepted :
  Number_isFinite (@ToNumber sampleRuntime (JNum PosInf)) = false
  /\ @approvePersonalExpense sampleRuntime sampleNow adminA "nope"
       (approveBody JUndefined) (sampleWorld pending [])
     = (fail 404 "not found", sampleWorld pending [])
  /\ res_status
       (fst (@approvePersonalExpense sampleRuntime sampleNow adminA idRequest
               (approveBody (JNum PosInf)) (sampleWorld pending [])))
     = 200%nat
  /\ errorKind
       (fst (@approvePersonalExpense sampleRuntime sampleNow adminA idRequest
               (approveBody (JNum PosInf)) (sampleWorld pending [])))
     = None
  /\ approvals
       (db (snd (@approvePersonalExpense sampleRuntime sampleNow adminA
                   idRequest (approveBody (JNum PosInf))
                   (sampleWorld pending []))))
     = [mkApproval idRequest idAdminA approve (Some "ok") sampleNow
          (Some PosInf)].
Proof. repeat split; reflexivity. Qed.





(** The monthly balance of the sample month counts the 300 twice. *)
Lemma monthly_balance_counts_twice_example :
  (expenseEntries reportDb = ([] ++ materialisedEntry :: [])%list
   /\ personalExpenses reportDb = ([] ++ approvedRequest :: [])%list
   /\ @in_half_open_range
        (m_start (@computeMonthlyTotals sampleRuntime sampleNow None reportDb))
        (m_end (@computeMonthlyTotals sampleRuntime sampleNow None reportDb))
        (ee_date materialisedEntry) = true)
  /\ js_equiv
       (m_totalExpenses
          (@computeMonthlyTotals sampleRuntime sampleNow None reportDb))
       (js_add
          (m_totalExpenses
             (@computeMonthlyTotals sampleRuntime sampleNow None
                (set_personalExpenses []
                   (set_expenseEntries [] reportDb))))
          (Fin (300 + 300)))
  /\ m_totalExpenses
       (@computeMonthlyTotals sampleRuntime sampleNow None reportDb)
     = Fin 600.
Proof.
  split; [repeat split; reflexivity|].
  split; [|reflexivity].
  assert (He : forall x v, In x (expenseEntries reportDb) ->
                           ee_actual_amount x = Some v ->
                           Number_isFinite v = true).
  { intros x v [<-|[]] Hv. injection Hv as <-. reflexivity. }
  assert (Hp : forall x v, In x (personalExpenses reportDb) ->
                           pe_approved_amount x = Some v ->
                           Number_isFinite v = true).
  { intros x v [<-|[]] Hv. injection Hv as <-. reflexivity. }
  destruct (@monthly_balance_counts_twice sampleRuntime sampleNow None reportDb
              [] materialisedEntry [] [] approvedRequest [] 300%Q sampleNow
              eq_refl eq_refl He Hp eq_refl eq_refl eq_refl eq_refl eq_refl
              eq_refl eq_refl) as (_ & _ & _ & Htotal & _).
  exact Htotal.
Defined.




(** The submission of the draft with every audit write failing: the same
    answer and the same collections as with none failing. *)
Lemma audit_failures_do_not_propagate_example :
  fst (@run sampleRuntime sampleNow (TokenFor idAlice) (OpSubmit idRequest)
         (mkWorld (sampleDb draft []) [] [true; true; true; true]))
  = fst (@run sampleRuntime sampleNow (TokenFor idAlice) (OpSubmit idRequest)
           (sampleWorld draft []))
  /\ db (snd (@run sampleRuntime sampleNow (TokenFor idAlice)
                (OpSubmit idRequest)
                (mkWorld (sampleDb draft []) [] [true; true; true; true])))
     = db (snd (@run sampleRuntime sampleNow (TokenFor idAlice)
                  (OpSubmit idRequest) (sampleWorld draft []))).
Proof.
  destruct (@audit_failures_do_not_propagate sampleRuntime) as (_ & _ & H).
  apply (H sampleNow (TokenFor idAlice) (OpSubmit idRequest)
           (sampleWorld draft []) [] [true; true; true; true]).
Defined.

(** * Examples for the further properties *)

(** The owner submits the sample draft. *)
Lemma request_life_cycle_example :
  findById_oid (db (sampleWorld draft [])) idRequest
  = Some (sampleRequest draft)
  /\ exists pe',
       findById_oid
         (db (snd (@run sampleRuntime sampleNow (TokenFor idAlice)
                     (OpSubmit idRequest) (sampleWorld draft []))))
         idRequest = Some pe'
       /\ (pe' = sampleRequest draft
           \/ updatedRequest (sampleRequest draft) pe').
Proof.
  split; [reflexivity|].
  apply (@request_life_cycle sampleRuntime sampleNow (TokenFor idAlice)
           (OpSubmit idRequest) (sampleWorld draft []) idRequest
           (sampleRequest draft)).
  reflexivity.
Defined.

(** A decision and a cancellation on a rejected request. *)
Lemma terminal_requests_are_frozen_example :
  findById_oid
    (db (@runs sampleRuntime
           [(sampleNow, TokenFor idAdminA,
             OpDecide idRequest (approveBody (JNum (Fin 100))));
            (sampleNow, TokenFor idAlice, OpCancel idRequest)]
           (sampleWorld rejected [])))
    idRequest
  = Some (sampleRequest rejected).
Proof.
  apply (@terminal_requests_are_frozen sampleRuntime).
  - reflexivity.
  - right; left; reflexivity.
Defined.

(** The sample request through submission and two approvals. *)
Lemma approval_recorded_invariant_example :
  Forall approvalRecorded
    (personalExpenses
       (db (@runs sampleRuntime
              [(sampleNow, TokenFor idAlice, OpSubmit idRequest);
               (sampleNow, TokenFor idAdminA,
                OpDecide idRequest (approveBody (JNum (Fin 100))));
               (sampleNow, TokenFor idAdminB,
                OpDecide idRequest (approveBody (JNum (Fin 100))))]
              (sampleWorld draft [])))).
Proof.
  apply (@approval_recorded_invariant sampleRuntime).
  constructor; [|constructor].
  split; [discriminate|]. intros _. split; reflexivity.
Defined.

(** Bob tries to cancel the request of Alice. *)
Lemma only_the_owner_edits_submits_cancels_example :
  snd (@run sampleRuntime sampleNow (TokenFor idBob) (OpCancel idRequest)
         (sampleWorld pending []))
  = sampleWorld pending []
  /\ In (res_status
           (fst (@run sampleRuntime sampleNow (TokenFor idBob)
                   (OpCancel idRequest) (sampleWorld pending []))))
       [401; 403; 404]%nat.
Proof.
  apply (@only_the_owner_edits_submits_cancels sampleRuntime sampleNow
           (TokenFor idBob) (OpCancel idRequest) idRequest
           (sampleWorld pending [])).
  - reflexivity.
  - intros pe H.
    assert (Hpe : pe = sampleRequest pending)
      by (vm_compute in H; injection H as <-; reflexivity).
    rewrite Hpe. discriminate.
Defined.

(** Alice, of role user, tries to approve her own request. *)
Lemma only_admins_decide_example :
  snd (@run sampleRuntime sampleNow (TokenFor idAlice)
         (OpDecide idRequest (approveBody (JNum (Fin 100))))
         (sampleWorld pending []))
  = sampleWorld pending []
  /\ In (res_status
           (fst (@run sampleRuntime sampleNow (TokenFor idAlice)
                   (OpDecide idRequest (approveBody (JNum (Fin 100))))
                   (sampleWorld pending []))))
       [401; 403]%nat.
Proof.
  apply (@only_admins_decide sampleRuntime sampleNow (TokenFor idAlice)
           idRequest (approveBody (JNum (Fin 100))) (sampleWorld pending [])).
  intros user Hc Hin.
  destruct Hin as [<-|[<-|[<-|[<-|[]]]]]; try reflexivity; discriminate.
Defined.

(** Alice submits her draft: Anna and Boris are notified. *)
Lemma submit_notifies_the_admins_example :
  notifications
    (db (snd (@submitPersonalExpense sampleRuntime sampleNow alice idRequest
                (sampleWorld draft []))))
  = [pendingNotice alice (sampleRequest draft) adminA;
     pendingNotice alice (sampleRequest draft) adminB].
Proof.
  apply (@submit_notifies_the_admins sampleRuntime sampleNow alice idRequest
           (sampleWorld draft []) (sampleRequest draft));
    reflexivity.
Defined.


(** The second approval of the sample request. *)
Lemma final_approval_enters_the_ledger_example :
  exists e,
    In e
      (expenseEntries
         (db (snd (@approvePersonalExpense sampleRuntime sampleNow adminB
                     idRequest (approveBody (JNum (Fin 100)))
                     (sampleWorld pending [voteOf idAdminA (Fin 100)])))))
    /\ noteMentions idRequest e = true.
Proof.
  apply (@final_approval_enters_the_ledger sampleRuntime sampleNow adminB
           idRequest (approveBody (JNum (Fin 100)))
           (sampleWorld pending [voteOf idAdminA (Fin 100)])
           (sampleRequest pending) finalRequest).
  - reflexivity.
  - reflexivity.
  - discriminate.
  - reflexivity.
Defined.

(** Bob asks for the votes on the request of Alice. *)
Lemma approvals_are_for_the_owner_and_the_staff_example :
  fst (@getApprovals sampleRuntime bob idRequest
         (sampleWorld pending [voteOf idAdminA (Fin 100)]))
  = fail 403 "forbidden".
Proof.
  apply (@approvals_are_for_the_owner_and_the_staff sampleRuntime bob
           idRequest (sampleWorld pending [voteOf idAdminA (Fin 100)])
           (sampleRequest pending));
    try reflexivity.
  discriminate.
Defined.

(** Alice and Bob both name the category Travel. *)
Lemma a_named_category_is_created_once_example :
  categories
    (db (snd (@postPersonalExpense sampleRuntime sampleNow bob
                (tripBody "Travel")
                (snd (@postPersonalExpense sampleRuntime sampleNow alice
                        (tripBody "Travel") (sampleWorld pending []))))))
  = categories
      (db (snd (@postPersonalExpense sampleRuntime sampleNow alice
                  (tripBody "Travel") (sampleWorld pending [])))).
Proof.
  apply (@a_named_category_is_created_once sampleRuntime sampleNow alice
           (tripBody "Travel") sampleNow bob (tripBody "Travel") "Travel"
           (sampleWorld pending []));
    reflexivity.
Defined.


(** Anna writes the cash entry and fetches it. *)
Lemma a_posted_expense_can_be_fetched_example :
  exists e,
    @getExpense sampleRuntime (ee_id e)
      (snd (@postExpense sampleRuntime sampleNow adminA cashEntry ledgerDb))
    = Sent 200 e.
Proof.
  destruct (@a_posted_expense_can_be_fetched sampleRuntime sampleNow adminA
              cashEntry ledgerDb (Some cashItem)
              eq_refl eq_refl (fun e (H : In e []) => match H with end)
              eq_refl)
    as (e & _ & H).
  exists e. exact H.
Defined.

(** Anna writes the cash entry, whose note names the sample request; Boris
    then gives the second approval. *)
Lemma a_note_naming_a_request_blocks_its_materialisation_example :
  expenseEntries
    (db (snd (@approvePersonalExpense sampleRuntime sampleNow adminB idRequest
                (approveBody (JNum (Fin 100)))
                (on_db (fun d => snd (@postExpense sampleRuntime sampleNow
                                        adminA cashEntry d))
                   (mkWorld ledgerDb [] [])))))
  = [cashItem].
Proof.
  apply (@a_note_naming_a_request_blocks_its_materialisation sampleRuntime
           sampleNow adminA cashEntry (Some cashItem) sampleNow adminB
           idRequest (approveBody (JNum (Fin 100))) (mkWorld ledgerDb [] [])
           (sampleRequest pending)
           "paid in cash, request 5e0000000000000000000001");
    reflexivity.
Defined.

(** The bonus raises the income of the sample month from 1000 to 1500. *)
Lemma a_posted_income_shows_in_the_report_example :
  finiteAmounts reportDb
  /\ exists t t',
       @getRemaining sampleRuntime sampleNow None None reportWorld
       = (mkResponse 200 (TotalsOf t), reportWorld)
       /\ @getRemaining sampleRuntime sampleNow None None
            (mkWorld (snd (postIncome sampleNow adminA bonusBody reportDb))
               [] [])
          = (mkResponse 200 (TotalsOf t'),
             mkWorld (snd (postIncome sampleNow adminA bonusBody reportDb))
               [] [])
       /\ totalExpenses t' = totalExpenses t.
Proof.
  assert (H : finiteAmounts reportDb).
  { repeat split.
    - intros i [<-|[]]. reflexivity.
    - intros e [<-|[]] v [Hv|Hv]; injection Hv as <-; reflexivity.
    - destruct H as [<-|[]]. reflexivity.
    - destruct H as [<-|[]]. intros v [Hv|Hv]; injection Hv as <-; reflexivity. }
  split; [exact H|].
  destruct (@a_posted_income_shows_in_the_report sampleRuntime sampleNow adminA
              bonusBody reportDb bonus 500 sampleNow None None [] [] H
              eq_refl eq_refl)
    as (t & t' & H1 & H2 & _ & _ & H3 & _).
  exists t, t'. repeat split; assumption.
Defined.

Lemma staffDb_wellFormed : usersWellFormed staffDb.
Proof.
  split; [|apply le_n].
  repeat constructor; cbn; intuition discriminate.
Qed.

(** The only superadmin is asked to be deleted, and to be demoted. *)
Lemma the_last_superadmin_stays_example :
  usersWellFormed (snd (@deleteUser sampleRuntime idRoot staffDb))
  /\ usersWellFormed (snd (@putUser sampleRuntime idRoot demoteBody staffDb)).
Proof.
  apply (@the_last_superadmin_stays sampleRuntime idRoot demoteBody staffDb).
  exact staffDb_wellFormed.
Defined.

(** Anna, who has voted for the sample request, is deleted. *)
Lemma a_deleted_admin_no_longer_counts_example :
  approvals (snd (@deleteUser sampleRuntime idAdminA staffDb))
  = approvals staffDb
  /\ forall x,
       In x (uniqueApprovers
               (@Approval_find_populated (is_approve_of idRequest)
                  (snd (@deleteUser sampleRuntime idAdminA staffDb))))
       <-> In x (uniqueApprovers
                   (@Approval_find_populated (is_approve_of idRequest)
                      staffDb))
           /\ x <> @castObjectId sampleRuntime idAdminA.
Proof.
  apply (@a_deleted_admin_no_longer_counts sampleRuntime idAdminA staffDb
           (is_approve_of idRequest)).
  - apply staffDb_wellFormed.
  - reflexivity.
Defined.

(** The categories are listed on the sample collections, which hold none. *)
Lemma default_categories_are_seeded_once_example :
  @getExpenseCategories sampleRuntime
    (snd (@getExpenseCategories sampleRuntime (sampleDb pending [])))
  = @getExpenseCategories sampleRuntime (sampleDb pending []).
Proof.
  apply (@default_categories_are_seeded_once sampleRuntime
           (sampleDb pending [])).
  intros n [<-|[<-|[<-|[<-|[]]]]]; reflexivity.
Defined.

(** Alice, of role user, tries to write in the ledger. *)
Lemma writes_are_closed_to_other_roles_example :
  exists code message,
    @route_postExpense sampleRuntime sampleNow (TokenFor idAlice) cashEntry
      ledgerDb
    = (Refused code message, ledgerDb)
    /\ (code = 401%nat \/ code = 403%nat).
Proof.
  apply (@writes_are_closed_to_other_roles sampleRuntime sampleNow
           (TokenFor idAlice) ledgerDb bonusBody cashEntry idRoot demoteBody).
  intros user Hc Hin.
  destruct Hin as [<-|[<-|[<-|[<-|[]]]]]; try reflexivity; discriminate.
Defined.

(** Two rows of three cells, with a comma in the first. *)
Lemma csv_rows_are_unambiguous_example :
  [Some "Doe, Jane"; None; Some EmptyString]
  = [Some "Doe, Jane"; None; Some EmptyString].
Proof.
  apply (csv_rows_are_unambiguous
           [Some "Doe, Jane"; None; Some EmptyString]
           [Some "Doe, Jane"; None; Some EmptyString]);
    reflexivity.
Defined.

Lemma ledgerDb_finite : finiteAmounts ledgerDb.
Proof.
  repeat split.
  - intros i [].
  - intros e [].
  - destruct H as [<-|[]]. reflexivity.
  - destruct H as [<-|[]]. intros v [Hv|Hv]; [discriminate|].
    injection Hv as <-. reflexivity.
Qed.

(** The cash entry of 90 in the report of the sample month. *)
Lemma a_posted_expense_shows_in_the_report_unless_tagged_example :
  exists e t t',
    expenseEntries
      (snd (@postExpense sampleRuntime sampleNow adminA cashEntry ledgerDb))
    = [e]
    /\ @getRemaining sampleRuntime sampleNow None None (mkWorld ledgerDb [] [])
       = (mkResponse 200 (TotalsOf t), mkWorld ledgerDb [] [])
    /\ @getRemaining sampleRuntime sampleNow None None
         (mkWorld (snd (@postExpense sampleRuntime sampleNow adminA cashEntry
                          ledgerDb)) [] [])
       = (mkResponse 200 (TotalsOf t'),
          mkWorld (snd (@postExpense sampleRuntime sampleNow adminA cashEntry
                          ledgerDb)) [] [])
    /\ totalIncome t' = totalIncome t.
Proof.
  destruct (@a_posted_expense_shows_in_the_report_unless_tagged sampleRuntime
              sampleNow adminA cashEntry ledgerDb (Some cashItem) 90
              sampleNow None None [] [] ledgerDb_finite eq_refl eq_refl)
    as (e & t & t' & H1 & _ & _ & H2 & H3 & H4 & _).
  exists e, t, t'. repeat split; assumption.
Defined.
